(** * Attribute pipeline of the awsappsignals processor, and the ec2tagger
      translator

    Shallow embedding of
    - [plugins/processors/awsappsignals/processor.go]: [Start], [Shutdown],
      [processTraces], [processMetrics], [processMetricAttributes];
    - [translator/translate/otel/processor/ec2taggerprocessor/translator.go]:
      [Translate].

    Go methods with side effects are functions in a state monad.  The
    telemetry batch is a tree of values; a method that mutates a [pcommon.Map]
    in place returns the new map.  The resource attribute map is one object
    shared by every unit of its resource, so it is threaded through the loops.
    Whatever the collaborating components own (the resolver cache, ...) is an
    abstract world [W], threaded through every call in program order; what
    the resolver's background task does to it between two calls is left out. *)

From Stdlib Require Import ZArith List Bool Lia.
From stdpp Require Import base strings gmap list.

(** ** A state monad for the effects of a method call *)

Section StateMonad.
Context {S : Type}.

Definition M (A : Type) : Type := S -> A * S.

Definition ret {A} (a : A) : M A := fun s => (a, s).

Definition bind {A B} (m : M A) (k : A -> M B) : M B :=
  fun s => let (a, s') := m s in k a s'.
End StateMonad.
Arguments M : clear implicits.

Declare Scope go_scope.
Delimit Scope go_scope with go.
Notation "'let*' x ':=' c 'in' k" := (bind c (fun x => k))
  (at level 10, x pattern, c at level 100, k at level 200) : go_scope.
Notation "c ;; k" := (bind c (fun _ => k))
  (at level 100, right associativity) : go_scope.
Open Scope go_scope.

(** ** Go control structures over slices *)

Section Loops.
Context {S : Type}.

(** [for _, x := range l { body x }] *)
Fixpoint forRange {A} (l : list A) (body : A -> M S unit) : M S unit :=
  match l with
  | [] => ret tt
  | x :: rest => body x ;; forRange rest body
  end.

(** [for _, x := range l { body x }] where the body updates an object [acc]
    that outlives the loop. *)
Fixpoint forRangeOn {A X} (l : list A) (body : A -> X -> M S X) (acc : X)
  : M S X :=
  match l with
  | [] => ret acc
  | x :: rest => let* acc' := body x acc in forRangeOn rest body acc'
  end.

(** [for i := 0; i < l.Len(); i++ { body (l.At(i)) }]: the body updates the
    element in place, and an object [acc] shared by all iterations. *)
Fixpoint forIndex {A X} (l : list A) (body : A -> X -> M S (A * X)) (acc : X)
  : M S (list A * X) :=
  match l with
  | [] => ret ([], acc)
  | x :: rest =>
      let* (x', acc') := body x acc in
      let* (rest', acc'') := forIndex rest body acc' in
      ret (x' :: rest', acc'')
  end.

(** The same loop when nothing but the elements is updated. *)
Fixpoint forEach {A} (l : list A) (body : A -> M S A) : M S (list A) :=
  match l with
  | [] => ret []
  | x :: rest =>
      let* x' := body x in
      let* rest' := forEach rest body in
      ret (x' :: rest')
  end.

(** pdata's [RemoveIf]: [f] is called once on every element, in index
    order; the elements for which it answers [true] are removed and the
    others keep their order. *)
Fixpoint RemoveIf {A} (f : A -> M S bool) (l : list A) : M S (list A) :=
  match l with
  | [] => ret []
  | x :: rest =>
      let* remove := f x in
      let* rest' := RemoveIf f rest in
      ret (if remove then rest' else x :: rest')
  end.
End Loops.

(** ** pcommon, zap *)

(** The value of an attribute ([pcommon.Value]); the processor never looks
    inside. *)
Inductive Value : Type :=
| ValueStr (s : string)
| ValueInt (n : Z)
| ValueBool (b : bool).

#[global] Instance Value_eq_dec : EqDecision Value.
Proof. solve_decision. Defined.

(** [pcommon.Map] *)
Abbreviation Map := (gmap string Value).

(** A Go [error], by its message; [None] is [nil]. *)
Definition error : Type := string.

Inductive Level : Type := DebugLevel | ErrorLevel.

Inductive Field : Type :=
| zapError (err : error)
| zapString (key val : string).

Record Entry : Type := mkEntry {
  entryLevel : Level;
  entryMessage : string;
  entryFields : list Field
}.

(** [*zap.Logger] *)
Inductive Logger : Type := zapLogger (name : string).

(** What a call of the processor can change besides the batch: the world of
    its components, and what the processor itself has logged.  [logged] holds
    the entries the code of the processor writes; what a component writes
    through the logger it was built with is an effect of that component and
    part of its world. *)
Record State (W : Type) : Type := mkState {
  world : W;
  logged : list Entry
}.
Arguments mkState {W}.
Arguments world {W}.
Arguments logged {W}.

Section Zap.
Context {W : Type}.

Definition write (e : Entry) : M (State W) unit :=
  fun st => (tt, mkState (world st) (logged st ++ [e])).

Definition Debug (_ : Logger) (msg : string) (fields : list Field)
  : M (State W) unit :=
  write (mkEntry DebugLevel msg fields).

Definition Error (_ : Logger) (msg : string) (fields : list Field)
  : M (State W) unit :=
  write (mkEntry ErrorLevel msg fields).

(** A method of a component runs on the world and logs nothing through the
    processor. *)
Definition call {A} (m : M W A) : M (State W) A :=
  fun st => let (a, w) := m (world st) in (a, mkState w (logged st)).
End Zap.

(** ** ptrace, pmetric: the batches

    Every level keeps a field the processor has no business with (a name, a
    timestamp, a value), so that "only the attributes change" can be said. *)

Record Span : Type := mkSpan {
  Span_Name : string;
  Span_Attributes : Map
}.

Record ScopeSpans : Type := mkScopeSpans {
  ScopeSpans_Scope : string;
  ScopeSpans_Spans : list Span
}.

Record ResourceSpans : Type := mkResourceSpans {
  ResourceSpans_Resource : Map;
  ResourceSpans_ScopeSpans : list ScopeSpans
}.

(** [ptrace.Traces], by its [ResourceSpans()] *)
Definition Traces : Type := list ResourceSpans.

Record NumberDataPoint : Type := mkNumberDataPoint {
  NumberDataPoint_Attributes : Map;
  NumberDataPoint_Timestamp : Z;
  NumberDataPoint_IntValue : Z
}.

Record HistogramDataPoint : Type := mkHistogramDataPoint {
  HistogramDataPoint_Attributes : Map;
  HistogramDataPoint_Timestamp : Z;
  HistogramDataPoint_Count : Z;
  HistogramDataPoint_BucketCounts : list Z
}.

Record ExponentialHistogramDataPoint : Type := mkExponentialHistogramDataPoint {
  ExponentialHistogramDataPoint_Attributes : Map;
  ExponentialHistogramDataPoint_Timestamp : Z;
  ExponentialHistogramDataPoint_Count : Z;
  ExponentialHistogramDataPoint_Scale : Z;
  ExponentialHistogramDataPoint_ZeroCount : Z
}.

Record SummaryDataPoint : Type := mkSummaryDataPoint {
  SummaryDataPoint_Attributes : Map;
  SummaryDataPoint_Timestamp : Z;
  SummaryDataPoint_Count : Z
}.

(** [m.Type()] together with the data of that type. [pmetric.MetricType] has
    these six values; [MetricTypeEmpty] is the one the switch does not name. *)
Inductive MetricData : Type :=
| MetricTypeEmpty
| MetricTypeGauge (dps : list NumberDataPoint)
| MetricTypeSum (dps : list NumberDataPoint)
| MetricTypeHistogram (dps : list HistogramDataPoint)
| MetricTypeExponentialHistogram (dps : list ExponentialHistogramDataPoint)
| MetricTypeSummary (dps : list SummaryDataPoint).

(** [m.Type().String()] *)
Definition MetricType_String (d : MetricData) : string :=
  match d with
  | MetricTypeEmpty => "Empty"
  | MetricTypeGauge _ => "Gauge"
  | MetricTypeSum _ => "Sum"
  | MetricTypeHistogram _ => "Histogram"
  | MetricTypeExponentialHistogram _ => "ExponentialHistogram"
  | MetricTypeSummary _ => "Summary"
  end.

Record Metric : Type := mkMetric {
  Metric_Name : string;
  Metric_Data : MetricData
}.

Record ScopeMetrics : Type := mkScopeMetrics {
  ScopeMetrics_Scope : string;
  ScopeMetrics_Metrics : list Metric
}.

Record ResourceMetrics : Type := mkResourceMetrics {
  ResourceMetrics_Resource : Map;
  ResourceMetrics_ScopeMetrics : list ScopeMetrics
}.

(** [pmetric.Metrics], by its [ResourceMetrics()] *)
Definition Metrics : Type := list ResourceMetrics.

(** ** The processor *)

Module awsappsignals.

Definition failedToProcessAttribute : string := "failed to process attributes".
Definition failedToProcessAttributeWithCustomRule : string :=
  "failed to process attributes with custom rule, will drop the metric".

Section Processor.
Context {W : Type}.
(** [context.Context], [component.Host], and the two lists of the
    configuration ([appsignalsconfig.Config]). *)
Context {Ctx Host Resolver Rule : Type}.

(** [Process(attributes, resourceAttributes pcommon.Map, isTrace bool) error]:
    both maps are handed over by reference, so the call answers with both
    maps as it leaves them. *)
Record attributesMutator : Type := {
  Process : Map -> Map -> bool -> M W (Map * Map * option error)
}.

(** [ShouldBeDropped(attributes pcommon.Map) (bool, error)]: a query, the
    attribute set is read and left as it is. *)
Record allowListMutator : Type := {
  ShouldBeDropped : Map -> M W (bool * option error)
}.

(** [Stop(context.Context) error] *)
Record stopper : Type := {
  Stop : Ctx -> M W (option error)
}.

(** [*resolver.attributesResolver] implements two of the interfaces. *)
Record attributesResolver : Type := {
  resolverMutator :> attributesMutator;
  resolverStopper :> stopper
}.

(** [*normalizer.attributesNormalizer] *)
Record attributesNormalizer : Type := {
  normalizerMutator :> attributesMutator
}.

(** [*rules.ReplaceActions] *)
Record ReplaceActions : Type := {
  replaceMutator :> attributesMutator
}.

(** [*rules.KeepActions], [*rules.DropActions] *)
Record KeepActions : Type := { keepMutator :> allowListMutator }.
Record DropActions : Type := { dropMutator :> allowListMutator }.

Record Config : Type := {
  Resolvers : list Resolver;
  Rules : list Rule
}.

Record awsappsignalsprocessor : Type := mkProcessor {
  logger : Logger;
  config : Config;
  replaceActions : ReplaceActions;
  allowlistMutators : list allowListMutator;
  metricMutators : list attributesMutator;
  traceMutators : list attributesMutator;
  stoppers : list stopper
}.

(** Assignments to the fields of [ap]. *)
Definition set_replaceActions ap x :=
  mkProcessor (logger ap) (config ap) x (allowlistMutators ap)
    (metricMutators ap) (traceMutators ap) (stoppers ap).
Definition set_allowlistMutators ap x :=
  mkProcessor (logger ap) (config ap) (replaceActions ap) x
    (metricMutators ap) (traceMutators ap) (stoppers ap).
Definition set_metricMutators ap x :=
  mkProcessor (logger ap) (config ap) (replaceActions ap)
    (allowlistMutators ap) x (traceMutators ap) (stoppers ap).
Definition set_traceMutators ap x :=
  mkProcessor (logger ap) (config ap) (replaceActions ap)
    (allowlistMutators ap) (metricMutators ap) x (stoppers ap).
Definition set_stoppers ap x :=
  mkProcessor (logger ap) (config ap) (replaceActions ap)
    (allowlistMutators ap) (metricMutators ap) (traceMutators ap) x.

(** The constructors of the packages [resolver], [normalizer] and [rules]. *)
Variable NewAttributesResolver : list Resolver -> Logger -> M W attributesResolver.
Variable NewAttributesNormalizer : Logger -> M W attributesNormalizer.
Variable NewReplacer : list Rule -> M W ReplaceActions.
Variable NewKeeper : list Rule -> M W KeepActions.
Variable NewDropper : list Rule -> M W DropActions.

Definition Start (ap : awsappsignalsprocessor) (_ : Ctx) (_ : Host)
  : M (State W) (awsappsignalsprocessor * option error) :=
  let* attributesResolver :=
    call (NewAttributesResolver (Resolvers (config ap)) (logger ap)) in
  let ap := set_stoppers ap [resolverStopper attributesResolver] in
  let ap := set_metricMutators ap [resolverMutator attributesResolver] in

  let* attributesNormalizer := call (NewAttributesNormalizer (logger ap)) in
  let ap := set_metricMutators ap
    [resolverMutator attributesResolver; normalizerMutator attributesNormalizer] in

  let* replacer := call (NewReplacer (Rules (config ap))) in
  let ap := set_replaceActions ap replacer in
  let ap := set_traceMutators ap
    [resolverMutator attributesResolver; normalizerMutator attributesNormalizer;
     replaceMutator (replaceActions ap)] in

  let* keeper := call (NewKeeper (Rules (config ap))) in
  let* dropper := call (NewDropper (Rules (config ap))) in
  let ap := set_allowlistMutators ap [keepMutator keeper; dropMutator dropper] in

  ret (ap, None).

(** [Start] as the specification words it: each chain is assigned once. *)
Definition Start_effective (ap : awsappsignalsprocessor) (_ : Ctx) (_ : Host)
  : M (State W) (awsappsignalsprocessor * option error) :=
  let* attributesResolver :=
    call (NewAttributesResolver (Resolvers (config ap)) (logger ap)) in
  let* attributesNormalizer := call (NewAttributesNormalizer (logger ap)) in
  let* replacer := call (NewReplacer (Rules (config ap))) in
  let* keeper := call (NewKeeper (Rules (config ap))) in
  let* dropper := call (NewDropper (Rules (config ap))) in
  ret (mkProcessor (logger ap) (config ap) replacer
         [keepMutator keeper; dropMutator dropper]
         [resolverMutator attributesResolver; normalizerMutator attributesNormalizer]
         [resolverMutator attributesResolver; normalizerMutator attributesNormalizer;
          replaceMutator replacer]
         [resolverStopper attributesResolver],
       None).

Definition Shutdown (ap : awsappsignalsprocessor) (ctx : Ctx)
  : M (State W) (option error) :=
  forRange (stoppers ap) (fun stopper =>
    let* err := call (Stop stopper ctx) in
    match err with
    | Some err => Error (logger ap) "failed to stop" [zapError err]
    | None => ret tt
    end) ;;
  ret None.

Definition processTraces (ap : awsappsignalsprocessor) (ctx : Ctx) (td : Traces)
  : M (State W) (Traces * option error) :=
  let* rss := forEach td (fun rs =>
    let* (ilss, resourceAttributes) :=
      forIndex (ResourceSpans_ScopeSpans rs) (fun ils resourceAttributes =>
        let* (spans, resourceAttributes) :=
          forIndex (ScopeSpans_Spans ils) (fun span resourceAttributes =>
            let* (attributes, resourceAttributes) :=
              forRangeOn (traceMutators ap) (fun Mutator maps =>
                let* (maps, err) :=
                  call (Process Mutator (fst maps) (snd maps) true) in
                match err with
                | Some err =>
                    Debug (logger ap) "failed to Process span" [zapError err]
                | None => ret tt
                end ;;
                ret maps)
              (Span_Attributes span, resourceAttributes) in
            ret (mkSpan (Span_Name span) attributes, resourceAttributes))
          resourceAttributes in
        ret (mkScopeSpans (ScopeSpans_Scope ils) spans, resourceAttributes))
      (ResourceSpans_Resource rs) in
    ret (mkResourceSpans resourceAttributes ilss)) in
  ret (rss, None).

(** Lines 128-133 (and their four copies): the metric mutators on the
    attributes of one data point. *)
Definition mutateDataPoint (ap : awsappsignalsprocessor)
    (attributes resourceAttribes : Map) : M (State W) (Map * Map) :=
  forRangeOn (metricMutators ap) (fun mutator maps =>
    let* (maps, err) := call (Process mutator (fst maps) (snd maps) false) in
    match err with
    | Some err => Debug (logger ap) failedToProcessAttribute [zapError err]
    | None => ret tt
    end ;;
    ret maps)
  (attributes, resourceAttribes).

(** Lines 136-145 (and their four copies): the body of the closure given to
    [RemoveIf], on the attributes of the data point [d]. *)
Fixpoint shouldRemove (lg : Logger) (mutators : list allowListMutator)
    (attributes : Map) : M (State W) bool :=
  match mutators with
  | [] => ret false
  | mutator :: rest =>
      let* (shouldBeDropped, err) := call (ShouldBeDropped mutator attributes) in
      match err with
      | Some err => Debug lg failedToProcessAttributeWithCustomRule [zapError err]
      | None => ret tt
      end ;;
      if shouldBeDropped then ret true else shouldRemove lg rest attributes
  end.

(** Lines 148-151 (and their four copies): the replace actions on the
    attributes of one data point. *)
Definition replaceDataPoint (ap : awsappsignalsprocessor)
    (attributes resourceAttribes : Map) : M (State W) (Map * Map) :=
  let* (maps, err) :=
    call (Process (replaceActions ap) attributes resourceAttribes false) in
  match err with
  | Some err => Debug (logger ap) failedToProcessAttribute [zapError err]
  | None => ret tt
  end ;;
  ret maps.

Definition processMetricAttributes (ap : awsappsignalsprocessor) (ctx : Ctx)
    (m : Metric) (resourceAttribes : Map) : M (State W) (Metric * Map) :=
  match Metric_Data m with
  | MetricTypeGauge dps =>
      let* (dps, resourceAttribes) :=
        forIndex dps (fun d resourceAttribes =>
          let* (attributes, resourceAttribes) :=
            mutateDataPoint ap (NumberDataPoint_Attributes d) resourceAttribes in
          ret (mkNumberDataPoint attributes (NumberDataPoint_Timestamp d)
                 (NumberDataPoint_IntValue d), resourceAttribes))
        resourceAttribes in
      let* dps :=
        RemoveIf (fun d =>
          shouldRemove (logger ap) (allowlistMutators ap)
            (NumberDataPoint_Attributes d)) dps in
      let* (dps, resourceAttribes) :=
        forIndex dps (fun d resourceAttribes =>
          let* (attributes, resourceAttribes) :=
            replaceDataPoint ap (NumberDataPoint_Attributes d) resourceAttribes in
          ret (mkNumberDataPoint attributes (NumberDataPoint_Timestamp d)
                 (NumberDataPoint_IntValue d), resourceAttribes))
        resourceAttribes in
      ret (mkMetric (Metric_Name m) (MetricTypeGauge dps), resourceAttribes)
  | MetricTypeSum dps =>
      let* (dps, resourceAttribes) :=
        forIndex dps (fun d resourceAttribes =>
          let* (attributes, resourceAttribes) :=
            mutateDataPoint ap (NumberDataPoint_Attributes d) resourceAttribes in
          ret (mkNumberDataPoint attributes (NumberDataPoint_Timestamp d)
                 (NumberDataPoint_IntValue d), resourceAttribes))
        resourceAttribes in
      let* dps :=
        RemoveIf (fun d =>
          shouldRemove (logger ap) (allowlistMutators ap)
            (NumberDataPoint_Attributes d)) dps in
      let* (dps, resourceAttribes) :=
        forIndex dps (fun d resourceAttribes =>
          let* (attributes, resourceAttribes) :=
            replaceDataPoint ap (NumberDataPoint_Attributes d) resourceAttribes in
          ret (mkNumberDataPoint attributes (NumberDataPoint_Timestamp d)
                 (NumberDataPoint_IntValue d), resourceAttribes))
        resourceAttribes in
      ret (mkMetric (Metric_Name m) (MetricTypeSum dps), resourceAttribes)
  | MetricTypeHistogram dps =>
      let* (dps, resourceAttribes) :=
        forIndex dps (fun d resourceAttribes =>
          let* (attributes, resourceAttribes) :=
            mutateDataPoint ap (HistogramDataPoint_Attributes d) resourceAttribes in
          ret (mkHistogramDataPoint attributes (HistogramDataPoint_Timestamp d)
                 (HistogramDataPoint_Count d) (HistogramDataPoint_BucketCounts d),
               resourceAttribes))
        resourceAttribes in
      let* dps :=
        RemoveIf (fun d =>
          shouldRemove (logger ap) (allowlistMutators ap)
            (HistogramDataPoint_Attributes d)) dps in
      let* (dps, resourceAttribes) :=
        forIndex dps (fun d resourceAttribes =>
          let* (attributes, resourceAttribes) :=
            replaceDataPoint ap (HistogramDataPoint_Attributes d) resourceAttribes in
          ret (mkHistogramDataPoint attributes (HistogramDataPoint_Timestamp d)
                 (HistogramDataPoint_Count d) (HistogramDataPoint_BucketCounts d),
               resourceAttribes))
        resourceAttribes in
      ret (mkMetric (Metric_Name m) (MetricTypeHistogram dps), resourceAttribes)
  | MetricTypeExponentialHistogram dps =>
      let* (dps, resourceAttribes) :=
        forIndex dps (fun d resourceAttribes =>
          let* (attributes, resourceAttribes) :=
            mutateDataPoint ap (ExponentialHistogramDataPoint_Attributes d)
              resourceAttribes in
          ret (mkExponentialHistogramDataPoint attributes
                 (ExponentialHistogramDataPoint_Timestamp d)
                 (ExponentialHistogramDataPoint_Count d)
                 (ExponentialHistogramDataPoint_Scale d)
                 (ExponentialHistogramDataPoint_ZeroCount d),
               resourceAttribes))
        resourceAttribes in
      let* dps :=
        RemoveIf (fun d =>
          shouldRemove (logger ap) (allowlistMutators ap)
            (ExponentialHistogramDataPoint_Attributes d)) dps in
      let* (dps, resourceAttribes) :=
        forIndex dps (fun d resourceAttribes =>
          let* (attributes, resourceAttribes) :=
            replaceDataPoint ap (ExponentialHistogramDataPoint_Attributes d)
              resourceAttribes in
          ret (mkExponentialHistogramDataPoint attributes
                 (ExponentialHistogramDataPoint_Timestamp d)
                 (ExponentialHistogramDataPoint_Count d)
                 (ExponentialHistogramDataPoint_Scale d)
                 (ExponentialHistogramDataPoint_ZeroCount d),
               resourceAttribes))
        resourceAttribes in
      ret (mkMetric (Metric_Name m) (MetricTypeExponentialHistogram dps),
           resourceAttribes)
  | MetricTypeSummary dps =>
      let* (dps, resourceAttribes) :=
        forIndex dps (fun d resourceAttribes =>
          let* (attributes, resourceAttribes) :=
            mutateDataPoint ap (SummaryDataPoint_Attributes d) resourceAttribes in
          ret (mkSummaryDataPoint attributes (SummaryDataPoint_Timestamp d)
                 (SummaryDataPoint_Count d), resourceAttribes))
        resourceAttribes in
      let* dps :=
        RemoveIf (fun d =>
          shouldRemove (logger ap) (allowlistMutators ap)
            (SummaryDataPoint_Attributes d)) dps in
      let* (dps, resourceAttribes) :=
        forIndex dps (fun d resourceAttribes =>
          let* (attributes, resourceAttribes) :=
            replaceDataPoint ap (SummaryDataPoint_Attributes d) resourceAttribes in
          ret (mkSummaryDataPoint attributes (SummaryDataPoint_Timestamp d)
                 (SummaryDataPoint_Count d), resourceAttribes))
        resourceAttribes in
      ret (mkMetric (Metric_Name m) (MetricTypeSummary dps), resourceAttribes)
  | MetricTypeEmpty =>
      Debug (logger ap) "Ignore unknown metric type"
        [zapString "type" (MetricType_String (Metric_Data m))] ;;
      ret (m, resourceAttribes)
  end.

Definition processMetrics (ap : awsappsignalsprocessor) (ctx : Ctx) (md : Metrics)
  : M (State W) (Metrics * option error) :=
  let* rms := forEach md (fun rs =>
    let* (ilms, resourceAttributes) :=
      forIndex (ResourceMetrics_ScopeMetrics rs) (fun ils resourceAttributes =>
        let* (metrics, resourceAttributes) :=
          forIndex (ScopeMetrics_Metrics ils) (fun m resourceAttributes =>
            processMetricAttributes ap ctx m resourceAttributes)
          resourceAttributes in
        ret (mkScopeMetrics (ScopeMetrics_Scope ils) metrics, resourceAttributes))
      (ResourceMetrics_Resource rs) in
    ret (mkResourceMetrics resourceAttributes ilms)) in
  ret (rms, None).

End Processor.

End awsappsignals.

(** ** The rule engine, as far as the filter phase needs it *)

Module rules.

(** Modelled from the spec: the selectors of package [rules], which is not
    under src/.  Section 4.3: selector matching supports exact-value and
    pattern match against attribute keys; a rule matches a unit iff all its
    selector clauses match.  A compiled pattern is the predicate it denotes. *)
Inductive Matcher : Type :=
| Exact (value : string)
| Pattern (matches : string -> bool).

Record Clause : Type := mkClause {
  clauseKey : string;
  clauseMatcher : Matcher
}.

Inductive Action : Type :=
| Replace (newValue : string)
| Keep
| Drop.

Record Rule : Type := mkRule {
  selector : list Clause;
  action : Action
}.

Definition isKeep (r : Rule) : bool :=
  match action r with Keep => true | _ => false end.

Definition isDrop (r : Rule) : bool :=
  match action r with Drop => true | _ => false end.

Definition matchesClause (attributes : Map) (c : Clause) : bool :=
  match attributes !! clauseKey c with
  | Some (ValueStr s) =>
      match clauseMatcher c with
      | Exact value => String.eqb value s
      | Pattern matches => matches s
      end
  | _ => false
  end.

Definition matchesRule (attributes : Map) (r : Rule) : bool :=
  forallb (matchesClause attributes) (selector r).

(** Modelled from the spec: [Keeper.ShouldBeDropped] of package [rules], which
    is not under src/.  Section 4.3: if at least one allow-rule is configured
    and the unit matches none, it is a drop candidate; an empty rule set means
    the mutator never triggers a drop. *)
Definition keeperShouldBeDropped (allow : list Rule) (attributes : Map)
  : bool * option error :=
  match allow with
  | [] => (false, None)
  | _ :: _ => (negb (existsb (matchesRule attributes) allow), None)
  end.

(** Modelled from the spec: [Dropper.ShouldBeDropped] of package [rules], which
    is not under src/.  Section 4.3: Dropper evaluates deny-list rules, a match
    means drop; an empty rule set means the mutator never triggers a drop. *)
Definition dropperShouldBeDropped (deny : list Rule) (attributes : Map)
  : bool * option error :=
  (existsb (matchesRule attributes) deny, None).

Section Constructors.
Context {W Ctx : Type}.

(** Modelled from the spec: [rules.NewKeeper], not under src/; the Keeper
    consumes the rules whose action is keep (section 6). *)
Definition NewKeeper (rs : list Rule) : M W (@awsappsignals.KeepActions W) :=
  ret {| awsappsignals.keepMutator :=
           {| awsappsignals.ShouldBeDropped := fun attributes =>
                ret (keeperShouldBeDropped (List.filter isKeep rs) attributes) |} |}.

(** Modelled from the spec: [rules.NewDropper], not under src/; the Dropper
    consumes the rules whose action is drop (section 6). *)
Definition NewDropper (rs : list Rule) : M W (@awsappsignals.DropActions W) :=
  ret {| awsappsignals.dropMutator :=
           {| awsappsignals.ShouldBeDropped := fun attributes =>
                ret (dropperShouldBeDropped (List.filter isDrop rs) attributes) |} |}.
End Constructors.

End rules.

(** ** The ec2tagger translator *)

Module ec2taggerprocessor.

(** [time.Duration]: nanoseconds in an int64. *)
Definition Duration : Type := Z.
Definition Nanosecond : Duration := 1%Z.
Definition Second : Duration := (1000000000 * Nanosecond)%Z.
Definition Minute : Duration := (60 * Second)%Z.

(** [component.ID] *)
Record component_ID : Type := NewIDWithName {
  idType : string;
  idName : string
}.

(** [common.MissingKeyError] *)
Record MissingKeyError : Type := mkMissingKeyError {
  MissingKeyError_ID : component_ID;
  MissingKeyError_JsonKey : string
}.

(** [ec2tagger.Config], by the fields [Translate] assigns. The credential
    fields filled by [Unmarshal] stay inside [Credentials]. *)
Record Config : Type := mkConfig {
  RefreshTagsInterval : Duration;
  RefreshVolumesInterval : Duration;
  EC2MetadataTags : list string;
  EC2InstanceTagKeys : list string;
  EBSDeviceKeys : list string;
  DiskDeviceTagKey : string;
  MiddlewareID : option component_ID;
  IMDSRetries : Z;
  Credentials : gmap string string
}.

(** [processor.Factory], by what the translator asks of it. *)
Record Factory : Type := mkFactory {
  Factory_Type : string;
  CreateDefaultConfig : Config
}.

Record translator : Type := mkTranslator {
  name : string;
  factory : Factory
}.

Section Translate.
(** [confmap.Conf] with [IsSet], and [common.GetString] on it. *)
Context {Conf : Type}.
Variable IsSet : Conf -> string -> bool.
Variable GetString : Conf -> string -> string * bool.
(** [common.ConfigKey] and the keys of package [common]. *)
Variable ConfigKey : list string -> string.
Variables MetricsKey AppendDimensionsKey MetricsCollectedKey DiskKey : string.
(** Package [ec2tagger]: the table is a Go map, given here in the order in
    which the [range] happens to enumerate it. *)
Variable SupportedAppendDimensions : list (string * string).
Variables AttributeVolumeId ValueAppendDimensionVolumeId : string.
(** [agent.Global_Config.Credentials] through [confmap.NewFromStringMap] and
    [Unmarshal], whose error is discarded. *)
Variable unmarshalCredentials : Config -> Config * option error.
Variable StatusCodeID : component_ID.
Variable GetDefaultRetryNumber : Z.

Definition Ec2taggerKey : string := ConfigKey [MetricsKey; AppendDimensionsKey].

(** [ec2tagger.NewFactory()], whose default config is an [*ec2tagger.Config]. *)
Variable NewFactory : Factory.

Definition NewTranslatorWithName (name : string) : translator :=
  mkTranslator name NewFactory.

Definition NewTranslator : translator := NewTranslatorWithName "".

Definition ID (t : translator) : component_ID :=
  NewIDWithName (Factory_Type (factory t)) (name t).

Definition set_EC2InstanceTagKeys cfg x :=
  mkConfig (RefreshTagsInterval cfg) (RefreshVolumesInterval cfg)
    (EC2MetadataTags cfg) x (EBSDeviceKeys cfg) (DiskDeviceTagKey cfg)
    (MiddlewareID cfg) (IMDSRetries cfg) (Credentials cfg).
Definition set_EC2MetadataTags cfg x :=
  mkConfig (RefreshTagsInterval cfg) (RefreshVolumesInterval cfg)
    x (EC2InstanceTagKeys cfg) (EBSDeviceKeys cfg) (DiskDeviceTagKey cfg)
    (MiddlewareID cfg) (IMDSRetries cfg) (Credentials cfg).
Definition set_RefreshTagsInterval cfg x :=
  mkConfig x (RefreshVolumesInterval cfg)
    (EC2MetadataTags cfg) (EC2InstanceTagKeys cfg) (EBSDeviceKeys cfg)
    (DiskDeviceTagKey cfg) (MiddlewareID cfg) (IMDSRetries cfg) (Credentials cfg).
Definition set_RefreshVolumesInterval cfg x :=
  mkConfig (RefreshTagsInterval cfg) x
    (EC2MetadataTags cfg) (EC2InstanceTagKeys cfg) (EBSDeviceKeys cfg)
    (DiskDeviceTagKey cfg) (MiddlewareID cfg) (IMDSRetries cfg) (Credentials cfg).
Definition set_EBSDeviceKeys cfg x :=
  mkConfig (RefreshTagsInterval cfg) (RefreshVolumesInterval cfg)
    (EC2MetadataTags cfg) (EC2InstanceTagKeys cfg) x (DiskDeviceTagKey cfg)
    (MiddlewareID cfg) (IMDSRetries cfg) (Credentials cfg).
Definition set_DiskDeviceTagKey cfg x :=
  mkConfig (RefreshTagsInterval cfg) (RefreshVolumesInterval cfg)
    (EC2MetadataTags cfg) (EC2InstanceTagKeys cfg) (EBSDeviceKeys cfg) x
    (MiddlewareID cfg) (IMDSRetries cfg) (Credentials cfg).
Definition set_MiddlewareID cfg x :=
  mkConfig (RefreshTagsInterval cfg) (RefreshVolumesInterval cfg)
    (EC2MetadataTags cfg) (EC2InstanceTagKeys cfg) (EBSDeviceKeys cfg)
    (DiskDeviceTagKey cfg) x (IMDSRetries cfg) (Credentials cfg).
Definition set_IMDSRetries cfg x :=
  mkConfig (RefreshTagsInterval cfg) (RefreshVolumesInterval cfg)
    (EC2MetadataTags cfg) (EC2InstanceTagKeys cfg) (EBSDeviceKeys cfg)
    (DiskDeviceTagKey cfg) (MiddlewareID cfg) x (Credentials cfg).

(** Lines 51-60: the loop over the supported append dimensions. *)
Definition appendDimensions (conf : Conf) (cfg : Config) : Config :=
  fold_left (fun cfg kv =>
    let (k, v) := kv : string * string in
    let (value, ok) := GetString conf (ConfigKey [Ec2taggerKey; k]) in
    if ok && String.eqb v value then
      if String.eqb k "AutoScalingGroupName" then
        set_EC2InstanceTagKeys cfg (EC2InstanceTagKeys cfg ++ [k])
      else
        set_EC2MetadataTags cfg (EC2MetadataTags cfg ++ [k])
    else cfg)
  SupportedAppendDimensions cfg.

(** The first argument is a [*confmap.Conf]: [None] is the nil pointer. The
    result is the pair [(component.Config, error)]. *)
Definition Translate (t : translator) (conf : option Conf)
  : option Config * option MissingKeyError :=
  match conf with
  | None => (None, Some (mkMissingKeyError (ID t) Ec2taggerKey))
  | Some conf =>
      if negb (IsSet conf Ec2taggerKey) then
        (None, Some (mkMissingKeyError (ID t) Ec2taggerKey))
      else
        let cfg := CreateDefaultConfig (factory t) in
        let cfg := fst (unmarshalCredentials cfg) in
        let cfg := appendDimensions conf cfg in
        let cfg := set_RefreshTagsInterval cfg 0%Z in
        let cfg := set_RefreshVolumesInterval cfg 0%Z in
        let cfg :=
          let (value, ok) :=
            GetString conf
              (ConfigKey [MetricsKey; MetricsCollectedKey; DiskKey;
                          AppendDimensionsKey; AttributeVolumeId]) in
          if ok && String.eqb value ValueAppendDimensionVolumeId then
            let cfg := set_RefreshVolumesInterval cfg (5 * Minute)%Z in
            let cfg := set_EBSDeviceKeys cfg ["*"] in
            set_DiskDeviceTagKey cfg "device"
          else cfg in
        let cfg := set_MiddlewareID cfg (Some StatusCodeID) in
        let cfg := set_IMDSRetries cfg GetDefaultRetryNumber in
        (Some cfg, None)
  end.

(** The two conditions the statement about [Translate] names. *)
Definition keyMissing (conf : option Conf) : bool :=
  match conf with
  | None => true
  | Some c => negb (IsSet c Ec2taggerKey)
  end.

Definition volumeIdConfigured (conf : Conf) : bool :=
  let (value, ok) :=
    GetString conf
      (ConfigKey [MetricsKey; MetricsCollectedKey; DiskKey;
                  AppendDimensionsKey; AttributeVolumeId]) in
  ok && String.eqb value ValueAppendDimensionVolumeId.
End Translate.

End ec2taggerprocessor.

(** ** Notions the statements use *)

Import awsappsignals.

Section Notions.
Context {W Ctx Host Resolver Rule : Type}.
Abbreviation processor := (@awsappsignalsprocessor W Ctx Resolver Rule).
Abbreviation mutator := (@attributesMutator W).
Abbreviation filterMutator := (@allowListMutator W).

(** What one call of [Process] does to the two maps and the world, the
    error put aside. *)
Definition effect (isTrace : bool) (s : Map * Map * W) (m : mutator)
  : Map * Map * W :=
  let '(attributes, resourceAttributes, w) := s in
  let '(maps, _, w') := Process m attributes resourceAttributes isTrace w in
  (maps, w').

(** A mutator leaves its [resourceAttributes] argument as it found it. *)
Definition preservesResource (m : mutator) : Prop :=
  forall attributes resourceAttributes isTrace w,
    snd (fst (fst (Process m attributes resourceAttributes isTrace w)))
    = resourceAttributes.

(** The same component with its error replaced by nil. *)
Definition quiet (m : mutator) : mutator :=
  {| Process := fun attributes resourceAttributes isTrace w =>
       let '(maps, _, w') := Process m attributes resourceAttributes isTrace w in
       (maps, None, w') |}.

Definition quietFilter (m : filterMutator) : filterMutator :=
  {| ShouldBeDropped := fun attributes w =>
       let '(shouldBeDropped, _, w') := ShouldBeDropped m attributes w in
       (shouldBeDropped, None, w') |}.

Definition quietProcessor (ap : processor) : processor :=
  mkProcessor (logger ap) (config ap)
    {| replaceMutator := quiet (replaceActions ap) |}
    (map quietFilter (allowlistMutators ap))
    (map quiet (metricMutators ap))
    (map quiet (traceMutators ap))
    (stoppers ap).

(** The answers of the stoppers when each is stopped once, in order, each in
    the world its predecessors left. *)
Fixpoint stopResults (ctx : Ctx) (ss : list (@stopper W Ctx)) (w : W)
  : list (option error) :=
  match ss with
  | [] => []
  | s :: rest => let (r, w') := Stop s ctx w in r :: stopResults ctx rest w'
  end.

Definition stopFailure (r : option error) : list Entry :=
  match r with
  | Some err => [mkEntry ErrorLevel "failed to stop" [zapError err]]
  | None => []
  end.

(** The three phases of the specification (section 4.4), over any kind of
    data point that gives access to its attribute set. *)
Section Phases.
Context {D : Type}.
Variable get : D -> Map.
Variable set : D -> Map -> D.
Variable ap : processor.

Definition mutatePhase (dps : list D) (res : Map) : M (State W) (list D * Map) :=
  forIndex dps (fun d res =>
    let* (attributes, res) := mutateDataPoint ap (get d) res in
    ret (set d attributes, res)) res.

Definition filterPhase (dps : list D) : M (State W) (list D) :=
  RemoveIf (fun d => shouldRemove (logger ap) (allowlistMutators ap) (get d)) dps.

Definition replacePhase (dps : list D) (res : Map) : M (State W) (list D * Map) :=
  forIndex dps (fun d res =>
    let* (attributes, res) := replaceDataPoint ap (get d) res in
    ret (set d attributes, res)) res.

Definition threePhases (dps : list D) (res : Map) : M (State W) (list D * Map) :=
  let* (mutated, res) := mutatePhase dps res in
  let* survivors := filterPhase mutated in
  replacePhase survivors res.
End Phases.

(** The code's answer [result] for a metric is the three phases in order:
    all data points through the mutate phase first, the filter phase on the
    mutated points next, the replace phase last and on what the filter left;
    the first and the last phase touch nothing but attribute sets. *)
Definition phasesInOrder {D} (get : D -> Map) (set : D -> Map -> D)
    (ap : processor) (wrap : list D -> MetricData) (name : string)
    (dps : list D) (res : Map) (st : State W)
    (result : Metric * Map * State W) : Prop :=
  let '(mutated, res1, st1) := mutatePhase get set ap dps res st in
  let '(kept, st2) := filterPhase get ap mutated st1 in
  let '(replaced, res3, st3) := replacePhase get set ap kept res1 st2 in
  result = (mkMetric name (wrap replaced), res3, st3)
  /\ Forall2 (fun d d' => d' = set d (get d')) dps mutated
  /\ sublist kept mutated
  /\ Forall2 (fun d d' => d' = set d (get d')) kept replaced.

(** The verdicts of the filter phase on a list of attribute sets, in order. *)
Fixpoint verdicts (ap : processor) (l : list Map) : M (State W) (list bool) :=
  match l with
  | [] => ret []
  | attributes :: rest =>
      let* v := shouldRemove (logger ap) (allowlistMutators ap) attributes in
      let* vs := verdicts ap rest in
      ret (v :: vs)
  end.

(** What the verdicts leave of a list. *)
Fixpoint survivors {A} (vs : list bool) (l : list A) : list A :=
  match vs, l with
  | v :: vs', x :: l' => if v then survivors vs' l' else x :: survivors vs' l'
  | _, _ => []
  end.

(** One answer for each verdict: nothing for a drop, the next final
    attribute set otherwise. *)
Fixpoint decided (vs : list bool) (final : list Map) : list (option Map) :=
  match vs with
  | [] => []
  | true :: vs' => None :: decided vs' final
  | false :: vs' =>
      match final with
      | a :: final' => Some a :: decided vs' final'
      | [] => []
      end
  end.

(** The outcome of the pipeline on attribute sets alone: for each input
    set, in order, [None] when its data point is dropped and otherwise the
    attribute set it ends with. *)
Definition outcome (ap : processor) (l : list Map) (res : Map)
  : M (State W) (list (option Map) * Map) :=
  let* (mutated, res) := forIndex l (fun a res => mutateDataPoint ap a res) res in
  let* vs := verdicts ap mutated in
  let* (final, res) :=
    forIndex (survivors vs mutated) (fun a res => replaceDataPoint ap a res) res in
  ret (decided vs final, res).

(** The data points an outcome leaves: those not dropped, each with its
    final attribute set. *)
Fixpoint applyOutcome {D} (set : D -> Map -> D) (dps : list D)
    (o : list (option Map)) : list D :=
  match dps, o with
  | d :: dps', Some a :: o' => set d a :: applyOutcome set dps' o'
  | _ :: dps', None :: o' => applyOutcome set dps' o'
  | _, _ => []
  end.
End Notions.

(** Two computations agree up to what is logged: from states with the same
    world they give the same result and leave the same world. *)
Definition agree {W A} (m1 m2 : M (State W) A) : Prop :=
  forall st1 st2, world st1 = world st2 ->
    fst (m1 st1) = fst (m2 st2) /\ world (snd (m1 st1)) = world (snd (m2 st2)).

(** How many resource spans, scope spans per resource and spans per scope a
    batch has. *)
Definition spanCounts (td : Traces) : list (list nat) :=
  map (fun rs => map (fun ils => length (ScopeSpans_Spans ils))
                   (ResourceSpans_ScopeSpans rs)) td.

(** The batch without its span attributes. *)
Definition spanNames (td : Traces) : list (list (string * list string)) :=
  map (fun rs => map (fun ils => (ScopeSpans_Scope ils,
                                  map Span_Name (ScopeSpans_Spans ils)))
                   (ResourceSpans_ScopeSpans rs)) td.

(** Access to the attribute set of each kind of data point. *)
Definition NumberDataPoint_set (d : NumberDataPoint) (a : Map) : NumberDataPoint :=
  mkNumberDataPoint a (NumberDataPoint_Timestamp d) (NumberDataPoint_IntValue d).
Definition HistogramDataPoint_set (d : HistogramDataPoint) (a : Map) :=
  mkHistogramDataPoint a (HistogramDataPoint_Timestamp d)
    (HistogramDataPoint_Count d) (HistogramDataPoint_BucketCounts d).
Definition ExponentialHistogramDataPoint_set (d : ExponentialHistogramDataPoint)
    (a : Map) :=
  mkExponentialHistogramDataPoint a (ExponentialHistogramDataPoint_Timestamp d)
    (ExponentialHistogramDataPoint_Count d) (ExponentialHistogramDataPoint_Scale d)
    (ExponentialHistogramDataPoint_ZeroCount d).
Definition SummaryDataPoint_set (d : SummaryDataPoint) (a : Map) :=
  mkSummaryDataPoint a (SummaryDataPoint_Timestamp d) (SummaryDataPoint_Count d).

(** ** A concrete processor

    The world is the list of the calls the components have seen.  The
    resolver has a cold cache and reports it as an error, and fails to stop;
    the normalizer rewrites [ip] to ["unresolved"]; there are no replace
    rules; one keep rule and one drop rule are configured. *)

Module fixture.

Definition note (s : string) : M (list string) unit :=
  fun w => (tt, w ++ [s]).

Definition coldResolver : @attributesResolver (list string) unit :=
  {| resolverMutator :=
       {| Process := fun attributes resourceAttributes _ =>
            note "Resolver.Process" ;;
            ret (attributes, resourceAttributes, Some "no cache entry") |};
     resolverStopper :=
       {| Stop := fun _ => note "Resolver.Stop" ;; ret (Some "deadline exceeded") |} |}.

Definition normalizer : @attributesNormalizer (list string) :=
  {| normalizerMutator :=
       {| Process := fun attributes resourceAttributes _ =>
            note "Normalizer.Process" ;;
            ret (match attributes !! "ip" with
                 | Some _ => <["ip" := ValueStr "unresolved"]> attributes
                 | None => attributes
                 end, resourceAttributes, None) |} |}.

Definition noReplacer : @ReplaceActions (list string) :=
  {| replaceMutator :=
       {| Process := fun attributes resourceAttributes _ =>
            note "Replacer.Process" ;;
            ret (attributes, resourceAttributes, None) |} |}.

Definition keepCheckout : rules.Rule :=
  rules.mkRule [rules.mkClause "service" (rules.Exact "checkout")] rules.Keep.

Definition dropUnresolved : rules.Rule :=
  rules.mkRule [rules.mkClause "ip" (rules.Exact "unresolved")] rules.Drop.

Definition cfg : @Config string rules.Rule :=
  {| Resolvers := ["ip-to-service"]; Rules := [keepCheckout; dropUnresolved] |}.

(** The processor as its factory leaves it, before [Start]. *)
Definition created : @awsappsignalsprocessor (list string) unit string rules.Rule :=
  mkProcessor (zapLogger "awsappsignals") cfg noReplacer [] [] [] [].

Definition start :=
  @Start (list string) unit unit string rules.Rule
    (fun _ _ => ret coldResolver) (fun _ => ret normalizer) (fun _ => ret noReplacer)
    rules.NewKeeper rules.NewDropper.

Definition st0 : State (list string) := mkState [] [].

Definition started := fst (fst (start created tt tt st0)).

(** A filter whose evaluation fails while it answers "drop", and one that
    fails while it answers "keep". *)
Definition failingDrop : @allowListMutator (list string) :=
  {| ShouldBeDropped := fun _ =>
       note "failingDrop.ShouldBeDropped" ;; ret (true, Some "rule evaluation failed") |}.

Definition failingKeep : @allowListMutator (list string) :=
  {| ShouldBeDropped := fun _ =>
       note "failingKeep.ShouldBeDropped" ;; ret (false, Some "rule evaluation failed") |}.

(** A second stopper, which stops cleanly. *)
Definition cleanStopper : @stopper (list string) unit :=
  {| Stop := fun _ => note "Other.Stop" ;; ret None |}.

(** The started processor with the failing filter in place of its filters. *)
Definition withFailingDrop :=
  set_allowlistMutators started [failingDrop].

(** The filters [Start] has built from the configuration. *)
Definition keeper : @KeepActions (list string) :=
  fst (rules.NewKeeper (Rules cfg) []).

Definition dropper : @DropActions (list string) :=
  fst (rules.NewDropper (Rules cfg) []).

Definition host : Map := {[ "host.name" := ValueStr "i-0abc" ]}.

Definition checkout5 : Map :=
  {[ "service" := ValueStr "checkout"; "ip" := ValueStr "10.0.0.5" ]}.

Definition checkoutUnresolved : Map :=
  {[ "service" := ValueStr "checkout"; "ip" := ValueStr "unresolved" ]}.

Definition cart9 : Map :=
  {[ "service" := ValueStr "cart"; "ip" := ValueStr "10.0.0.9" ]}.

Definition point (attributes : Map) : NumberDataPoint :=
  mkNumberDataPoint attributes 100 7.

Definition latency : Metric :=
  mkMetric "latency"
    (MetricTypeGauge [point checkout5]).

Definition td0 : Traces :=
  [mkResourceSpans host
     [mkScopeSpans "http" [mkSpan "GET /" checkout5; mkSpan "POST /cart" cart9]]].

Definition md0 : Metrics :=
  [mkResourceMetrics host
     [mkScopeMetrics "http" [latency; mkMetric "unset" MetricTypeEmpty]]].

End fixture.

(** ** A concrete configuration for the translator

    The configuration is a flat map from ["::"]-joined paths to strings; the
    keys and the table of supported dimensions are those of the agent's
    configuration schema. *)

Module ec2fixture.
Import ec2taggerprocessor.

Definition IsSet (c : gmap string string) (key : string) : bool :=
  match c !! key with Some _ => true | None => false end.

Definition GetString (c : gmap string string) (key : string) : string * bool :=
  match c !! key with Some v => (v, true) | None => ("", false) end.

Definition ConfigKey (keys : list string) : string := String.concat "::" keys.

Definition SupportedAppendDimensions : list (string * string) :=
  [("AutoScalingGroupName", "${aws:AutoScalingGroupName}");
   ("ImageId", "${aws:ImageId}");
   ("InstanceId", "${aws:InstanceId}");
   ("InstanceType", "${aws:InstanceType}")].

Definition defaults : Config :=
  mkConfig (3 * Minute)%Z (7 * Minute)%Z [] [] [] "" None 0%Z ∅.

Definition t : translator := NewTranslator (mkFactory "ec2tagger" defaults).

Definition translate :=
  @Translate (gmap string string) IsSet GetString ConfigKey
    "metrics" "append_dimensions" "metrics_collected" "disk"
    SupportedAppendDimensions "VolumeId" "${aws:VolumeId}"
    (fun cfg => (cfg, None)) (NewIDWithName "agenthealth" "statuscode") 1%Z.

(** [append_dimensions] with the instance id and the auto scaling group, and
    the volume id requested for the disk metrics. *)
Definition withVolumes : gmap string string :=
  {[ "metrics::append_dimensions" := "set";
     "metrics::append_dimensions::InstanceId" := "${aws:InstanceId}";
     "metrics::append_dimensions::AutoScalingGroupName" := "${aws:AutoScalingGroupName}";
     "metrics::metrics_collected::disk::append_dimensions::VolumeId" := "${aws:VolumeId}" ]}.

(** The same without the disk section. *)
Definition withoutVolumes : gmap string string :=
  {[ "metrics::append_dimensions" := "set";
     "metrics::append_dimensions::InstanceId" := "${aws:InstanceId}" ]}.

(** No [append_dimensions] at all. *)
Definition logsOnly : gmap string string :=
  {[ "logs::metrics_collected" := "set" ]}.

End ec2fixture.

(** ** Further notions *)

(** The batch of metrics without its data points: scopes, names and kinds. *)
Definition metricNames (md : Metrics) : list (list (string * list (string * string))) :=
  map (fun rm => map (fun sm =>
         (ScopeMetrics_Scope sm,
          map (fun m => (Metric_Name m, MetricType_String (Metric_Data m)))
            (ScopeMetrics_Metrics sm)))
       (ResourceMetrics_ScopeMetrics rm)) md.

(** The data points of a metric without their attribute sets: the timestamp
    and the other numbers of each, in order. *)
Definition NumberDataPoint_payload (d : NumberDataPoint) : Z * list Z :=
  (NumberDataPoint_Timestamp d, [NumberDataPoint_IntValue d]).
Definition HistogramDataPoint_payload (d : HistogramDataPoint) : Z * list Z :=
  (HistogramDataPoint_Timestamp d,
   HistogramDataPoint_Count d :: HistogramDataPoint_BucketCounts d).
Definition ExponentialHistogramDataPoint_payload (d : ExponentialHistogramDataPoint)
  : Z * list Z :=
  (ExponentialHistogramDataPoint_Timestamp d,
   [ExponentialHistogramDataPoint_Count d; ExponentialHistogramDataPoint_Scale d;
    ExponentialHistogramDataPoint_ZeroCount d]).
Definition SummaryDataPoint_payload (d : SummaryDataPoint) : Z * list Z :=
  (SummaryDataPoint_Timestamp d, [SummaryDataPoint_Count d]).

(** The data points of a metric, each as its attribute set and the rest. *)
Definition points (d : MetricData) : list (Map * (Z * list Z)) :=
  match d with
  | MetricTypeEmpty => []
  | MetricTypeGauge dps =>
      map (fun d => (NumberDataPoint_Attributes d, NumberDataPoint_payload d)) dps
  | MetricTypeSum dps =>
      map (fun d => (NumberDataPoint_Attributes d, NumberDataPoint_payload d)) dps
  | MetricTypeHistogram dps =>
      map (fun d => (HistogramDataPoint_Attributes d, HistogramDataPoint_payload d)) dps
  | MetricTypeExponentialHistogram dps =>
      map (fun d => (ExponentialHistogramDataPoint_Attributes d,
                     ExponentialHistogramDataPoint_payload d)) dps
  | MetricTypeSummary dps =>
      map (fun d => (SummaryDataPoint_Attributes d, SummaryDataPoint_payload d)) dps
  end.

Definition payloads (d : MetricData) : list (Z * list Z) :=
  match d with
  | MetricTypeEmpty => []
  | MetricTypeGauge dps => map NumberDataPoint_payload dps
  | MetricTypeSum dps => map NumberDataPoint_payload dps
  | MetricTypeHistogram dps => map HistogramDataPoint_payload dps
  | MetricTypeExponentialHistogram dps => map ExponentialHistogramDataPoint_payload dps
  | MetricTypeSummary dps => map SummaryDataPoint_payload dps
  end.

Section MoreNotions.
Context {W : Type}.

(** A filter that never asks to drop. *)
Definition neverDrops (m : @allowListMutator W) : Prop :=
  forall attributes w, fst (fst (ShouldBeDropped m attributes w)) = false.

(** A filter that leaves the world alone. *)
Definition statelessFilter (m : @allowListMutator W) : Prop :=
  forall attributes w, snd (ShouldBeDropped m attributes w) = w.

(** A mutator that leaves the world and the resource attributes alone. *)
Definition readOnly (m : @attributesMutator W) : Prop :=
  forall attributes resourceAttributes isTrace w,
    snd (Process m attributes resourceAttributes isTrace w) = w
    /\ snd (fst (fst (Process m attributes resourceAttributes isTrace w)))
       = resourceAttributes.

(** The attribute set a chain makes of [attributes], in the world [w]. *)
Definition chained (isTrace : bool) (ms : list (@attributesMutator W)) (w : W)
    (resourceAttributes attributes : Map) : Map :=
  fst (fst (fold_left (effect isTrace) ms (attributes, resourceAttributes, w))).

(** Some filter asks to drop [attributes], in the world [w]. *)
Definition dropVerdict (ms : list (@allowListMutator W)) (w : W) (attributes : Map)
  : bool :=
  existsb (fun m => fst (fst (ShouldBeDropped m attributes w))) ms.

(** Components that never return an error. *)
Definition neverFails (m : @attributesMutator W) : Prop :=
  forall attributes resourceAttributes isTrace w,
    snd (fst (Process m attributes resourceAttributes isTrace w)) = None.

Definition filterNeverFails (m : @allowListMutator W) : Prop :=
  forall attributes w, snd (fst (ShouldBeDropped m attributes w)) = None.

(** Two mutators that cannot be told apart by calls with the given flag. *)
Definition agreeOn (isTrace : bool) (m m' : @attributesMutator W) : Prop :=
  forall attributes resourceAttributes w,
    Process m attributes resourceAttributes isTrace w
    = Process m' attributes resourceAttributes isTrace w.

(** A computation keeps what is logged and appends only entries that
    satisfy [P]. *)
Definition appends {A} (P : Entry -> Prop) (m : M (State W) A) : Prop :=
  forall st, exists new, logged (snd (m st)) = logged st ++ new /\ Forall P new.
End MoreNotions.

(** The entries the processing of a batch can write. *)
Definition spanFailure (e : Entry) : Prop :=
  exists err, e = mkEntry DebugLevel "failed to Process span" [zapError err].

Definition metricNote (e : Entry) : Prop :=
  (exists err, e = mkEntry DebugLevel failedToProcessAttribute [zapError err])
  \/ (exists err,
        e = mkEntry DebugLevel failedToProcessAttributeWithCustomRule [zapError err])
  \/ e = mkEntry DebugLevel "Ignore unknown metric type" [zapString "type" "Empty"].

Definition hasNoEmptyMetric (md : Metrics) : Prop :=
  Forall (fun rm => Forall (fun sm =>
    Forall (fun m => Metric_Data m <> MetricTypeEmpty) (ScopeMetrics_Metrics sm))
    (ResourceMetrics_ScopeMetrics rm)) md.

Module fixture2.
(** The started processor with a filter that fails but never drops. *)
Definition withFailingKeep :=
  set_allowlistMutators fixture.started [fixture.failingKeep].
End fixture2.

Section LogNotions.
Context {W : Type}.

(** Whatever error the mutator returns on a call with the given flag, the
    entry the processor writes for it satisfies [P]. *)
Definition failureLogged (P : Entry -> Prop) (isTrace : bool) (msg : string)
    (m : @attributesMutator W) : Prop :=
  forall attributes resourceAttributes w err,
    snd (fst (Process m attributes resourceAttributes isTrace w)) = Some err ->
    P (mkEntry DebugLevel msg [zapError err]).

Definition filterFailureLogged (P : Entry -> Prop) (m : @allowListMutator W) : Prop :=
  forall attributes w err,
    snd (fst (ShouldBeDropped m attributes w)) = Some err ->
    P (mkEntry DebugLevel failedToProcessAttributeWithCustomRule [zapError err]).
End LogNotions.

Module fixture3.
(** A mutator that normalizes spans and fails on data points, and one that
    does the opposite. *)
Definition spansOnly : @attributesMutator (list string) :=
  {| Process := fun attributes resourceAttributes isTrace =>
       if isTrace
       then Process fixture.normalizer attributes resourceAttributes isTrace
       else ret (attributes, resourceAttributes, Some "not a span") |}.

Definition pointsOnly : @attributesMutator (list string) :=
  {| Process := fun attributes resourceAttributes isTrace =>
       if isTrace
       then ret (attributes, resourceAttributes, Some "not a data point")
       else Process fixture.normalizer attributes resourceAttributes isTrace |}.

Definition normalizing :=
  set_metricMutators
    (set_traceMutators fixture.started [normalizerMutator fixture.normalizer])
    [normalizerMutator fixture.normalizer].

Definition flagged :=
  set_metricMutators (set_traceMutators fixture.started [spansOnly]) [pointsOnly].

(** Components without state: a normalizer, and a replacer with one rule. *)
Definition pureNormalizer : @attributesMutator (list string) :=
  {| Process := fun attributes resourceAttributes _ =>
       ret (match attributes !! "ip" with
            | Some _ => <["ip" := ValueStr "unresolved"]> attributes
            | None => attributes
            end, resourceAttributes, None) |}.

Definition pureReplacer : @ReplaceActions (list string) :=
  {| replaceMutator :=
       {| Process := fun attributes resourceAttributes _ =>
            ret (match attributes !! "service" with
                 | Some (ValueStr "checkout") =>
                     <["service" := ValueStr "checkout-service"]> attributes
                 | _ => attributes
                 end, resourceAttributes, None) |} |}.

Definition pure : @awsappsignalsprocessor (list string) unit string rules.Rule :=
  mkProcessor (zapLogger "awsappsignals") fixture.cfg pureReplacer
    [keepMutator fixture.keeper; dropMutator fixture.dropper]
    [pureNormalizer] [pureNormalizer] [].

Definition checkoutOnly : Map := {[ "service" := ValueStr "checkout" ]}.

Definition requests : Metric :=
  mkMetric "requests"
    (MetricTypeSum [fixture.point fixture.checkout5; fixture.point checkoutOnly;
                    fixture.point fixture.cart9]).

(** A batch in which every metric is of a known kind. *)
Definition md1 : Metrics :=
  [mkResourceMetrics fixture.host [mkScopeMetrics "http" [fixture.latency]]].
End fixture3.

Section TranslateNotions.
Import ec2taggerprocessor.
Context {Conf : Type}.
Variable GetString : Conf -> string -> string * bool.
Variable ConfigKey : list string -> string.
Variables MetricsKey AppendDimensionsKey : string.

(** The configuration asks for the supported dimension [kv]: the key under
    [append_dimensions] holds exactly its placeholder. *)
Definition requested (conf : Conf) (kv : string * string) : bool :=
  let (value, ok) :=
    GetString conf
      (ConfigKey [Ec2taggerKey ConfigKey MetricsKey AppendDimensionsKey; fst kv]) in
  ok && String.eqb (snd kv) value.

Definition isAutoScalingGroupName (kv : string * string) : bool :=
  String.eqb (fst kv) "AutoScalingGroupName".

(** A config without its two lists of tags. *)
Definition withoutTags (cfg : Config) : Config :=
  set_EC2MetadataTags (set_EC2InstanceTagKeys cfg []) [].
End TranslateNotions.

Module ec2fixture2.
Import ec2taggerprocessor.
(** The same translation when the table is enumerated backwards. *)
Definition translateBackwards :=
  @Translate (gmap string string) ec2fixture.IsSet ec2fixture.GetString
    ec2fixture.ConfigKey
    "metrics" "append_dimensions" "metrics_collected" "disk"
    (rev ec2fixture.SupportedAppendDimensions) "VolumeId" "${aws:VolumeId}"
    (fun cfg => (cfg, None)) (NewIDWithName "agenthealth" "statuscode") 1%Z.

(** All four supported dimensions requested. *)
Definition allDimensions : gmap string string :=
  {[ "metrics::append_dimensions" := "set";
     "metrics::append_dimensions::ImageId" := "${aws:ImageId}";
     "metrics::append_dimensions::InstanceId" := "${aws:InstanceId}";
     "metrics::append_dimensions::InstanceType" := "${aws:InstanceType}";
     "metrics::append_dimensions::AutoScalingGroupName" := "${aws:AutoScalingGroupName}" ]}.
End ec2fixture2.

(** ** What the components do to a batch, the log aside

    A second account of the processing, written on the world alone: no
    logger, no error handling, none of the loops and helpers of the
    embedding.  Every function takes the world and returns the world. *)

Section Reference.
Context {W : Type}.

(** One pass over a list, first element first: [f] answers with the new
    element, and with the shared object and the world as it leaves them for
    the next element. *)
Fixpoint sweep {A X} (f : A -> X -> W -> A * X * W) (l : list A) (x : X) (w : W)
  : list A * X * W :=
  match l with
  | [] => ([], x, w)
  | a :: rest =>
      let '(a', x1, w1) := f a x w in
      let '(rest', x2, w2) := sweep f rest x1 w1 in
      (a' :: rest', x2, w2)
  end.

(** Every mutator of the chain, in order, on one attribute set; what error a
    mutator returns makes no difference. *)
Definition throughChain (isTrace : bool) (ms : list (@attributesMutator W))
    (attributes resourceAttributes : Map) (w : W) : Map * Map * W :=
  fold_left (effect isTrace) ms (attributes, resourceAttributes, w).

(** A unit that carries an attribute set, through a chain. *)
Definition unitThroughChain {D} (get : D -> Map) (set : D -> Map -> D)
    (isTrace : bool) (ms : list (@attributesMutator W)) (d : D)
    (resourceAttributes : Map) (w : W) : D * Map * W :=
  let '(attributes, resourceAttributes, w) :=
    throughChain isTrace ms (get d) resourceAttributes w in
  (set d attributes, resourceAttributes, w).

(** Some filter signals drop: the filters are asked in order, each in the
    world its predecessor left, until one answers [true]. *)
Fixpoint signalled (fs : list (@allowListMutator W)) (attributes : Map) (w : W)
  : bool * W :=
  match fs with
  | [] => (false, w)
  | f :: rest =>
      let '(drop, _, w1) := ShouldBeDropped f attributes w in
      if drop then (true, w1) else signalled rest attributes w1
  end.

(** The list without the units signalled as drop. *)
Fixpoint withoutSignalled {D} (get : D -> Map) (fs : list (@allowListMutator W))
    (l : list D) (w : W) : list D * W :=
  match l with
  | [] => ([], w)
  | d :: rest =>
      let (drop, w1) := signalled fs (get d) w in
      let (rest', w2) := withoutSignalled get fs rest w1 in
      (if drop then rest' else d :: rest', w2)
  end.
End Reference.

Section ReferenceBatches.
Context {W Ctx Resolver Rule : Type}.

(** Mutate, then filter, then replace: every data point through the whole
    metric chain first; then the points signalled as drop removed; then the
    replace actions on the points that are left, and on those only. *)
Definition mutateFilterReplace {D} (get : D -> Map) (set : D -> Map -> D)
    (ap : @awsappsignalsprocessor W Ctx Resolver Rule) (dps : list D)
    (resourceAttributes : Map) (w : W) : list D * Map * W :=
  let '(mutated, resourceAttributes, w) :=
    sweep (unitThroughChain get set false (metricMutators ap)) dps
      resourceAttributes w in
  let (kept, w) := withoutSignalled get (allowlistMutators ap) mutated w in
  sweep (unitThroughChain get set false [replaceMutator (replaceActions ap)]) kept
    resourceAttributes w.

(** One metric: the three phases on its data points whatever their kind, and
    nothing at all for a metric without a kind. *)
Definition processedMetric (ap : @awsappsignalsprocessor W Ctx Resolver Rule)
    (m : Metric) (resourceAttributes : Map) (w : W) : Metric * Map * W :=
  match Metric_Data m with
  | MetricTypeEmpty => (m, resourceAttributes, w)
  | MetricTypeGauge dps =>
      let '(dps, resourceAttributes, w) :=
        mutateFilterReplace NumberDataPoint_Attributes NumberDataPoint_set ap dps
          resourceAttributes w in
      (mkMetric (Metric_Name m) (MetricTypeGauge dps), resourceAttributes, w)
  | MetricTypeSum dps =>
      let '(dps, resourceAttributes, w) :=
        mutateFilterReplace NumberDataPoint_Attributes NumberDataPoint_set ap dps
          resourceAttributes w in
      (mkMetric (Metric_Name m) (MetricTypeSum dps), resourceAttributes, w)
  | MetricTypeHistogram dps =>
      let '(dps, resourceAttributes, w) :=
        mutateFilterReplace HistogramDataPoint_Attributes HistogramDataPoint_set ap dps
          resourceAttributes w in
      (mkMetric (Metric_Name m) (MetricTypeHistogram dps), resourceAttributes, w)
  | MetricTypeExponentialHistogram dps =>
      let '(dps, resourceAttributes, w) :=
        mutateFilterReplace ExponentialHistogramDataPoint_Attributes
          ExponentialHistogramDataPoint_set ap dps resourceAttributes w in
      (mkMetric (Metric_Name m) (MetricTypeExponentialHistogram dps),
       resourceAttributes, w)
  | MetricTypeSummary dps =>
      let '(dps, resourceAttributes, w) :=
        mutateFilterReplace SummaryDataPoint_Attributes SummaryDataPoint_set ap dps
          resourceAttributes w in
      (mkMetric (Metric_Name m) (MetricTypeSummary dps), resourceAttributes, w)
  end.

(** A batch of metrics: every metric of every scope of every resource, in
    order, each resource with its own attribute map. *)
Definition processedMetrics (ap : @awsappsignalsprocessor W Ctx Resolver Rule)
    (md : Metrics) (w : W) : Metrics * W :=
  let '(md, _, w) :=
    sweep (fun rm (_ : unit) w =>
      let '(sms, resourceAttributes, w) :=
        sweep (fun sm resourceAttributes w =>
          let '(ms, resourceAttributes, w) :=
            sweep (processedMetric ap) (ScopeMetrics_Metrics sm) resourceAttributes w in
          (mkScopeMetrics (ScopeMetrics_Scope sm) ms, resourceAttributes, w))
        (ResourceMetrics_ScopeMetrics rm) (ResourceMetrics_Resource rm) w in
      (mkResourceMetrics resourceAttributes sms, tt, w)) md tt w in
  (md, w).

(** A batch of traces: every span of every scope of every resource, in order,
    through the whole trace chain. *)
Definition processedTraces (ms : list (@attributesMutator W)) (td : Traces) (w : W)
  : Traces * W :=
  let '(td, _, w) :=
    sweep (fun rs (_ : unit) w =>
      let '(ilss, resourceAttributes, w) :=
        sweep (fun ils resourceAttributes w =>
          let '(spans, resourceAttributes, w) :=
            sweep (unitThroughChain Span_Attributes
                     (fun span attributes => mkSpan (Span_Name span) attributes)
                     true ms)
              (ScopeSpans_Spans ils) resourceAttributes w in
          (mkScopeSpans (ScopeSpans_Scope ils) spans, resourceAttributes, w))
        (ResourceSpans_ScopeSpans rs) (ResourceSpans_Resource rs) w in
      (mkResourceSpans resourceAttributes ilss, tt, w)) td tt w in
  (td, w).
End ReferenceBatches.

(** A computation of the embedding does what [f] does on the world: the same
    result, the same world left. *)
Definition implements {W A} (m : M (State W) A) (f : W -> A * W) : Prop :=
  forall st, fst (m st) = fst (f (world st)) /\ world (snd (m st)) = snd (f (world st)).

(** * Properties *)

Section MonadFacts.
Context {S : Type}.

Lemma bind_run {A B} (m : M S A) (k : A -> M S B) (s : S) :
  bind m k s = k (fst (m s)) (snd (m s)).
Proof. unfold bind. destruct (m s); reflexivity. Qed.

Lemma ret_run {A} (a : A) (s : S) : ret a s = (a, s).
Proof. reflexivity. Qed.

Lemma pair_match {A B C} (p : A * B) (f : A -> B -> C) :
  (let (a, b) := p in f a b) = f (fst p) (snd p).
Proof. destruct p; reflexivity. Qed.
End MonadFacts.

Section CallFacts.
Context {W : Type}.

Lemma call_run {A} (m : M W A) (st : State W) :
  call m st = (fst (m (world st)), mkState (snd (m (world st))) (logged st)).
Proof. unfold call. destruct (m (world st)); reflexivity. Qed.

Lemma write_run (e : Entry) (st : State W) :
  write e st = (tt, mkState (world st) (logged st ++ [e])).
Proof. reflexivity. Qed.

Lemma Debug_run (lg : Logger) msg fields (st : State W) :
  Debug lg msg fields st
  = (tt, mkState (world st) (logged st ++ [mkEntry DebugLevel msg fields])).
Proof. reflexivity. Qed.

Lemma Error_run (lg : Logger) msg fields (st : State W) :
  Error lg msg fields st
  = (tt, mkState (world st) (logged st ++ [mkEntry ErrorLevel msg fields])).
Proof. reflexivity. Qed.
End CallFacts.

Ltac run :=
  repeat (progress cbn [fst snd world logged]
          || rewrite bind_run || rewrite call_run || rewrite ret_run
          || rewrite Debug_run || rewrite Error_run || rewrite pair_match).

Section StartShutdown.
Context {W Ctx Host Resolver Rule : Type}.
Variable NewAttributesResolver : list Resolver -> Logger -> M W (@attributesResolver W Ctx).
Variable NewAttributesNormalizer : Logger -> M W (@attributesNormalizer W).
Variable NewReplacer : list Rule -> M W (@ReplaceActions W).
Variable NewKeeper : list Rule -> M W (@KeepActions W).
Variable NewDropper : list Rule -> M W (@DropActions W).

Abbreviation Start' :=
  (@Start W Ctx Host Resolver Rule NewAttributesResolver NewAttributesNormalizer
     NewReplacer NewKeeper NewDropper).
Abbreviation Start_effective' :=
  (@Start_effective W Ctx Host Resolver Rule NewAttributesResolver
     NewAttributesNormalizer NewReplacer NewKeeper NewDropper).

(** C3. [Start] returns a nil error and leaves exactly these chains, built
    from the components its five constructors return, in the order in which
    it calls them: trace chain = resolver, normalizer, replacer; metric chain =
    resolver, normalizer; filters = keeper, dropper; replace actions = the
    replacer; stoppers = the resolver.  The one-element metric chain assigned
    first is overwritten: [Start] is [Start_effective], which never assigns
    it, so no later call can tell the difference. *)
Theorem Start_chains (ap : awsappsignalsprocessor) (ctx : Ctx) (host : Host)
    (st : State W) :
  let '(r, w1) := NewAttributesResolver (Resolvers (config ap)) (logger ap) (world st) in
  let '(n, w2) := NewAttributesNormalizer (logger ap) w1 in
  let '(rp, w3) := NewReplacer (Rules (config ap)) w2 in
  let '(k, w4) := NewKeeper (Rules (config ap)) w3 in
  let '(d, w5) := NewDropper (Rules (config ap)) w4 in
  let '(ap', err, st') := Start' ap ctx host st in
  err = None
  /\ traceMutators ap' = [resolverMutator r; normalizerMutator n; replaceMutator rp]
  /\ metricMutators ap' = [resolverMutator r; normalizerMutator n]
  /\ allowlistMutators ap' = [keepMutator k; dropMutator d]
  /\ replaceActions ap' = rp
  /\ stoppers ap' = [resolverStopper r]
  /\ logger ap' = logger ap /\ config ap' = config ap
  /\ st' = mkState w5 (logged st)
  /\ Start' ap ctx host st = Start_effective' ap ctx host st.
Proof.
  unfold Start, Start_effective.
  repeat (rewrite bind_run || rewrite call_run); cbn [fst snd world logged config logger
    set_stoppers set_metricMutators set_replaceActions set_traceMutators set_allowlistMutators
    replaceActions].
  destruct (NewAttributesResolver _ _ _) as [r w1]; cbn [fst snd].
  destruct (NewAttributesNormalizer _ _) as [n w2]; cbn [fst snd].
  destruct (NewReplacer _ _) as [rp w3]; cbn [fst snd].
  destruct (NewKeeper _ _) as [k w4]; cbn [fst snd].
  destruct (NewDropper _ _) as [d w5]; cbn [fst snd].
  unfold ret. cbn. repeat split.
Qed.

Lemma stop_loop (lg : Logger) (ctx : Ctx) (ss : list (@stopper W Ctx)) (st : State W) :
  let st' := snd (forRange ss (fun stopper =>
      let* err := call (Stop stopper ctx) in
      match err with
      | Some err => Error lg "failed to stop" [zapError err]
      | None => ret tt
      end) st) in
  world st' = fold_left (fun w s => snd (Stop s ctx w)) ss (world st)
  /\ logged st' = logged st ++ flat_map stopFailure (stopResults ctx ss (world st)).
Proof.
  revert st. induction ss as [|s ss IH]; intros st; cbn zeta.
  - cbn. rewrite app_nil_r. auto.
  - cbn [forRange stopResults fold_left].
    run.
    destruct (Stop s ctx (world st)) as [[e|] w'] eqn:E; run.
    + destruct (IH (mkState w' (logged st ++ [mkEntry ErrorLevel "failed to stop" [zapError e]])))
        as [IHw IHl].
      cbn [world logged] in IHw, IHl. split; [exact IHw|].
      rewrite IHl. cbn [flat_map stopFailure]. rewrite <- app_assoc. reflexivity.
    + destruct (IH (mkState w' (logged st))) as [IHw IHl].
      cbn [world logged] in IHw, IHl. split; [exact IHw|].
      rewrite IHl. reflexivity.
Qed.

(** C8. [Shutdown] stops every registered stopper once and in order, whether
    or not earlier ones fail: the world it leaves is the world after every
    [Stop], each run where its predecessor left off.  Every failure is logged
    at error level, in order, and none is returned: the result is always nil. *)
Theorem Shutdown_stops_every_stopper (ap : @awsappsignalsprocessor W Ctx Resolver Rule) (ctx : Ctx)
    (st : State W) :
  let '(err, st') := Shutdown ap ctx st in
  err = None
  /\ world st' = fold_left (fun w s => snd (Stop s ctx w)) (stoppers ap) (world st)
  /\ logged st' = logged st
       ++ flat_map stopFailure (stopResults ctx (stoppers ap) (world st)).
Proof.
  unfold Shutdown. rewrite bind_run. cbn [ret].
  split; [reflexivity|]. apply stop_loop.
Qed.
End StartShutdown.

Example Shutdown_logs_and_goes_on :
  Shutdown (set_stoppers fixture.started
              [resolverStopper fixture.coldResolver; fixture.cleanStopper])
    tt fixture.st0
  = (None,
     mkState ["Resolver.Stop"; "Other.Stop"]
       [mkEntry ErrorLevel "failed to stop" [zapError "deadline exceeded"]]).
Proof. vm_compute. reflexivity. Qed.

Example Start_on_the_created_processor :
  snd (fst (fixture.start fixture.created tt tt fixture.st0)) = None
  /\ length (traceMutators fixture.started) = 3
  /\ length (metricMutators fixture.started) = 2
  /\ length (allowlistMutators fixture.started) = 2
  /\ length (stoppers fixture.started) = 1.
Proof. repeat split. Qed.

Section LoopFacts.
Context {S : Type}.

Lemma forIndex_length {A X} (body : A -> X -> M S (A * X)) (l : list A) (acc : X) (s : S) :
  length (fst (fst (forIndex l body acc s))) = length l.
Proof.
  revert acc s. induction l as [|x l IH]; intros acc s; [reflexivity|].
  cbn [forIndex]. rewrite !bind_run.
  destruct (body x acc s) as [[x' acc'] s']. cbn [fst snd]. rewrite !bind_run.
  specialize (IH acc' s').
  destruct (forIndex l body acc' s') as [[l' acc''] s'']. cbn [fst snd] in *.
  cbn. now rewrite IH.
Qed.

Lemma forIndex_map {A X B} (f : A -> B) (body : A -> X -> M S (A * X)) :
  (forall x acc s, f (fst (fst (body x acc s))) = f x) ->
  forall l acc s, map f (fst (fst (forIndex l body acc s))) = map f l.
Proof.
  intros Hbody l. induction l as [|x l IH]; intros acc s; [reflexivity|].
  cbn [forIndex]. rewrite !bind_run.
  specialize (Hbody x acc s).
  destruct (body x acc s) as [[x' acc'] s']. cbn [fst snd] in *. rewrite !bind_run.
  specialize (IH acc' s').
  destruct (forIndex l body acc' s') as [[l' acc''] s'']. cbn [fst snd] in *.
  cbn. now rewrite IH, Hbody.
Qed.

Lemma forIndex_acc {A X} (body : A -> X -> M S (A * X)) :
  (forall x acc s, snd (fst (body x acc s)) = acc) ->
  forall l acc s, snd (fst (forIndex l body acc s)) = acc.
Proof.
  intros Hbody l. induction l as [|x l IH]; intros acc s; [reflexivity|].
  cbn [forIndex]. rewrite !bind_run.
  specialize (Hbody x acc s).
  destruct (body x acc s) as [[x' acc'] s']. cbn [fst snd] in *. rewrite !bind_run.
  specialize (IH acc' s').
  destruct (forIndex l body acc' s') as [[l' acc''] s'']. cbn [fst snd] in *.
  cbn. congruence.
Qed.

Lemma forEach_map {A B} (f : A -> B) (body : A -> M S A) :
  (forall x s, f (fst (body x s)) = f x) ->
  forall l s, map f (fst (forEach l body s)) = map f l.
Proof.
  intros Hbody l. induction l as [|x l IH]; intros s; [reflexivity|].
  cbn [forEach]. rewrite !bind_run. cbn. now rewrite IH, Hbody.
Qed.

Lemma forRangeOn_Forall {A X} (Q : A -> Prop) (P : X -> Prop)
    (body : A -> X -> M S X) :
  (forall x acc s, Q x -> P acc -> P (fst (body x acc s))) ->
  forall l acc s, Forall Q l -> P acc -> P (fst (forRangeOn l body acc s)).
Proof.
  intros Hbody l. induction l as [|x l IH]; intros acc s HQ HP; [exact HP|].
  inversion HQ; subst. cbn [forRangeOn]. rewrite bind_run.
  apply IH; auto.
Qed.

Lemma RemoveIf_sublist {A} (f : A -> M S bool) (l : list A) (s : S) :
  sublist (fst (RemoveIf f l s)) l.
Proof.
  revert s. induction l as [|x l IH]; intros s; [constructor|].
  cbn [RemoveIf]. rewrite !bind_run. cbn.
  destruct (fst (f x s)); [apply sublist_cons | apply sublist_skip]; apply IH.
Qed.
End LoopFacts.

Section Traces.
Context {W Ctx Resolver Rule : Type}.
Implicit Types (ap : @awsappsignalsprocessor W Ctx Resolver Rule) (st : State W).

(** C9. [processTraces] removes nothing: the batch it returns has as many
    resource spans, as many scope spans in each resource and as many spans in
    each scope as the batch it was given, and every scope and span keeps its
    name and its place. *)
Theorem processTraces_keeps_every_span ap (ctx : Ctx) (td : Traces) st :
  let td' := fst (fst (processTraces ap ctx td st)) in
  spanCounts td' = spanCounts td /\ spanNames td' = spanNames td.
Proof.
  cbn zeta. unfold processTraces. rewrite bind_run. cbn [ret fst].
  unfold spanCounts, spanNames. split.
  - apply (forEach_map (fun rs => map (fun ils => length (ScopeSpans_Spans ils))
                                    (ResourceSpans_ScopeSpans rs))).
    intros rs s. run. cbn [ResourceSpans_ScopeSpans].
    apply (forIndex_map (fun ils => length (ScopeSpans_Spans ils))).
    intros ils acc s'. run. cbn [ScopeSpans_Spans].
    apply forIndex_length.
  - apply (forEach_map (fun rs => map (fun ils => (ScopeSpans_Scope ils,
                                    map Span_Name (ScopeSpans_Spans ils)))
                                    (ResourceSpans_ScopeSpans rs))).
    intros rs s. run. cbn [ResourceSpans_ScopeSpans].
    apply (forIndex_map (fun ils => (ScopeSpans_Scope ils,
                                     map Span_Name (ScopeSpans_Spans ils)))).
    intros ils acc s'. run. cbn [ScopeSpans_Spans ScopeSpans_Scope]. f_equal.
    apply (forIndex_map Span_Name).
    intros span acc' s''. run. reflexivity.
Qed.
End Traces.

Example processTraces_on_two_spans :
  processTraces fixture.started tt fixture.td0 fixture.st0
  = ([mkResourceSpans fixture.host
        [mkScopeSpans "http"
           [mkSpan "GET /" fixture.checkoutUnresolved;
            mkSpan "POST /cart"
              {[ "service" := ValueStr "cart"; "ip" := ValueStr "unresolved" ]}]]],
     None,
     mkState
       ["Resolver.Process"; "Normalizer.Process"; "Replacer.Process";
        "Resolver.Process"; "Normalizer.Process"; "Replacer.Process"]
       [mkEntry DebugLevel "failed to Process span" [zapError "no cache entry"];
        mkEntry DebugLevel "failed to Process span" [zapError "no cache entry"]]).
Proof. vm_compute. reflexivity. Qed.

Section Metrics.
Context {W Ctx Resolver Rule : Type}.
Implicit Types (ap : @awsappsignalsprocessor W Ctx Resolver Rule) (st : State W).

(** Each branch of the switch is the three phases at its own kind. *)
Lemma processMetricAttributes_phases ap (ctx : Ctx) (m : Metric) (res : Map) st :
  processMetricAttributes ap ctx m res st =
  match Metric_Data m with
  | MetricTypeEmpty =>
      Debug (logger ap) "Ignore unknown metric type"
        [zapString "type" (MetricType_String (Metric_Data m))] ;;
      ret (m, res)
  | MetricTypeGauge dps =>
      let* (dps', res') :=
        threePhases NumberDataPoint_Attributes NumberDataPoint_set ap dps res in
      ret (mkMetric (Metric_Name m) (MetricTypeGauge dps'), res')
  | MetricTypeSum dps =>
      let* (dps', res') :=
        threePhases NumberDataPoint_Attributes NumberDataPoint_set ap dps res in
      ret (mkMetric (Metric_Name m) (MetricTypeSum dps'), res')
  | MetricTypeHistogram dps =>
      let* (dps', res') :=
        threePhases HistogramDataPoint_Attributes HistogramDataPoint_set ap dps res in
      ret (mkMetric (Metric_Name m) (MetricTypeHistogram dps'), res')
  | MetricTypeExponentialHistogram dps =>
      let* (dps', res') :=
        threePhases ExponentialHistogramDataPoint_Attributes
          ExponentialHistogramDataPoint_set ap dps res in
      ret (mkMetric (Metric_Name m) (MetricTypeExponentialHistogram dps'), res')
  | MetricTypeSummary dps =>
      let* (dps', res') :=
        threePhases SummaryDataPoint_Attributes SummaryDataPoint_set ap dps res in
      ret (mkMetric (Metric_Name m) (MetricTypeSummary dps'), res')
  end st.
Proof.
  unfold processMetricAttributes, threePhases, mutatePhase, filterPhase, replacePhase.
  destruct (Metric_Data m); run; reflexivity.
Qed.

Lemma chain_resource (lg : Logger) (msg : string) (isTrace : bool)
    (ms : list (@attributesMutator W)) (maps : Map * Map) st :
  Forall preservesResource ms ->
  snd (fst (forRangeOn ms (fun mutator maps =>
      let* (maps, err) := call (Process mutator (fst maps) (snd maps) isTrace) in
      match err with
      | Some err => Debug lg msg [zapError err]
      | None => ret tt
      end ;;
      ret maps) maps st)) = snd maps.
Proof.
  intros Hms.
  apply (forRangeOn_Forall preservesResource (fun acc : Map * Map => snd acc = snd maps));
    [|exact Hms|reflexivity].
  intros m acc s Hm Hacc. run. rewrite (Hm (fst acc) (snd acc) isTrace (world s)).
  exact Hacc.
Qed.

Lemma mutateDataPoint_resource ap (a res : Map) st :
  Forall preservesResource (metricMutators ap) ->
  snd (fst (mutateDataPoint ap a res st)) = res.
Proof. intros H. unfold mutateDataPoint. now rewrite chain_resource. Qed.

Lemma replaceDataPoint_resource ap (a res : Map) st :
  preservesResource (replaceActions ap) ->
  snd (fst (replaceDataPoint ap a res st)) = res.
Proof. intros H. unfold replaceDataPoint. run. apply H. Qed.

Lemma threePhases_resource {D} (get : D -> Map) (set : D -> Map -> D) ap
    (dps : list D) (res : Map) st :
  Forall preservesResource (metricMutators ap) ->
  preservesResource (replaceActions ap) ->
  snd (fst (threePhases get set ap dps res st)) = res.
Proof.
  intros Hm Hr. unfold threePhases, mutatePhase, filterPhase, replacePhase. run.
  rewrite forIndex_acc.
  - apply forIndex_acc. intros d acc s. run. now apply mutateDataPoint_resource.
  - intros d acc s. run. now apply replaceDataPoint_resource.
Qed.

Lemma processMetricAttributes_resource ap (ctx : Ctx) (m : Metric) (res : Map) st :
  Forall preservesResource (metricMutators ap) ->
  preservesResource (replaceActions ap) ->
  snd (fst (processMetricAttributes ap ctx m res st)) = res.
Proof.
  intros Hm Hr. rewrite processMetricAttributes_phases.
  destruct (Metric_Data m); run; try reflexivity; now apply threePhases_resource.
Qed.

(** C5. If every mutator of the trace chain and of the metric chain, and the
    replace actions, leave their [resourceAttributes] argument as they found
    it, then [processTraces] and [processMetrics] return every resource with
    the attribute map it came with. *)
Theorem resource_attributes_never_mutated ap (ctx : Ctx) (td : Traces) (md : Metrics) st :
  Forall preservesResource (traceMutators ap) ->
  Forall preservesResource (metricMutators ap) ->
  preservesResource (replaceActions ap) ->
  map ResourceSpans_Resource (fst (fst (processTraces ap ctx td st)))
  = map ResourceSpans_Resource td
  /\ map ResourceMetrics_Resource (fst (fst (processMetrics ap ctx md st)))
     = map ResourceMetrics_Resource md.
Proof.
  intros Ht Hm Hr. split.
  - unfold processTraces. run. apply forEach_map. intros rs s. run.
    cbn [ResourceSpans_Resource].
    apply forIndex_acc. intros ils acc s1. run.
    apply forIndex_acc. intros span acc' s2. run.
    now rewrite chain_resource.
  - unfold processMetrics. run. apply forEach_map. intros rs s. run.
    cbn [ResourceMetrics_Resource].
    apply forIndex_acc. intros ils acc s1. run.
    apply forIndex_acc. intros m acc' s2.
    now apply processMetricAttributes_resource.
Qed.
End Metrics.

(** The components of the concrete processor leave the resource alone. *)
Lemma resource_attributes_never_mutated_witness :
  map ResourceSpans_Resource
    (fst (fst (processTraces fixture.started tt fixture.td0 fixture.st0)))
  = [fixture.host]
  /\ map ResourceMetrics_Resource
       (fst (fst (processMetrics fixture.started tt fixture.md0 fixture.st0)))
     = [fixture.host].
Proof.
  apply (resource_attributes_never_mutated fixture.started tt fixture.td0
           fixture.md0 fixture.st0).
  - repeat constructor; intros a r b w; reflexivity.
  - repeat constructor; intros a r b w; reflexivity.
  - intros a r b w; reflexivity.
Defined.

Section Lenses.
Context {S : Type} {D : Type}.
Variable get : D -> Map.
Variable set : D -> Map -> D.
Hypothesis get_set : forall d a, get (set d a) = a.
Hypothesis set_set : forall d a b, set (set d a) b = set d b.

Lemma forIndex_through_lens {X} (f : Map -> X -> M S (Map * X)) (dps : list D)
    (acc : X) (s : S) :
  forIndex dps (fun d acc => let* (a, acc) := f (get d) acc in ret (set d a, acc)) acc s
  = let '(l, acc', s') := forIndex (map get dps) f acc s in
    (zip_with set dps l, acc', s').
Proof.
  revert acc s. induction dps as [|d dps IH]; intros acc s; [reflexivity|].
  cbn [forIndex map]. run.
  destruct (f (get d) acc s) as [[a acc1] s1]. cbn [fst snd].
  rewrite IH.
  destruct (forIndex (map get dps) f acc1 s1) as [[l acc2] s2]. reflexivity.
Qed.

Lemma get_zip_with_set (dps : list D) (l : list Map) :
  length l = length dps -> map get (zip_with set dps l) = l.
Proof.
  revert l. induction dps as [|d dps IH]; intros [|a l] Hl; try discriminate;
    [reflexivity|].
  cbn. rewrite get_set, IH; [reflexivity|]. cbn in Hl. lia.
Qed.
End Lenses.

Section Outcome.
Context {W Ctx Resolver Rule : Type}.
Implicit Types (ap : @awsappsignalsprocessor W Ctx Resolver Rule) (st : State W).
Context {D : Type}.
Variable get : D -> Map.
Variable set : D -> Map -> D.
Hypothesis get_set : forall d a, get (set d a) = a.
Hypothesis set_set : forall d a b, set (set d a) b = set d b.

Lemma filterPhase_verdicts ap (dps : list D) st :
  filterPhase get ap dps st
  = let (vs, st') := verdicts ap (map get dps) st in (survivors vs dps, st').
Proof.
  unfold filterPhase. revert st.
  induction dps as [|d dps IH]; intros st; [reflexivity|].
  cbn [RemoveIf verdicts map]. run.
  destruct (shouldRemove _ _ _ st) as [v st1]. cbn [fst snd].
  rewrite IH. destruct (verdicts ap (map get dps) st1) as [vs st2].
  cbn [fst snd survivors]. reflexivity.
Qed.

Lemma verdicts_length ap (l : list Map) st :
  length (fst (verdicts ap l st)) = length l.
Proof.
  revert st. induction l as [|a l IH]; intros st; [reflexivity|].
  cbn [verdicts]. run. cbn. now rewrite IH.
Qed.

Lemma survivors_map {A B} (f : A -> B) (vs : list bool) (l : list A) :
  map f (survivors vs l) = survivors vs (map f l).
Proof.
  revert l. induction vs as [|v vs IH]; intros [|x l]; try reflexivity.
  cbn. destruct v; cbn; now rewrite IH.
Qed.

Lemma applyOutcome_decided (vs : list bool) (dps : list D) (l1 l3 : list Map) :
  length vs = length dps -> length l1 = length dps ->
  length l3 = length (survivors vs l1) ->
  zip_with set (survivors vs (zip_with set dps l1)) l3
  = applyOutcome set dps (decided vs l3).
Proof.
  revert dps l1 l3. induction vs as [|v vs IH]; intros [|d dps] [|a l1] l3 Hv H1 H3;
    try discriminate; try reflexivity.
  cbn in Hv, H1. cbn [zip_with survivors] in *. destruct v.
  - cbn [decided applyOutcome]. apply IH; lia.
  - destruct l3 as [|b l3]; [discriminate|].
    cbn [zip_with decided applyOutcome]. rewrite set_set. f_equal.
    apply IH; cbn in H3; lia.
Qed.

Lemma mutatePhase_lens ap (dps : list D) (res : Map) st :
  mutatePhase get set ap dps res st
  = let '(l, res', st') := forIndex (map get dps) (mutateDataPoint ap) res st in
    (zip_with set dps l, res', st').
Proof. apply forIndex_through_lens. Qed.

Lemma replacePhase_lens ap (dps : list D) (res : Map) st :
  replacePhase get set ap dps res st
  = let '(l, res', st') := forIndex (map get dps) (replaceDataPoint ap) res st in
    (zip_with set dps l, res', st').
Proof. apply forIndex_through_lens. Qed.

Lemma threePhases_outcome ap (dps : list D) (res : Map) st :
  threePhases get set ap dps res st
  = let '(o, res', st') := outcome ap (map get dps) res st in
    (applyOutcome set dps o, res', st').
Proof.
  unfold threePhases, outcome. rewrite !bind_run, mutatePhase_lens.
  pose proof (forIndex_length (mutateDataPoint ap) (map get dps) res st) as H1.
  destruct (forIndex (map get dps) _ res st) as [[l1 res1] st1]. cbn [fst snd] in *.
  rewrite length_map in H1.
  rewrite ?bind_run, filterPhase_verdicts.
  rewrite (get_zip_with_set get set get_set) by exact H1.
  pose proof (verdicts_length ap l1 st1) as Hv.
  destruct (verdicts ap l1 st1) as [vs st2]. cbn [fst snd] in *.
  rewrite replacePhase_lens.
  rewrite survivors_map, (get_zip_with_set get set get_set) by exact H1.
  rewrite ?bind_run.
  pose proof (forIndex_length (replaceDataPoint ap) (survivors vs l1) res1 st2) as H3.
  destruct (forIndex (survivors vs l1) _ res1 st2) as [[l3 res3] st3]. cbn [fst snd] in *.
  rewrite applyOutcome_decided by congruence. reflexivity.
Qed.
End Outcome.

Section Order.
Context {W Ctx Resolver Rule : Type}.
Implicit Types (ap : @awsappsignalsprocessor W Ctx Resolver Rule) (st : State W).

Lemma forIndex_Forall2 {S A X} (R : A -> A -> Prop) (body : A -> X -> M S (A * X)) :
  (forall x acc s, R x (fst (fst (body x acc s)))) ->
  forall l acc s, Forall2 R l (fst (fst (forIndex l body acc s))).
Proof.
  intros Hbody l. induction l as [|x l IH]; intros acc s; [constructor|].
  cbn [forIndex]. run. constructor; [apply Hbody | apply IH].
Qed.

Lemma threePhases_inOrder {D} (get : D -> Map) (set : D -> Map -> D) ap
    (wrap : list D -> MetricData) (name : string) (dps : list D) (res : Map) st :
  (forall d a, get (set d a) = a) ->
  phasesInOrder get set ap wrap name dps res st
    ((let* (dps', res') := threePhases get set ap dps res in
      ret (mkMetric name (wrap dps'), res')) st).
Proof.
  intros get_set. unfold phasesInOrder, threePhases. run.
  pose proof (forIndex_Forall2 (fun d d' => d' = set d (get d'))
    (fun d res => let* (attributes, res) := mutateDataPoint ap (get d) res in
                  ret (set d attributes, res))) as H1.
  specialize (H1 ltac:(intros; run; now rewrite get_set) dps res st).
  fold (mutatePhase get set ap dps res st) in H1.
  destruct (mutatePhase get set ap dps res st) as [[mutated res1] st1].
  cbn [fst snd] in *.
  pose proof (RemoveIf_sublist
    (fun d => shouldRemove (logger ap) (allowlistMutators ap) (get d)) mutated st1) as H2.
  fold (filterPhase get ap mutated st1) in H2.
  destruct (filterPhase get ap mutated st1) as [kept st2]. cbn [fst snd] in *.
  pose proof (forIndex_Forall2 (fun d d' => d' = set d (get d'))
    (fun d res => let* (attributes, res) := replaceDataPoint ap (get d) res in
                  ret (set d attributes, res))) as H3.
  specialize (H3 ltac:(intros; run; now rewrite get_set) kept res1 st2).
  fold (replacePhase get set ap kept res1 st2) in H3.
  destruct (replacePhase get set ap kept res1 st2) as [[replaced res3] st3].
  cbn [fst snd] in *. auto.
Qed.

(** Each branch is the mutate phase, the filter phase and the replace phase of
    the embedding, one after the other; the mutate and the replace phase keep
    every point and change nothing but its attribute set, the filter phase
    only removes points. *)
Lemma phases_keep_their_shape ap (ctx : Ctx) (name : string) (res : Map) st :
  (forall dps,
     phasesInOrder NumberDataPoint_Attributes NumberDataPoint_set ap
       MetricTypeGauge name dps res st
       (processMetricAttributes ap ctx (mkMetric name (MetricTypeGauge dps)) res st))
  /\ (forall dps,
     phasesInOrder NumberDataPoint_Attributes NumberDataPoint_set ap
       MetricTypeSum name dps res st
       (processMetricAttributes ap ctx (mkMetric name (MetricTypeSum dps)) res st))
  /\ (forall dps,
     phasesInOrder HistogramDataPoint_Attributes HistogramDataPoint_set ap
       MetricTypeHistogram name dps res st
       (processMetricAttributes ap ctx (mkMetric name (MetricTypeHistogram dps)) res st))
  /\ (forall dps,
     phasesInOrder ExponentialHistogramDataPoint_Attributes
       ExponentialHistogramDataPoint_set ap MetricTypeExponentialHistogram name dps res st
       (processMetricAttributes ap ctx
          (mkMetric name (MetricTypeExponentialHistogram dps)) res st))
  /\ (forall dps,
     phasesInOrder SummaryDataPoint_Attributes SummaryDataPoint_set ap
       MetricTypeSummary name dps res st
       (processMetricAttributes ap ctx (mkMetric name (MetricTypeSummary dps)) res st)).
Proof.
  repeat split; intros dps; rewrite processMetricAttributes_phases;
    cbn [Metric_Data Metric_Name]; apply threePhases_inOrder; reflexivity.
Qed.

(** C7. The five kinds of data points are processed alike: in each branch
    [processMetricAttributes] leaves the data points, the resource attributes
    and the state that [outcome] computes from the attribute sets of the data
    points, the resource attributes, the processor and the state alone.  Equal
    attribute sets hence mean equal mutated sets, equal drop decisions and
    equal replacements, whatever the kind. *)
Theorem five_kinds_one_outcome ap (ctx : Ctx) (name : string) (res : Map) st :
  (forall dps,
     processMetricAttributes ap ctx (mkMetric name (MetricTypeGauge dps)) res st
     = let '(o, res', st') := outcome ap (map NumberDataPoint_Attributes dps) res st in
       (mkMetric name (MetricTypeGauge (applyOutcome NumberDataPoint_set dps o)),
        res', st'))
  /\ (forall dps,
     processMetricAttributes ap ctx (mkMetric name (MetricTypeSum dps)) res st
     = let '(o, res', st') := outcome ap (map NumberDataPoint_Attributes dps) res st in
       (mkMetric name (MetricTypeSum (applyOutcome NumberDataPoint_set dps o)),
        res', st'))
  /\ (forall dps,
     processMetricAttributes ap ctx (mkMetric name (MetricTypeHistogram dps)) res st
     = let '(o, res', st') := outcome ap (map HistogramDataPoint_Attributes dps) res st in
       (mkMetric name (MetricTypeHistogram (applyOutcome HistogramDataPoint_set dps o)),
        res', st'))
  /\ (forall dps,
     processMetricAttributes ap ctx (mkMetric name (MetricTypeExponentialHistogram dps))
       res st
     = let '(o, res', st') :=
         outcome ap (map ExponentialHistogramDataPoint_Attributes dps) res st in
       (mkMetric name (MetricTypeExponentialHistogram
                         (applyOutcome ExponentialHistogramDataPoint_set dps o)),
        res', st'))
  /\ (forall dps,
     processMetricAttributes ap ctx (mkMetric name (MetricTypeSummary dps)) res st
     = let '(o, res', st') := outcome ap (map SummaryDataPoint_Attributes dps) res st in
       (mkMetric name (MetricTypeSummary (applyOutcome SummaryDataPoint_set dps o)),
        res', st')).
Proof.
  repeat split; intros dps; rewrite processMetricAttributes_phases;
    cbn [Metric_Data Metric_Name]; rewrite bind_run, threePhases_outcome by reflexivity;
    destruct (outcome ap _ res st) as [[o res'] st']; reflexivity.
Qed.
End Order.

Section Agree.
Context {W : Type}.

Lemma agree_ret {A} (a : A) : agree (W:=W) (ret a) (ret a).
Proof. intros st1 st2 H. now split. Qed.

Lemma agree_bind {A B} (m1 m2 : M (State W) A) (k1 k2 : A -> M (State W) B) :
  agree m1 m2 -> (forall a, agree (k1 a) (k2 a)) -> agree (bind m1 k1) (bind m2 k2).
Proof.
  intros Hm Hk st1 st2 H. rewrite !bind_run.
  destruct (Hm st1 st2 H) as [Ha Hw]. rewrite Ha. now apply Hk.
Qed.

Lemma agree_call {A} (m : M W A) : agree (call m) (call m).
Proof. intros st1 st2 H. rewrite !call_run. cbn. now rewrite H. Qed.

Lemma agree_logged {A} (lg : Logger) (msg : string) (err : option error) (a : A) :
  agree (W:=W)
    (match err with
     | Some err => Debug lg msg [zapError err]
     | None => ret tt
     end ;; ret a)
    (ret a).
Proof. intros st1 st2 H. destruct err; run; auto. Qed.

Lemma agree_forIndex {A X} (b1 b2 : A -> X -> M (State W) (A * X)) :
  (forall x acc, agree (b1 x acc) (b2 x acc)) ->
  forall l acc, agree (forIndex l b1 acc) (forIndex l b2 acc).
Proof.
  intros Hb l. induction l as [|x l IH]; intros acc; [apply agree_ret|].
  cbn [forIndex]. apply agree_bind; [apply Hb|]. intros [x' acc'].
  apply agree_bind; [apply IH|]. intros [l' acc'']. apply agree_ret.
Qed.

Lemma agree_forEach {A} (b1 b2 : A -> M (State W) A) :
  (forall x, agree (b1 x) (b2 x)) ->
  forall l, agree (forEach l b1) (forEach l b2).
Proof.
  intros Hb l. induction l as [|x l IH]; [apply agree_ret|].
  cbn [forEach]. apply agree_bind; [apply Hb|]. intros x'.
  apply agree_bind; [apply IH|]. intros l'. apply agree_ret.
Qed.

Lemma agree_RemoveIf {A} (f1 f2 : A -> M (State W) bool) :
  (forall x, agree (f1 x) (f2 x)) ->
  forall l, agree (RemoveIf f1 l) (RemoveIf f2 l).
Proof.
  intros Hf l. induction l as [|x l IH]; [apply agree_ret|].
  cbn [RemoveIf]. apply agree_bind; [apply Hf|]. intros v.
  apply agree_bind; [apply IH|]. intros l'. apply agree_ret.
Qed.

Lemma agree_forRangeOn_map {A X} (g : A -> A) (b1 b2 : A -> X -> M (State W) X) :
  (forall x acc, agree (b1 x acc) (b2 (g x) acc)) ->
  forall l acc, agree (forRangeOn l b1 acc) (forRangeOn (map g l) b2 acc).
Proof.
  intros Hb l. induction l as [|x l IH]; intros acc; [apply agree_ret|].
  cbn [forRangeOn map]. apply agree_bind; [apply Hb|]. intros acc'. apply IH.
Qed.

(** One mutator on one unit, with and without its error. *)
Lemma agree_quiet (lg : Logger) (msg : string) (isTrace : bool)
    (m : @attributesMutator W) (maps : Map * Map) :
  agree
    (let* (maps, err) := call (Process m (fst maps) (snd maps) isTrace) in
     match err with
     | Some err => Debug lg msg [zapError err]
     | None => ret tt
     end ;; ret maps)
    (let* (maps, err) := call (Process (quiet m) (fst maps) (snd maps) isTrace) in
     match err with
     | Some err => Debug lg msg [zapError err]
     | None => ret tt
     end ;; ret maps).
Proof.
  intros st1 st2 H. run. cbn [quiet Process]. rewrite H.
  destruct (Process m maps.1 maps.2 isTrace (world st2)) as [[maps' [e|]] w']; run; auto.
Qed.

Lemma agree_shouldRemove (lg : Logger) (ms : list (@allowListMutator W)) (a : Map) :
  agree (shouldRemove lg ms a) (shouldRemove lg (map quietFilter ms) a).
Proof.
  induction ms as [|m ms IH]; [apply agree_ret|].
  intros st1 st2 H. cbn [shouldRemove map]. run. cbn [quietFilter ShouldBeDropped].
  rewrite H.
  destruct (ShouldBeDropped m a (world st2)) as [[v [e|]] w']; run;
    (destruct v; run; [auto|apply IH; reflexivity]).
Qed.
End Agree.

Section Swallowed.
Context {W Ctx Resolver Rule : Type}.
Implicit Types (ap : @awsappsignalsprocessor W Ctx Resolver Rule) (st : State W).

Lemma agree_processTraces ap (ctx : Ctx) (td : Traces) :
  agree (processTraces ap ctx td) (processTraces (quietProcessor ap) ctx td).
Proof.
  unfold processTraces. apply agree_bind; [|intros; apply agree_ret].
  apply agree_forEach. intros rs.
  apply agree_bind; [|intros []; apply agree_ret].
  apply agree_forIndex. intros ils acc.
  apply agree_bind; [|intros []; apply agree_ret].
  apply agree_forIndex. intros span acc'.
  apply agree_bind; [|intros []; apply agree_ret].
  cbn [quietProcessor traceMutators logger].
  apply agree_forRangeOn_map. intros m maps. apply agree_quiet.
Qed.

Lemma agree_mutateDataPoint ap (a res : Map) :
  agree (mutateDataPoint ap a res) (mutateDataPoint (quietProcessor ap) a res).
Proof.
  unfold mutateDataPoint. cbn [quietProcessor metricMutators logger].
  apply agree_forRangeOn_map. intros m maps. apply agree_quiet.
Qed.

Lemma agree_replaceDataPoint ap (a res : Map) :
  agree (replaceDataPoint ap a res) (replaceDataPoint (quietProcessor ap) a res).
Proof.
  unfold replaceDataPoint.
  cbn [quietProcessor replaceActions logger replaceMutator].
  apply (agree_quiet (logger ap) failedToProcessAttribute false
           (replaceActions ap) (a, res)).
Qed.

Lemma agree_threePhases {D} (get : D -> Map) (set : D -> Map -> D) ap
    (dps : list D) (res : Map) :
  agree (threePhases get set ap dps res)
        (threePhases get set (quietProcessor ap) dps res).
Proof.
  unfold threePhases, mutatePhase, filterPhase, replacePhase.
  apply agree_bind.
  { apply agree_forIndex. intros d acc.
    apply agree_bind; [apply agree_mutateDataPoint|intros []; apply agree_ret]. }
  intros [mutated res1]. apply agree_bind.
  { apply agree_RemoveIf. intros d. apply agree_shouldRemove. }
  intros kept. apply agree_forIndex. intros d acc.
  apply agree_bind; [apply agree_replaceDataPoint|intros []; apply agree_ret].
Qed.

Lemma agree_pointwise {A} (m1 m1' m2 m2' : M (State W) A) :
  (forall st, m1 st = m1' st) -> (forall st, m2 st = m2' st) ->
  agree m1' m2' -> agree m1 m2.
Proof. intros H1 H2 H st1 st2 Hw. rewrite H1, H2. now apply H. Qed.

Lemma agree_processMetricAttributes ap (ctx : Ctx) (m : Metric) (res : Map) :
  agree (processMetricAttributes ap ctx m res)
        (processMetricAttributes (quietProcessor ap) ctx m res).
Proof.
  eapply agree_pointwise;
    [apply processMetricAttributes_phases | apply processMetricAttributes_phases |].
  destruct (Metric_Data m).
  - intros st1 st2 H. run. auto.
  - apply agree_bind; [apply agree_threePhases|intros []; apply agree_ret].
  - apply agree_bind; [apply agree_threePhases|intros []; apply agree_ret].
  - apply agree_bind; [apply agree_threePhases|intros []; apply agree_ret].
  - apply agree_bind; [apply agree_threePhases|intros []; apply agree_ret].
  - apply agree_bind; [apply agree_threePhases|intros []; apply agree_ret].
Qed.

Lemma agree_processMetrics ap (ctx : Ctx) (md : Metrics) :
  agree (processMetrics ap ctx md) (processMetrics (quietProcessor ap) ctx md).
Proof.
  unfold processMetrics. apply agree_bind; [|intros; apply agree_ret].
  apply agree_forEach. intros rs.
  apply agree_bind; [|intros []; apply agree_ret].
  apply agree_forIndex. intros ils acc.
  apply agree_bind; [|intros []; apply agree_ret].
  apply agree_forIndex. intros m acc'. apply agree_processMetricAttributes.
Qed.

(** The chain on one unit is every mutator's effect, in order. *)
Lemma chain_effect (lg : Logger) (msg : string) (isTrace : bool)
    (ms : list (@attributesMutator W)) (maps : Map * Map) st :
  let r := forRangeOn ms (fun mutator maps =>
      let* (maps, err) := call (Process mutator (fst maps) (snd maps) isTrace) in
      match err with
      | Some err => Debug lg msg [zapError err]
      | None => ret tt
      end ;;
      ret maps) maps st in
  (fst r, world (snd r)) = fold_left (effect isTrace) ms (maps, world st).
Proof.
  cbn zeta. revert maps st. induction ms as [|m ms IH]; intros [a res] st.
  - reflexivity.
  - cbn [forRangeOn fold_left]. run. unfold effect at 2. cbn [fst snd].
    destruct (Process m a res isTrace (world st)) as [[maps' e] w'].
    cbn [fst snd]. destruct e; run; rewrite IH; reflexivity.
Qed.

(** Both entry points return a nil error, and the errors of the mutators and
    of the filters change nothing but the log. *)
Lemma errors_reach_only_the_log ap (ctx : Ctx) (td : Traces) (md : Metrics) st :
  snd (fst (processTraces ap ctx td st)) = None
  /\ snd (fst (processMetrics ap ctx md st)) = None
  /\ fst (processTraces ap ctx td st) = fst (processTraces (quietProcessor ap) ctx td st)
  /\ world (snd (processTraces ap ctx td st))
     = world (snd (processTraces (quietProcessor ap) ctx td st))
  /\ fst (processMetrics ap ctx md st) = fst (processMetrics (quietProcessor ap) ctx md st)
  /\ world (snd (processMetrics ap ctx md st))
     = world (snd (processMetrics (quietProcessor ap) ctx md st))
  /\ (forall name scope attributes res,
        let r := processTraces ap ctx
          [mkResourceSpans res [mkScopeSpans scope [mkSpan name attributes]]] st in
        let '(attributes', res', w') :=
          fold_left (effect true) (traceMutators ap) (attributes, res, world st) in
        fst (fst r) = [mkResourceSpans res' [mkScopeSpans scope [mkSpan name attributes']]]
        /\ world (snd r) = w')
  /\ (forall attributes res,
        let r := mutateDataPoint ap attributes res st in
        (fst r, world (snd r))
        = fold_left (effect false) (metricMutators ap) (attributes, res, world st))
  /\ (forall name res,
        let r := processMetricAttributes ap ctx (mkMetric name MetricTypeEmpty) res st in
        fst r = (mkMetric name MetricTypeEmpty, res) /\ world (snd r) = world st).
Proof.
  split; [unfold processTraces; now run|].
  split; [unfold processMetrics; now run|].
  split; [now apply agree_processTraces|].
  split; [now apply agree_processTraces|].
  split; [now apply agree_processMetrics|].
  split; [now apply agree_processMetrics|].
  split; [|split].
  - intros name scope attributes res. cbn zeta.
    pose proof (chain_effect (logger ap) "failed to Process span" true
                  (traceMutators ap) (attributes, res) st) as H.
    cbn zeta in H.
    destruct (fold_left (effect true) (traceMutators ap) (attributes, res, world st))
      as [[a' r'] w'].
    unfold processTraces. cbn [forEach forIndex]. run.
    cbn [ResourceSpans_ScopeSpans ResourceSpans_Resource ScopeSpans_Spans
         ScopeSpans_Scope Span_Name Span_Attributes forIndex]. run.
    injection H as H1 H2. rewrite H2. split; [|reflexivity].
    rewrite (surjective_pairing (fst _)) in H1. injection H1 as -> ->. reflexivity.
  - intros attributes res. apply chain_effect.
  - intros name res. cbn zeta. unfold processMetricAttributes. cbn. auto.
Qed.
End Swallowed.

Example processMetrics_drops_the_unresolved_point :
  processMetrics fixture.started tt fixture.md0 fixture.st0
  = ([mkResourceMetrics fixture.host
        [mkScopeMetrics "http"
           [mkMetric "latency" (MetricTypeGauge []);
            mkMetric "unset" MetricTypeEmpty]]],
     None,
     mkState ["Resolver.Process"; "Normalizer.Process"]
       [mkEntry DebugLevel failedToProcessAttribute [zapError "no cache entry"];
        mkEntry DebugLevel "Ignore unknown metric type" [zapString "type" "Empty"]]).
Proof. vm_compute. reflexivity. Qed.

Section Filter.
Context {W Ctx Resolver Rule : Type}.
Implicit Types (ap : @awsappsignalsprocessor W Ctx Resolver Rule) (st : State W).

Lemma RemoveIf_app {S A} (f : A -> M S bool) (l1 l2 : list A) (s : S) :
  RemoveIf f (l1 ++ l2) s
  = (let (r1, s1) := RemoveIf f l1 s in
     let (r2, s2) := RemoveIf f l2 s1 in
     (r1 ++ r2, s2)).
Proof.
  revert s. induction l1 as [|x l1 IH]; intros s.
  - cbn. now destruct (RemoveIf f l2 s).
  - cbn [RemoveIf app]. rewrite !bind_run, IH.
    destruct (RemoveIf f l1 _) as [r1 s1]. unfold ret. cbn [fst snd].
    destruct (RemoveIf f l2 s1) as [r2 s2]. now destruct (fst (f x s)).
Qed.

(** C1, as amended. With the filters [Start] installs, keeper then dropper,
    a data point the keeper does not ask to drop (it matches an allow rule)
    survives the filter phase exactly when the dropper does not ask to drop it
    either, wherever it stands in the collection of its metric: the keeper's
    verdict does not override the dropper's.  The points before it and after
    it are decided as they are on their own, each in the state left by the
    points before it. *)
Theorem dropper_decides_when_keeper_allows {D} (get : D -> Map) ap
    (keeper : @KeepActions W) (dropper : @DropActions W)
    (before after : list D) (d : D) st (e : option error) (w1 : W) :
  allowlistMutators ap = [keepMutator keeper; dropMutator dropper] ->
  ShouldBeDropped keeper (get d) (world (snd (filterPhase get ap before st)))
  = (false, e, w1) ->
  let st1 := snd (filterPhase get ap before st) in
  let st2 := snd (shouldRemove (logger ap) (allowlistMutators ap) (get d) st1) in
  fst (filterPhase get ap (before ++ d :: after) st)
  = fst (filterPhase get ap before st)
    ++ (if fst (fst (ShouldBeDropped dropper (get d) w1)) then [] else [d])
    ++ fst (filterPhase get ap after st2)
  /\ world st2 = snd (ShouldBeDropped dropper (get d) w1).
Proof.
  intros Hms Hk. cbn zeta. unfold filterPhase in *. rewrite RemoveIf_app.
  destruct (RemoveIf _ before st) as [kept1 st1]. cbn [fst snd] in *.
  cbn [RemoveIf]. rewrite !bind_run. unfold ret. cbn [fst snd].
  rewrite Hms. cbn [shouldRemove]. run. rewrite Hk. run.
  destruct e; run;
    destruct (ShouldBeDropped dropper (get d) w1) as [[v [e'|]] w2]; run;
    destruct v; run; now split.
Qed.

(** C2, as amended. When [ShouldBeDropped] returns an error, the error is
    logged at debug level and the verdict returned with it is followed as if
    there were no error: with [false] the decision passes to the remaining
    filters, with [true] the data point is removed.  The decision and the
    world are those of the same filters with every error replaced by nil. *)
Theorem filter_error_is_only_logged (lg : Logger) (m : @allowListMutator W)
    (rest : list (@allowListMutator W)) (attributes : Map) st
    (v : bool) (e : error) (w1 : W) :
  ShouldBeDropped m attributes (world st) = (v, Some e, w1) ->
  let st1 := mkState w1
    (logged st ++ [mkEntry DebugLevel failedToProcessAttributeWithCustomRule
                     [zapError e]]) in
  shouldRemove lg (m :: rest) attributes st
  = (if v then (true, st1) else shouldRemove lg rest attributes st1)
  /\ agree (shouldRemove lg (m :: rest) attributes)
           (shouldRemove lg (map quietFilter (m :: rest)) attributes).
Proof.
  intros Hm. cbn zeta. split; [|apply agree_shouldRemove].
  cbn [shouldRemove]. run. rewrite Hm. run. destruct v; reflexivity.
Qed.
End Filter.

(** The keep rule matches the first three data points; the one the drop rule
    matches as well is removed from between the other two, and the fourth is
    removed by the keeper. *)
Lemma dropper_decides_when_keeper_allows_witness :
  fst (filterPhase NumberDataPoint_Attributes fixture.started
         ([fixture.point fixture.checkout5]
          ++ fixture.point fixture.checkoutUnresolved
          :: [fixture.point fixture3.checkoutOnly; fixture.point fixture.cart9])
         fixture.st0)
  = [fixture.point fixture.checkout5; fixture.point fixture3.checkoutOnly].
Proof.
  exact (proj1 (dropper_decides_when_keeper_allows NumberDataPoint_Attributes
                  fixture.started fixture.keeper fixture.dropper
                  [fixture.point fixture.checkout5]
                  [fixture.point fixture3.checkoutOnly; fixture.point fixture.cart9]
                  (fixture.point fixture.checkoutUnresolved) fixture.st0 None []
                  eq_refl eq_refl)).
Defined.

(** C1 as stated fails: a keep rule is configured and matches the data point,
    a drop rule matches it too, and the data point is removed. *)
Lemma allow_list_precedence_counterexample :
  List.filter rules.isKeep (Rules fixture.cfg) = [fixture.keepCheckout]
  /\ rules.matchesRule fixture.checkoutUnresolved fixture.keepCheckout = true
  /\ rules.matchesRule fixture.checkoutUnresolved fixture.dropUnresolved = true
  /\ allowlistMutators fixture.started
     = [keepMutator fixture.keeper; dropMutator fixture.dropper]
  /\ fst (processMetricAttributes fixture.started tt
            (mkMetric "latency"
               (MetricTypeGauge [fixture.point fixture.checkoutUnresolved]))
            fixture.host fixture.st0)
     = (mkMetric "latency" (MetricTypeGauge []), fixture.host).
Proof. repeat split; vm_compute; reflexivity. Qed.

(** A filter that fails while answering [false] drops nothing. *)
Lemma filter_error_is_only_logged_witness :
  shouldRemove (zapLogger "awsappsignals") [fixture.failingKeep] fixture.checkout5
    fixture.st0
  = (false,
     mkState ["failingKeep.ShouldBeDropped"]
       [mkEntry DebugLevel failedToProcessAttributeWithCustomRule
          [zapError "rule evaluation failed"]]).
Proof.
  exact (proj1 (filter_error_is_only_logged (zapLogger "awsappsignals")
                  fixture.failingKeep [] fixture.checkout5 fixture.st0
                  false "rule evaluation failed" ["failingKeep.ShouldBeDropped"]
                  eq_refl)).
Defined.

(** C2 as stated fails: the filter returns an error together with [true],
    and the data point is removed. *)
Lemma fail_open_counterexample :
  fst (ShouldBeDropped fixture.failingDrop fixture.checkout5 [])
  = (true, Some "rule evaluation failed")
  /\ fst (processMetricAttributes fixture.withFailingDrop tt
            (mkMetric "latency" (MetricTypeGauge [fixture.point fixture.checkout5]))
            fixture.host fixture.st0)
     = (mkMetric "latency" (MetricTypeGauge []), fixture.host).
Proof. split; vm_compute; reflexivity. Qed.

Section TranslateFacts.
Import ec2taggerprocessor.
Context {Conf : Type}.
Variable IsSet : Conf -> string -> bool.
Variable GetString : Conf -> string -> string * bool.
Variable ConfigKey : list string -> string.
Variables MetricsKey AppendDimensionsKey MetricsCollectedKey DiskKey : string.
Variable SupportedAppendDimensions : list (string * string).
Variables AttributeVolumeId ValueAppendDimensionVolumeId : string.
Variable unmarshalCredentials : Config -> Config * option error.
Variable StatusCodeID : component_ID.
Variable GetDefaultRetryNumber : Z.

Abbreviation Translate' :=
  (Translate IsSet GetString ConfigKey MetricsKey AppendDimensionsKey
     MetricsCollectedKey DiskKey SupportedAppendDimensions AttributeVolumeId
     ValueAppendDimensionVolumeId unmarshalCredentials StatusCodeID
     GetDefaultRetryNumber).
Abbreviation key := (Ec2taggerKey ConfigKey MetricsKey AppendDimensionsKey).
Abbreviation keyMissing' := (keyMissing IsSet ConfigKey MetricsKey AppendDimensionsKey).
Abbreviation volumeIdConfigured' :=
  (volumeIdConfigured GetString ConfigKey MetricsKey AppendDimensionsKey
     MetricsCollectedKey DiskKey AttributeVolumeId ValueAppendDimensionVolumeId).

End TranslateFacts.

Example five_minutes : (5 * ec2taggerprocessor.Minute = 300000000000)%Z.
Proof. reflexivity. Qed.

Example Translate_with_volumes :
  ec2fixture.translate ec2fixture.t (Some ec2fixture.withVolumes)
  = (Some (ec2taggerprocessor.mkConfig 0%Z 300000000000%Z ["InstanceId"]
             ["AutoScalingGroupName"] ["*"] "device"
             (Some (ec2taggerprocessor.NewIDWithName "agenthealth" "statuscode")) 1%Z ∅),
     None).
Proof. vm_compute. reflexivity. Qed.

Example Translate_without_volumes :
  ec2fixture.translate ec2fixture.t (Some ec2fixture.withoutVolumes)
  = (Some (ec2taggerprocessor.mkConfig 0%Z 0%Z ["InstanceId"] [] [] ""
             (Some (ec2taggerprocessor.NewIDWithName "agenthealth" "statuscode")) 1%Z ∅),
     None).
Proof. vm_compute. reflexivity. Qed.

Example Translate_without_key :
  ec2fixture.translate ec2fixture.t (Some ec2fixture.logsOnly)
  = (None, Some (ec2taggerprocessor.mkMissingKeyError
                   (ec2taggerprocessor.NewIDWithName "ec2tagger" "")
                   "metrics::append_dimensions"))
  /\ ec2fixture.translate ec2fixture.t None
     = (None, Some (ec2taggerprocessor.mkMissingKeyError
                      (ec2taggerprocessor.NewIDWithName "ec2tagger" "")
                      "metrics::append_dimensions")).
Proof. split; vm_compute; reflexivity. Qed.

(** ** The embedding against the world-passing account *)

Section AgainstTheWorld.
Context {W : Type}.

Lemma implements_ret {A} (a : A) : implements (W:=W) (ret a) (fun w => (a, w)).
Proof. intros st. now split. Qed.

Lemma implements_bind {A B} (m : M (State W) A) (k : A -> M (State W) B)
    (f : W -> A * W) (g : A -> W -> B * W) :
  implements m f -> (forall a, implements (k a) (g a)) ->
  implements (bind m k) (fun w => let (a, w') := f w in g a w').
Proof.
  intros Hm Hk st. rewrite bind_run. destruct (Hm st) as [E1 E2].
  destruct (Hk (fst (m st)) (snd (m st))) as [E3 E4].
  rewrite E3, E4, E1, E2. destruct (f (world st)); now split.
Qed.

Lemma implements_as {A} (m : M (State W) A) (f f' : W -> A * W) :
  (forall w, f w = f' w) -> implements m f -> implements m f'.
Proof. intros E H st. rewrite <- E. apply H. Qed.

Lemma implements_of {A} (m m' : M (State W) A) (f : W -> A * W) :
  (forall st, m st = m' st) -> implements m' f -> implements m f.
Proof. intros E H st. rewrite E. apply H. Qed.

Lemma forIndex_sweep {A X} (body : A -> X -> M (State W) (A * X))
    (f : A -> X -> W -> A * X * W) :
  (forall a x, implements (body a x) (f a x)) ->
  forall l x, implements (forIndex l body x) (sweep f l x).
Proof.
  intros Hb l. induction l as [|a l IH]; intros x st; [now split|].
  cbn [forIndex sweep]. run. destruct (Hb a x st) as [E1 E2].
  destruct (f a x (world st)) as [[a' x1] w1].
  rewrite E1. cbn [fst snd] in *.
  destruct (IH x1 (snd (body a x st))) as [E3 E4]. rewrite E2 in E3, E4.
  destruct (sweep f l x1 w1) as [[l' x2] w2].
  rewrite E3, E4. now split.
Qed.

Lemma forEach_sweep {A} (body : A -> M (State W) A) (f : A -> unit -> W -> A * unit * W) :
  (forall a, implements (body a) (fun w => let '(a', _, w') := f a tt w in (a', w'))) ->
  forall l, implements (forEach l body)
              (fun w => let '(l', _, w') := sweep f l tt w in (l', w')).
Proof.
  intros Hb l. induction l as [|a l IH]; intros st; [now split|].
  cbn [forEach sweep]. run. destruct (Hb a st) as [E1 E2].
  destruct (f a tt (world st)) as [[a' []] w1].
  rewrite E1. cbn [fst snd] in *.
  destruct (IH (snd (body a st))) as [E3 E4]. rewrite E2 in E3, E4.
  destruct (sweep f l tt w1) as [[l' []] w2].
  rewrite E3, E4. now split.
Qed.

Lemma chain_implements (lg : Logger) (msg : string) (isTrace : bool)
    (ms : list (@attributesMutator W)) (a r : Map) :
  implements
    (forRangeOn ms (fun mutator maps =>
       let* (maps, err) := call (Process mutator (fst maps) (snd maps) isTrace) in
       match err with
       | Some err => Debug lg msg [zapError err]
       | None => ret tt
       end ;;
       ret maps) (a, r))
    (throughChain isTrace ms a r).
Proof.
  intros st. pose proof (chain_effect lg msg isTrace ms (a, r) st) as E. cbn zeta in E.
  unfold throughChain. rewrite <- E. now split.
Qed.

Lemma shouldRemove_signalled (lg : Logger) (fs : list (@allowListMutator W)) (a : Map) :
  implements (shouldRemove lg fs a) (signalled fs a).
Proof.
  induction fs as [|f fs IH]; [apply implements_ret|].
  intros st. cbn [shouldRemove signalled]. run.
  destruct (ShouldBeDropped f a (world st)) as [[v e] w1]. cbn [fst snd].
  destruct e as [e|]; run; (destruct v; [now split|]);
    match goal with |- context [shouldRemove lg fs a ?s] =>
      destruct (IH s) as [E1 E2] end; cbn [world] in *; now rewrite E1, E2.
Qed.

Lemma filterPhase_withoutSignalled {Ctx Resolver Rule D} (get : D -> Map)
    (ap : @awsappsignalsprocessor W Ctx Resolver Rule) (dps : list D) :
  implements (filterPhase get ap dps)
             (withoutSignalled get (allowlistMutators ap) dps).
Proof.
  unfold filterPhase. induction dps as [|d dps IH]; intros st; [now split|].
  cbn [RemoveIf withoutSignalled]. run.
  destruct (shouldRemove_signalled (logger ap) (allowlistMutators ap) (get d) st)
    as [E1 E2].
  destruct (signalled (allowlistMutators ap) (get d) (world st)) as [v w1].
  rewrite E1. cbn [fst snd] in *.
  destruct (IH (snd (shouldRemove (logger ap) (allowlistMutators ap) (get d) st)))
    as [E3 E4]. rewrite E2 in E3, E4.
  destruct (withoutSignalled get (allowlistMutators ap) dps w1) as [l' w2].
  rewrite E3, E4. now split.
Qed.
End AgainstTheWorld.

Section BatchesAgainstTheWorld.
Context {W Ctx Resolver Rule : Type}.
Implicit Types (ap : @awsappsignalsprocessor W Ctx Resolver Rule) (st : State W).

Lemma unit_implements {D} (get : D -> Map) (set : D -> Map -> D) (isTrace : bool)
    (ms : list (@attributesMutator W)) (c : Map -> Map -> M (State W) (Map * Map))
    (d : D) (r : Map) :
  (forall a r, implements (c a r) (throughChain isTrace ms a r)) ->
  implements (let* (attributes, r) := c (get d) r in ret (set d attributes, r))
             (unitThroughChain get set isTrace ms d r).
Proof.
  intros Hc st. unfold unitThroughChain. run. destruct (Hc (get d) r st) as [E1 E2].
  destruct (throughChain isTrace ms (get d) r (world st)) as [[a' r'] w'].
  rewrite E1, E2. now split.
Qed.

Lemma replaceDataPoint_implements ap (a r : Map) :
  implements (replaceDataPoint ap a r)
             (throughChain false [replaceMutator (replaceActions ap)] a r).
Proof.
  intros st. unfold replaceDataPoint, throughChain. cbn [fold_left effect]. run.
  destruct (Process (replaceActions ap) a r false (world st)) as [[maps [e|]] w']; run;
    now split.
Qed.

Lemma threePhases_implements {D} (get : D -> Map) (set : D -> Map -> D) ap
    (dps : list D) (res : Map) :
  implements (threePhases get set ap dps res) (mutateFilterReplace get set ap dps res).
Proof.
  intros st. unfold threePhases, mutateFilterReplace. run.
  destruct (forIndex_sweep
    (fun d res => let* (attributes, res) := mutateDataPoint ap (get d) res in
                  ret (set d attributes, res))
    (unitThroughChain get set false (metricMutators ap))) with dps res st as [E1 E2].
  { intros d r. apply unit_implements. intros a r'. unfold mutateDataPoint.
    apply chain_implements. }
  fold (mutatePhase get set ap dps res st) in E1, E2.
  destruct (sweep (unitThroughChain get set false (metricMutators ap)) dps res (world st))
    as [[mutated r1] w1].
  rewrite E1. cbn [fst snd] in *.
  destruct (filterPhase_withoutSignalled get ap mutated
              (snd (mutatePhase get set ap dps res st))) as [E3 E4].
  rewrite E2 in E3, E4.
  destruct (withoutSignalled get (allowlistMutators ap) mutated w1) as [kept w2].
  rewrite E3. cbn [fst snd] in *.
  destruct (forIndex_sweep
    (fun d res => let* (attributes, res) := replaceDataPoint ap (get d) res in
                  ret (set d attributes, res))
    (unitThroughChain get set false [replaceMutator (replaceActions ap)])) with kept r1
    (snd (filterPhase get ap mutated (snd (mutatePhase get set ap dps res st))))
    as [E5 E6].
  { intros d r. apply unit_implements. intros a r'. apply replaceDataPoint_implements. }
  rewrite E4 in E5, E6. split; assumption.
Qed.

Lemma processMetricAttributes_implements ap (ctx : Ctx) (m : Metric) (res : Map) :
  implements (processMetricAttributes ap ctx m res) (processedMetric ap m res).
Proof.
  intros st. rewrite processMetricAttributes_phases. unfold processedMetric.
  destruct (Metric_Data m) as [|dps|dps|dps|dps|dps]; run; [now split|..];
    match goal with |- context [threePhases ?get ?set ap dps res st] =>
      destruct (threePhases_implements get set ap dps res st) as [E1 E2];
      destruct (mutateFilterReplace get set ap dps res (world st)) as [[dps' r'] w']
    end; cbn [fst snd] in *; rewrite E2;
    rewrite (surjective_pairing (fst _)) in E1; injection E1 as -> ->; now split.
Qed.

Lemma processMetrics_implements ap (ctx : Ctx) (md : Metrics) :
  implements (processMetrics ap ctx md)
    (fun w => let (md', w') := processedMetrics ap md w in (md', None, w')).
Proof.
  intros st. unfold processMetrics, processedMetrics. run.
  match goal with |- context [sweep ?f md tt (world st)] =>
    destruct (forEach_sweep (fun rs =>
      let* (ilms, resourceAttributes) :=
        forIndex (ResourceMetrics_ScopeMetrics rs) (fun ils resourceAttributes =>
          let* (metrics, resourceAttributes) :=
            forIndex (ScopeMetrics_Metrics ils) (fun m resourceAttributes =>
              processMetricAttributes ap ctx m resourceAttributes)
            resourceAttributes in
          ret (mkScopeMetrics (ScopeMetrics_Scope ils) metrics, resourceAttributes))
        (ResourceMetrics_Resource rs) in
      ret (mkResourceMetrics resourceAttributes ilms)) f) with md st as [E1 E2]
  end.
  { intros rm s. run.
    match goal with |- context [sweep ?g (ResourceMetrics_ScopeMetrics rm) ?r (world s)] =>
      destruct (forIndex_sweep (fun ils resourceAttributes =>
          let* (metrics, resourceAttributes) :=
            forIndex (ScopeMetrics_Metrics ils) (fun m resourceAttributes =>
              processMetricAttributes ap ctx m resourceAttributes)
            resourceAttributes in
          ret (mkScopeMetrics (ScopeMetrics_Scope ils) metrics, resourceAttributes)) g)
        with (ResourceMetrics_ScopeMetrics rm) r s as [E1 E2];
      [|destruct (sweep g (ResourceMetrics_ScopeMetrics rm) r (world s))
          as [[sms r'] w']]
    end.
    - intros sm r s'. run.
      destruct (forIndex_sweep (fun m resourceAttributes =>
                  processMetricAttributes ap ctx m resourceAttributes)
                  (processedMetric ap)) with (ScopeMetrics_Metrics sm) r s' as [E1 E2];
        [intros m r'; apply processMetricAttributes_implements|].
      destruct (sweep (processedMetric ap) (ScopeMetrics_Metrics sm) r (world s'))
        as [[ms r'] w'].
      cbn [fst snd] in *. rewrite E2.
      rewrite (surjective_pairing (fst _)) in E1. injection E1 as -> ->. now split.
    - cbn [fst snd] in *. rewrite E2.
      rewrite (surjective_pairing (fst _)) in E1. injection E1 as -> ->. now split. }
  destruct (sweep _ md tt (world st)) as [[md' []] w']. cbn [fst snd] in *.
  rewrite E1, E2. now split.
Qed.

Lemma processTraces_implements ap (ctx : Ctx) (td : Traces) :
  implements (processTraces ap ctx td)
    (fun w => let (td', w') := processedTraces (traceMutators ap) td w in
              (td', None, w')).
Proof.
  intros st. unfold processTraces, processedTraces. run.
  match goal with |- context [sweep ?f td tt (world st)] =>
    destruct (forEach_sweep (fun rs =>
      let* (ilss, resourceAttributes) :=
        forIndex (ResourceSpans_ScopeSpans rs) (fun ils resourceAttributes =>
          let* (spans, resourceAttributes) :=
            forIndex (ScopeSpans_Spans ils) (fun span resourceAttributes =>
              let* (attributes, resourceAttributes) :=
                forRangeOn (traceMutators ap) (fun Mutator maps =>
                  let* (maps, err) :=
                    call (Process Mutator (fst maps) (snd maps) true) in
                  match err with
                  | Some err =>
                      Debug (logger ap) "failed to Process span" [zapError err]
                  | None => ret tt
                  end ;;
                  ret maps)
                (Span_Attributes span, resourceAttributes) in
              ret (mkSpan (Span_Name span) attributes, resourceAttributes))
            resourceAttributes in
          ret (mkScopeSpans (ScopeSpans_Scope ils) spans, resourceAttributes))
        (ResourceSpans_Resource rs) in
      ret (mkResourceSpans resourceAttributes ilss)) f) with td st as [E1 E2]
  end.
  { intros rs s. run.
    match goal with |- context [sweep ?g (ResourceSpans_ScopeSpans rs) ?r (world s)] =>
      destruct (forIndex_sweep (fun ils resourceAttributes =>
          let* (spans, resourceAttributes) :=
            forIndex (ScopeSpans_Spans ils) (fun span resourceAttributes =>
              let* (attributes, resourceAttributes) :=
                forRangeOn (traceMutators ap) (fun Mutator maps =>
                  let* (maps, err) :=
                    call (Process Mutator (fst maps) (snd maps) true) in
                  match err with
                  | Some err =>
                      Debug (logger ap) "failed to Process span" [zapError err]
                  | None => ret tt
                  end ;;
                  ret maps)
                (Span_Attributes span, resourceAttributes) in
              ret (mkSpan (Span_Name span) attributes, resourceAttributes))
            resourceAttributes in
          ret (mkScopeSpans (ScopeSpans_Scope ils) spans, resourceAttributes)) g)
        with (ResourceSpans_ScopeSpans rs) r s as [E1 E2];
      [|destruct (sweep g (ResourceSpans_ScopeSpans rs) r (world s))
          as [[ilss r'] w']]
    end.
    - intros ils r s'. run.
      match goal with |- context [sweep ?h (ScopeSpans_Spans ils) r (world s')] =>
        destruct (forIndex_sweep (fun span resourceAttributes =>
              let* (attributes, resourceAttributes) :=
                forRangeOn (traceMutators ap) (fun Mutator maps =>
                  let* (maps, err) :=
                    call (Process Mutator (fst maps) (snd maps) true) in
                  match err with
                  | Some err =>
                      Debug (logger ap) "failed to Process span" [zapError err]
                  | None => ret tt
                  end ;;
                  ret maps)
                (Span_Attributes span, resourceAttributes) in
              ret (mkSpan (Span_Name span) attributes, resourceAttributes)) h)
          with (ScopeSpans_Spans ils) r s' as [E1 E2];
        [|destruct (sweep h (ScopeSpans_Spans ils) r (world s')) as [[spans r'] w']]
      end.
      + intros span r'.
        apply (unit_implements Span_Attributes
                 (fun span attributes => mkSpan (Span_Name span) attributes) true
                 (traceMutators ap)
                 (fun a r => forRangeOn (traceMutators ap) (fun Mutator maps =>
                    let* (maps, err) :=
                      call (Process Mutator (fst maps) (snd maps) true) in
                    match err with
                    | Some err =>
                        Debug (logger ap) "failed to Process span" [zapError err]
                    | None => ret tt
                    end ;;
                    ret maps) (a, r))).
        intros a r''. apply chain_implements.
      + cbn [fst snd] in *. rewrite E2.
        rewrite (surjective_pairing (fst _)) in E1. injection E1 as -> ->. now split.
    - cbn [fst snd] in *. rewrite E2.
      rewrite (surjective_pairing (fst _)) in E1. injection E1 as -> ->. now split. }
  destruct (sweep _ td tt (world st)) as [[td' []] w']. cbn [fst snd] in *.
  rewrite E1, E2. now split.
Qed.
End BatchesAgainstTheWorld.

Section PhasesAndErrors.
Context {W Ctx Resolver Rule : Type}.
Implicit Types (ap : @awsappsignalsprocessor W Ctx Resolver Rule) (st : State W).

(** C4. For every metric of each of the five kinds the three phases run in
    the order mutate, filter, replace over the data points of the metric:
    first every data point goes through the whole metric chain, mutator by
    mutator; then the data points for which a filter signals drop are
    removed, the filters being asked about the mutated attribute sets in the
    world the whole mutate phase left; only then the replace actions run, on
    the data points that are left and on no other.  What [processMetricAttributes]
    returns and the world it leaves are those of [mutateFilterReplace]. *)
Theorem mutate_then_filter_then_replace ap (ctx : Ctx) (name : string) (res : Map) st :
  (forall dps,
     let r := processMetricAttributes ap ctx (mkMetric name (MetricTypeGauge dps)) res st in
     let '(dps', res', w') :=
       mutateFilterReplace NumberDataPoint_Attributes NumberDataPoint_set ap dps res
         (world st) in
     fst r = (mkMetric name (MetricTypeGauge dps'), res') /\ world (snd r) = w')
  /\ (forall dps,
     let r := processMetricAttributes ap ctx (mkMetric name (MetricTypeSum dps)) res st in
     let '(dps', res', w') :=
       mutateFilterReplace NumberDataPoint_Attributes NumberDataPoint_set ap dps res
         (world st) in
     fst r = (mkMetric name (MetricTypeSum dps'), res') /\ world (snd r) = w')
  /\ (forall dps,
     let r := processMetricAttributes ap ctx (mkMetric name (MetricTypeHistogram dps))
                res st in
     let '(dps', res', w') :=
       mutateFilterReplace HistogramDataPoint_Attributes HistogramDataPoint_set ap dps res
         (world st) in
     fst r = (mkMetric name (MetricTypeHistogram dps'), res') /\ world (snd r) = w')
  /\ (forall dps,
     let r := processMetricAttributes ap ctx
                (mkMetric name (MetricTypeExponentialHistogram dps)) res st in
     let '(dps', res', w') :=
       mutateFilterReplace ExponentialHistogramDataPoint_Attributes
         ExponentialHistogramDataPoint_set ap dps res (world st) in
     fst r = (mkMetric name (MetricTypeExponentialHistogram dps'), res')
     /\ world (snd r) = w')
  /\ (forall dps,
     let r := processMetricAttributes ap ctx (mkMetric name (MetricTypeSummary dps))
                res st in
     let '(dps', res', w') :=
       mutateFilterReplace SummaryDataPoint_Attributes SummaryDataPoint_set ap dps res
         (world st) in
     fst r = (mkMetric name (MetricTypeSummary dps'), res') /\ world (snd r) = w').
Proof.
  repeat split; intros dps; cbn zeta;
    match goal with |- context [processMetricAttributes ap ctx ?m res st] =>
      destruct (processMetricAttributes_implements ap ctx m res st) as [E1 E2]
    end; unfold processedMetric in E1, E2; cbn [Metric_Data Metric_Name] in E1, E2;
    destruct (mutateFilterReplace _ _ ap dps res (world st)) as [[dps' res'] w'];
    split; assumption.
Qed.

(** C6. [processTraces] and [processMetrics] always return a nil error with
    the batch.  Whatever errors the mutators and filters return, every unit of
    the batch is processed, in order, and every mutator of the chain runs on
    every unit: the batch returned and the world left are those of
    [processedTraces] and [processedMetrics], which apply every mutator to
    every span and data point and never look at an error.  The errors change
    nothing but the log: batch and world are those of the same processor with
    every error replaced by nil.  A metric of a kind the switch does not name
    comes back as it was, and the components are not called. *)
Theorem mutator_errors_are_swallowed ap (ctx : Ctx) (td : Traces) (md : Metrics) st :
  snd (fst (processTraces ap ctx td st)) = None
  /\ snd (fst (processMetrics ap ctx md st)) = None
  /\ fst (processTraces ap ctx td st)
     = (fst (processedTraces (traceMutators ap) td (world st)), None)
  /\ world (snd (processTraces ap ctx td st))
     = snd (processedTraces (traceMutators ap) td (world st))
  /\ fst (processMetrics ap ctx md st) = (fst (processedMetrics ap md (world st)), None)
  /\ world (snd (processMetrics ap ctx md st)) = snd (processedMetrics ap md (world st))
  /\ fst (processTraces ap ctx td st) = fst (processTraces (quietProcessor ap) ctx td st)
  /\ world (snd (processTraces ap ctx td st))
     = world (snd (processTraces (quietProcessor ap) ctx td st))
  /\ fst (processMetrics ap ctx md st) = fst (processMetrics (quietProcessor ap) ctx md st)
  /\ world (snd (processMetrics ap ctx md st))
     = world (snd (processMetrics (quietProcessor ap) ctx md st))
  /\ (forall name scope attributes res,
        let r := processTraces ap ctx
          [mkResourceSpans res [mkScopeSpans scope [mkSpan name attributes]]] st in
        let '(attributes', res', w') :=
          fold_left (effect true) (traceMutators ap) (attributes, res, world st) in
        fst (fst r) = [mkResourceSpans res' [mkScopeSpans scope [mkSpan name attributes']]]
        /\ world (snd r) = w')
  /\ (forall attributes res,
        let r := mutateDataPoint ap attributes res st in
        (fst r, world (snd r))
        = fold_left (effect false) (metricMutators ap) (attributes, res, world st))
  /\ (forall name res,
        let r := processMetricAttributes ap ctx (mkMetric name MetricTypeEmpty) res st in
        fst r = (mkMetric name MetricTypeEmpty, res) /\ world (snd r) = world st).
Proof.
  destruct (errors_reach_only_the_log ap ctx td md st)
    as (H1 & H2 & H3 & H4 & H5 & H6 & H7 & H8 & H9).
  destruct (processTraces_implements ap ctx td st) as [T1 T2].
  destruct (processMetrics_implements ap ctx md st) as [M1 M2].
  destruct (processedTraces (traceMutators ap) td (world st)) as [td' wt].
  destruct (processedMetrics ap md (world st)) as [md' wm].
  repeat split; assumption.
Qed.
End PhasesAndErrors.

(** * Further properties *)

Section MetricShape.
Context {W Ctx Resolver Rule : Type}.
Implicit Types (ap : @awsappsignalsprocessor W Ctx Resolver Rule) (st : State W).

Lemma processMetricAttributes_name_kind ap (ctx : Ctx) (m : Metric) (res : Map) st :
  let m' := fst (fst (processMetricAttributes ap ctx m res st)) in
  Metric_Name m' = Metric_Name m
  /\ MetricType_String (Metric_Data m') = MetricType_String (Metric_Data m).
Proof.
  cbn zeta. rewrite processMetricAttributes_phases.
  destruct m as [name []]; cbn [Metric_Data Metric_Name]; run; split; reflexivity.
Qed.

(** X1. [processMetrics] returns as many resources, scopes and metrics as it
    was given, each scope and each metric in its place and with its name and
    its kind. *)
Theorem processMetrics_keeps_every_metric ap (ctx : Ctx) (md : Metrics) st :
  metricNames (fst (fst (processMetrics ap ctx md st))) = metricNames md.
Proof.
  unfold processMetrics. run. unfold metricNames.
  apply (forEach_map (fun rm => map (fun sm =>
         (ScopeMetrics_Scope sm,
          map (fun m => (Metric_Name m, MetricType_String (Metric_Data m)))
            (ScopeMetrics_Metrics sm)))
       (ResourceMetrics_ScopeMetrics rm))).
  intros rm s. run. cbn [ResourceMetrics_ScopeMetrics].
  apply (forIndex_map (fun sm =>
         (ScopeMetrics_Scope sm,
          map (fun m => (Metric_Name m, MetricType_String (Metric_Data m)))
            (ScopeMetrics_Metrics sm)))).
  intros sm acc s'. run. cbn [ScopeMetrics_Scope ScopeMetrics_Metrics]. f_equal.
  apply (forIndex_map (fun m => (Metric_Name m, MetricType_String (Metric_Data m)))).
  intros m acc' s''.
  destruct (processMetricAttributes_name_kind ap ctx m acc' s'') as [-> ->].
  reflexivity.
Qed.

Lemma sublist_map {A B} (f : A -> B) (l1 l2 : list A) :
  sublist l1 l2 -> sublist (map f l1) (map f l2).
Proof. induction 1; cbn; now constructor. Qed.

Lemma Forall2_set_payload {D P} (get : D -> Map) (set : D -> Map -> D) (pay : D -> P)
    (l l' : list D) :
  (forall d a, pay (set d a) = pay d) ->
  Forall2 (fun d d' => d' = set d (get d')) l l' -> map pay l' = map pay l.
Proof.
  intros Hpay H. induction H as [|d d' l l' Hd _ IH]; [reflexivity|].
  cbn. rewrite IH. f_equal. rewrite Hd. apply Hpay.
Qed.

Lemma threePhases_payload {D P} (get : D -> Map) (set : D -> Map -> D) (pay : D -> P)
    ap (dps : list D) (res : Map) st :
  (forall d a, get (set d a) = a) ->
  (forall d a, pay (set d a) = pay d) ->
  sublist (map pay (fst (fst (threePhases get set ap dps res st)))) (map pay dps).
Proof.
  intros get_set Hpay. unfold threePhases. run.
  pose proof (forIndex_Forall2 (fun d d' => d' = set d (get d'))
    (fun d res => let* (attributes, res) := mutateDataPoint ap (get d) res in
                  ret (set d attributes, res))) as H1.
  specialize (H1 ltac:(intros; run; now rewrite get_set) dps res st).
  fold (mutatePhase get set ap dps res st) in H1.
  destruct (mutatePhase get set ap dps res st) as [[mutated res1] st1].
  cbn [fst snd] in *.
  pose proof (RemoveIf_sublist
    (fun d => shouldRemove (logger ap) (allowlistMutators ap) (get d)) mutated st1) as H2.
  fold (filterPhase get ap mutated st1) in H2.
  destruct (filterPhase get ap mutated st1) as [kept st2]. cbn [fst snd] in *.
  pose proof (forIndex_Forall2 (fun d d' => d' = set d (get d'))
    (fun d res => let* (attributes, res) := replaceDataPoint ap (get d) res in
                  ret (set d attributes, res))) as H3.
  specialize (H3 ltac:(intros; run; now rewrite get_set) kept res1 st2).
  fold (replacePhase get set ap kept res1 st2) in H3.
  rewrite (Forall2_set_payload get set pay _ _ Hpay H3).
  rewrite <- (Forall2_set_payload get set pay _ _ Hpay H1).
  now apply sublist_map.
Qed.

(** X2. A metric loses data points only: those it keeps are data points it had,
    in their order and with their timestamps and values. *)
Theorem processMetricAttributes_only_removes ap (ctx : Ctx) (m : Metric) (res : Map) st :
  sublist (payloads (Metric_Data (fst (fst (processMetricAttributes ap ctx m res st)))))
          (payloads (Metric_Data m)).
Proof.
  rewrite processMetricAttributes_phases.
  destruct m as [name [|dps|dps|dps|dps|dps]]; cbn [Metric_Data Metric_Name]; run;
    cbn [Metric_Data payloads]; try reflexivity;
    apply threePhases_payload; reflexivity.
Qed.
End MetricShape.

Section FilterFacts.
Context {W Ctx Resolver Rule : Type}.
Implicit Types (ap : @awsappsignalsprocessor W Ctx Resolver Rule) (st : State W).

Lemma shouldRemove_neverDrops (lg : Logger) (ms : list (@allowListMutator W))
    (a : Map) st :
  Forall neverDrops ms -> fst (shouldRemove lg ms a st) = false.
Proof.
  intros H. revert st. induction H as [|m ms Hm _ IH]; intros st; [reflexivity|].
  cbn [shouldRemove]. run. rewrite (Hm a (world st)).
  destruct (snd (fst (ShouldBeDropped m a (world st)))); run; apply IH.
Qed.

Lemma RemoveIf_all_kept {S A} (f : A -> M S bool) (l : list A) (s : S) :
  (forall x s, fst (f x s) = false) -> fst (RemoveIf f l s) = l.
Proof.
  intros Hf. revert s. induction l as [|x l IH]; intros s; [reflexivity|].
  cbn [RemoveIf]. run. rewrite Hf, IH. reflexivity.
Qed.

Lemma threePhases_all_kept {D P} (get : D -> Map) (set : D -> Map -> D) (pay : D -> P)
    ap (dps : list D) (res : Map) st :
  (forall d a, get (set d a) = a) ->
  (forall d a, pay (set d a) = pay d) ->
  Forall neverDrops (allowlistMutators ap) ->
  map pay (fst (fst (threePhases get set ap dps res st))) = map pay dps.
Proof.
  intros get_set Hpay Hnever. unfold threePhases. run.
  pose proof (forIndex_Forall2 (fun d d' => d' = set d (get d'))
    (fun d res => let* (attributes, res) := mutateDataPoint ap (get d) res in
                  ret (set d attributes, res))) as H1.
  specialize (H1 ltac:(intros; run; now rewrite get_set) dps res st).
  fold (mutatePhase get set ap dps res st) in H1.
  destruct (mutatePhase get set ap dps res st) as [[mutated res1] st1].
  cbn [fst snd] in *.
  assert (fst (filterPhase get ap mutated st1) = mutated) as H2.
  { apply RemoveIf_all_kept. intros d s. now apply shouldRemove_neverDrops. }
  destruct (filterPhase get ap mutated st1) as [kept st2]. cbn [fst snd] in *. subst kept.
  pose proof (forIndex_Forall2 (fun d d' => d' = set d (get d'))
    (fun d res => let* (attributes, res) := replaceDataPoint ap (get d) res in
                  ret (set d attributes, res))) as H3.
  specialize (H3 ltac:(intros; run; now rewrite get_set) mutated res1 st2).
  fold (replacePhase get set ap mutated res1 st2) in H3.
  rewrite (Forall2_set_payload get set pay _ _ Hpay H3).
  apply (Forall2_set_payload get set pay _ _ Hpay H1).
Qed.

(** X3. When no filter ever asks to drop (in particular when there is none), a
    metric keeps all its data points. *)
Theorem nothing_dropped_without_a_drop_verdict ap (ctx : Ctx) (m : Metric) (res : Map) st :
  Forall neverDrops (allowlistMutators ap) ->
  payloads (Metric_Data (fst (fst (processMetricAttributes ap ctx m res st))))
  = payloads (Metric_Data m).
Proof.
  intros Hnever. rewrite processMetricAttributes_phases.
  destruct m as [name [|dps|dps|dps|dps|dps]]; cbn [Metric_Data Metric_Name]; run;
    cbn [Metric_Data payloads]; try reflexivity;
    apply threePhases_all_kept; (reflexivity || assumption).
Qed.

(** X4. The filters of a list are consulted in order, each in the world its
    predecessor left, and only until one asks to drop: the verdict and the
    world are those of [signalled], which asks them one by one.  On two lists
    one after the other the verdict is that of the first when it is a drop,
    the second list then being left alone, and otherwise that of the second
    in the state the first left. *)
Theorem filters_are_consulted_until_a_drop (lg : Logger)
    (ms1 ms2 : list (@allowListMutator W)) (attributes : Map) st :
  implements (shouldRemove lg ms1 attributes) (signalled ms1 attributes)
  /\ shouldRemove lg (ms1 ++ ms2) attributes st
     = (let (v, st1) := shouldRemove lg ms1 attributes st in
        if v then (true, st1) else shouldRemove lg ms2 attributes st1).
Proof.
  split; [apply shouldRemove_signalled|].
  revert st. induction ms1 as [|m ms1 IH]; intros st; [reflexivity|].
  cbn [app shouldRemove]. rewrite !bind_run.
  destruct (call (ShouldBeDropped m attributes) st) as [[v e] st1]. cbn [fst snd].
  rewrite !bind_run.
  destruct v; [reflexivity|]. apply IH.
Qed.

Lemma shouldRemove_stateless (lg : Logger) (ms : list (@allowListMutator W))
    (a : Map) st :
  Forall statelessFilter ms ->
  fst (shouldRemove lg ms a st) = dropVerdict ms (world st) a
  /\ world (snd (shouldRemove lg ms a st)) = world st.
Proof.
  intros H. revert st. induction H as [|m ms Hm _ IH]; intros st; [split; reflexivity|].
  unfold dropVerdict. cbn [shouldRemove existsb]. run.
  pose proof (Hm a (world st)) as Hw.
  destruct (ShouldBeDropped m a (world st)) as [[v e] w'] eqn:E. cbn [fst snd] in *.
  subst w'.
  destruct e as [e|]; run; (destruct v; run; [split; reflexivity|]);
    cbn [orb]; match goal with
    | |- context [shouldRemove lg ms a ?s] => destruct (IH s) as [IH1 IH2]
    end; cbn [world] in *; rewrite IH1, IH2; split; reflexivity.
Qed.

Lemma filterPhase_stateless {D} (get : D -> Map) ap (dps : list D) (w0 : W) st :
  Forall statelessFilter (allowlistMutators ap) ->
  world st = w0 ->
  fst (filterPhase get ap dps st)
  = List.filter (fun d => negb (dropVerdict (allowlistMutators ap) w0 (get d))) dps
  /\ world (snd (filterPhase get ap dps st)) = w0.
Proof.
  intros H. unfold filterPhase. revert st.
  induction dps as [|d dps IH]; intros st Hw0; [split; [reflexivity|exact Hw0]|].
  cbn [RemoveIf List.filter]. run.
  destruct (shouldRemove_stateless (logger ap) (allowlistMutators ap) (get d) st H)
    as [Hv Hw].
  rewrite Hv, Hw0.
  destruct (IH (snd (shouldRemove (logger ap) (allowlistMutators ap) (get d) st)))
    as [IH1 IH2]; [congruence|].
  rewrite IH1, IH2. split; [|reflexivity].
  destruct (dropVerdict (allowlistMutators ap) w0 (get d)); reflexivity.
Qed.

(** X5. With filters that have no state, the filter phase is a plain filter: a
    data point stays exactly when no filter asks to drop it, and the world is
    left as it was. *)
Theorem stateless_filters_filter {D} (get : D -> Map) ap (dps : list D) st :
  Forall statelessFilter (allowlistMutators ap) ->
  fst (filterPhase get ap dps st)
  = List.filter (fun d =>
      negb (dropVerdict (allowlistMutators ap) (world st) (get d))) dps
  /\ world (snd (filterPhase get ap dps st)) = world st.
Proof. intros H. now apply filterPhase_stateless. Qed.
End FilterFacts.

Lemma nothing_dropped_without_a_drop_verdict_witness :
  payloads (Metric_Data (fst (fst (processMetricAttributes fixture2.withFailingKeep tt
                                     fixture.latency fixture.host fixture.st0))))
  = [(100%Z, [7%Z])].
Proof.
  apply (nothing_dropped_without_a_drop_verdict fixture2.withFailingKeep tt
           fixture.latency fixture.host fixture.st0).
  repeat constructor.
Defined.

Example a_drop_ends_the_consultation :
  shouldRemove (zapLogger "awsappsignals") [fixture.failingDrop; fixture.failingKeep]
    fixture.checkout5 fixture.st0
  = (true,
     mkState ["failingDrop.ShouldBeDropped"]
       [mkEntry DebugLevel failedToProcessAttributeWithCustomRule
          [zapError "rule evaluation failed"]]).
Proof. vm_compute. reflexivity. Qed.

Lemma stateless_filters_filter_witness :
  fst (filterPhase NumberDataPoint_Attributes fixture.started
         [fixture.point fixture.checkoutUnresolved; fixture.point fixture.checkout5;
          fixture.point fixture.cart9] fixture.st0)
  = [fixture.point fixture.checkout5].
Proof.
  apply (stateless_filters_filter NumberDataPoint_Attributes fixture.started
           [fixture.point fixture.checkoutUnresolved; fixture.point fixture.checkout5;
            fixture.point fixture.cart9] fixture.st0).
  repeat constructor.
Defined.

Section Appends.
Context {W : Type}.
Variable P : Entry -> Prop.

Lemma appends_ret {A} (a : A) : appends (W:=W) P (ret a).
Proof. intros st. exists []. rewrite app_nil_r. now split. Qed.

Lemma appends_bind {A B} (m : M (State W) A) (k : A -> M (State W) B) :
  appends P m -> (forall a, appends P (k a)) -> appends P (bind m k).
Proof.
  intros Hm Hk st. rewrite bind_run.
  destruct (Hm st) as (n1 & E1 & F1).
  destruct (Hk (fst (m st)) (snd (m st))) as (n2 & E2 & F2).
  exists (n1 ++ n2). rewrite E2, E1, app_assoc. split; [reflexivity|].
  apply Forall_app; now split.
Qed.

Lemma appends_call {A} (m : M W A) : appends P (call m).
Proof. intros st. exists []. rewrite call_run, app_nil_r. now split. Qed.

Lemma appends_Debug (lg : Logger) (msg : string) (fields : list Field) :
  P (mkEntry DebugLevel msg fields) -> appends (W:=W) P (Debug lg msg fields).
Proof. intros H st. eexists [_]. rewrite Debug_run. split; [reflexivity|]. now constructor. Qed.

Lemma appends_forIndex {A X} (body : A -> X -> M (State W) (A * X)) (l : list A) :
  Forall (fun x => forall acc, appends P (body x acc)) l ->
  forall acc, appends P (forIndex l body acc).
Proof.
  induction 1 as [|x l Hx _ IH]; intros acc; [apply appends_ret|].
  cbn [forIndex]. apply appends_bind; [apply Hx|]. intros [x' acc'].
  apply appends_bind; [apply IH|]. intros [l' acc'']. apply appends_ret.
Qed.

Lemma appends_forEach {A} (body : A -> M (State W) A) (l : list A) :
  Forall (fun x => appends P (body x)) l -> appends P (forEach l body).
Proof.
  induction 1 as [|x l Hx _ IH]; [apply appends_ret|].
  cbn [forEach]. apply appends_bind; [apply Hx|]. intros x'.
  apply appends_bind; [apply IH|]. intros l'. apply appends_ret.
Qed.

Lemma appends_RemoveIf {A} (f : A -> M (State W) bool) (l : list A) :
  (forall x, appends P (f x)) -> appends P (RemoveIf f l).
Proof.
  intros Hf. induction l as [|x l IH]; [apply appends_ret|].
  cbn [RemoveIf]. apply appends_bind; [apply Hf|]. intros v.
  apply appends_bind; [apply IH|]. intros l'. apply appends_ret.
Qed.

Lemma appends_forRangeOn {A X} (body : A -> X -> M (State W) X) (l : list A) :
  Forall (fun x => forall acc, appends P (body x acc)) l ->
  forall acc, appends P (forRangeOn l body acc).
Proof.
  induction 1 as [|x l Hx _ IH]; intros acc; [apply appends_ret|].
  cbn [forRangeOn]. apply appends_bind; [apply Hx|]. intros acc'. apply IH.
Qed.

(** One mutator on one unit. *)
Lemma appends_step (lg : Logger) (msg : string) (isTrace : bool)
    (m : @attributesMutator W) (maps : Map * Map) :
  failureLogged P isTrace msg m ->
  appends P
    (let* (maps, err) := call (Process m (fst maps) (snd maps) isTrace) in
     match err with
     | Some err => Debug lg msg [zapError err]
     | None => ret tt
     end ;; ret maps).
Proof.
  intros Hm st. run.
  pose proof (Hm (fst maps) (snd maps) (world st)) as H.
  destruct (Process m maps.1 maps.2 isTrace (world st)) as [[maps' [e|]] w']; run.
  - eexists [_]. split; [reflexivity|]. constructor; [|constructor]. now apply H.
  - exists []. rewrite app_nil_r. now split.
Qed.

Lemma appends_chain (lg : Logger) (msg : string) (isTrace : bool)
    (ms : list (@attributesMutator W)) (maps : Map * Map) :
  Forall (failureLogged P isTrace msg) ms ->
  appends P (forRangeOn ms (fun mutator maps =>
      let* (maps, err) := call (Process mutator (fst maps) (snd maps) isTrace) in
      match err with
      | Some err => Debug lg msg [zapError err]
      | None => ret tt
      end ;;
      ret maps) maps).
Proof.
  intros H. apply appends_forRangeOn.
  eapply Forall_impl; [exact H|]. intros m Hm acc. now apply appends_step.
Qed.

Lemma appends_shouldRemove (lg : Logger) (ms : list (@allowListMutator W)) (a : Map) :
  Forall (filterFailureLogged P) ms -> appends P (shouldRemove lg ms a).
Proof.
  induction 1 as [|m ms Hm _ IH]; [apply appends_ret|].
  intros st. cbn [shouldRemove]. run.
  pose proof (Hm a (world st)) as H.
  destruct (ShouldBeDropped m a (world st)) as [[v [e|]] w']; run.
  - destruct v; run.
    + eexists [_]. split; [reflexivity|]. constructor; [|constructor]. now apply H.
    + match goal with |- context [shouldRemove lg ms a ?s] =>
        destruct (IH s) as (n & E & F) end.
      cbn [logged] in E. eexists (_ :: n). rewrite E, <- app_assoc.
      split; [reflexivity|]. constructor; [now apply H|exact F].
  - destruct v; run.
    + exists []. rewrite app_nil_r. now split.
    + exact (IH (mkState w' (logged st))).
Qed.
End Appends.

Section Logging.
Context {W Ctx Resolver Rule : Type}.
Implicit Types (ap : @awsappsignalsprocessor W Ctx Resolver Rule) (st : State W).

Lemma appends_ext {A} (P : Entry -> Prop) (m m' : M (State W) A) :
  (forall st, m st = m' st) -> appends P m' -> appends P m.
Proof. intros E H st. rewrite E. apply H. Qed.

Lemma processTraces_appends (P : Entry -> Prop) ap (ctx : Ctx) (td : Traces) :
  Forall (failureLogged P true "failed to Process span") (traceMutators ap) ->
  appends P (processTraces ap ctx td).
Proof.
  intros H. unfold processTraces.
  apply appends_bind; [|intros; apply appends_ret].
  apply appends_forEach, Forall_forall. intros rs _.
  apply appends_bind; [|intros []; apply appends_ret].
  apply appends_forIndex, Forall_forall. intros ils _ acc.
  apply appends_bind; [|intros []; apply appends_ret].
  apply appends_forIndex, Forall_forall. intros span _ acc'.
  apply appends_bind; [|intros []; apply appends_ret].
  now apply appends_chain.
Qed.

Lemma threePhases_appends (P : Entry -> Prop) {D} (get : D -> Map)
    (set : D -> Map -> D) ap (dps : list D) (res : Map) :
  Forall (failureLogged P false failedToProcessAttribute) (metricMutators ap) ->
  Forall (filterFailureLogged P) (allowlistMutators ap) ->
  failureLogged P false failedToProcessAttribute (replaceActions ap) ->
  appends P (threePhases get set ap dps res).
Proof.
  intros Hm Hf Hr. unfold threePhases, mutatePhase, filterPhase, replacePhase.
  apply appends_bind.
  { apply appends_forIndex, Forall_forall. intros d _ acc.
    apply appends_bind; [|intros []; apply appends_ret].
    unfold mutateDataPoint. now apply appends_chain. }
  intros [mutated res1]. apply appends_bind.
  { apply appends_RemoveIf. intros d. now apply appends_shouldRemove. }
  intros kept. apply appends_forIndex, Forall_forall. intros d _ acc.
  apply appends_bind; [|intros []; apply appends_ret].
  unfold replaceDataPoint.
  now apply (appends_step P (logger ap) failedToProcessAttribute false
               (replaceActions ap) (get d, acc)).
Qed.

Lemma processMetricAttributes_appends (P : Entry -> Prop) ap (ctx : Ctx) (m : Metric)
    (res : Map) :
  Forall (failureLogged P false failedToProcessAttribute) (metricMutators ap) ->
  Forall (filterFailureLogged P) (allowlistMutators ap) ->
  failureLogged P false failedToProcessAttribute (replaceActions ap) ->
  (Metric_Data m = MetricTypeEmpty ->
   P (mkEntry DebugLevel "Ignore unknown metric type" [zapString "type" "Empty"])) ->
  appends P (processMetricAttributes ap ctx m res).
Proof.
  intros Hm Hf Hr He.
  eapply appends_ext; [apply processMetricAttributes_phases|].
  destruct (Metric_Data m).
  - apply appends_bind; [|intros; apply appends_ret].
    apply appends_Debug. now apply He.
  - apply appends_bind; [now apply threePhases_appends|intros []; apply appends_ret].
  - apply appends_bind; [now apply threePhases_appends|intros []; apply appends_ret].
  - apply appends_bind; [now apply threePhases_appends|intros []; apply appends_ret].
  - apply appends_bind; [now apply threePhases_appends|intros []; apply appends_ret].
  - apply appends_bind; [now apply threePhases_appends|intros []; apply appends_ret].
Qed.

Lemma processMetrics_appends (P : Entry -> Prop) ap (ctx : Ctx) (md : Metrics) :
  Forall (failureLogged P false failedToProcessAttribute) (metricMutators ap) ->
  Forall (filterFailureLogged P) (allowlistMutators ap) ->
  failureLogged P false failedToProcessAttribute (replaceActions ap) ->
  Forall (fun rm => Forall (fun sm => Forall (fun m =>
     Metric_Data m = MetricTypeEmpty ->
     P (mkEntry DebugLevel "Ignore unknown metric type" [zapString "type" "Empty"]))
     (ScopeMetrics_Metrics sm)) (ResourceMetrics_ScopeMetrics rm)) md ->
  appends P (processMetrics ap ctx md).
Proof.
  intros Hm Hf Hr He. unfold processMetrics.
  apply appends_bind; [|intros; apply appends_ret].
  apply appends_forEach. eapply Forall_impl; [exact He|]. intros rm Hrm.
  apply appends_bind; [|intros []; apply appends_ret].
  apply appends_forIndex. eapply Forall_impl; [exact Hrm|]. intros sm Hsm acc.
  apply appends_bind; [|intros []; apply appends_ret].
  apply appends_forIndex. eapply Forall_impl; [exact Hsm|]. intros m Hmm acc'.
  now apply processMetricAttributes_appends.
Qed.

Lemma Forall_True {A} (Q : A -> Prop) (l : list A) : (forall x, Q x) -> Forall Q l.
Proof. intros H. apply Forall_forall. auto. Qed.

(** X6. Of its own, the processor never removes or rewrites what it has
    logged, and while it processes a batch it writes nothing but debug
    entries: one per failing mutator call on a span; for metrics one per
    failing mutator, filter or replace call, and one per metric of a kind
    the switch does not name.  (What the components write through the logger
    they were built with is theirs, and not in [logged].) *)
Theorem processing_only_appends_debug_entries ap (ctx : Ctx) (td : Traces)
    (md : Metrics) :
  appends spanFailure (processTraces ap ctx td)
  /\ appends metricNote (processMetrics ap ctx md).
Proof.
  split.
  - apply processTraces_appends, Forall_True. intros m a r w e _. now exists e.
  - apply processMetrics_appends.
    + apply Forall_True. intros m a r w e _. left. now exists e.
    + apply Forall_True. intros m a w e _. right; left. now exists e.
    + intros a r w e _. left. now exists e.
    + apply Forall_True. intros rm. apply Forall_True. intros sm.
      apply Forall_True. intros m _. right; right. reflexivity.
Qed.

Lemma appends_nothing {A} (m : M (State W) A) st :
  appends (fun _ => False) m -> logged (snd (m st)) = logged st.
Proof.
  intros H. destruct (H st) as (new & E & F). rewrite E.
  destruct F as [|e new []]. apply app_nil_r.
Qed.

(** X7. When no trace mutator fails, [processTraces] itself makes no call to
    its logger: the entries the processor has written stay as they were. *)
Theorem processTraces_silent_without_errors ap (ctx : Ctx) (td : Traces) st :
  Forall neverFails (traceMutators ap) ->
  logged (snd (processTraces ap ctx td st)) = logged st.
Proof.
  intros H. apply appends_nothing, processTraces_appends.
  eapply Forall_impl; [exact H|]. intros m Hm a r w e He.
  rewrite Hm in He. discriminate.
Qed.

(** X8. When no mutator, filter or replace action fails and every metric is of
    one of the five kinds, [processMetrics] itself makes no call to its
    logger: the entries the processor has written stay as they were. *)
Theorem processMetrics_silent_without_errors ap (ctx : Ctx) (md : Metrics) st :
  Forall neverFails (metricMutators ap) ->
  Forall filterNeverFails (allowlistMutators ap) ->
  neverFails (replaceActions ap) ->
  hasNoEmptyMetric md ->
  logged (snd (processMetrics ap ctx md st)) = logged st.
Proof.
  intros Hm Hf Hr He. apply appends_nothing, processMetrics_appends.
  - eapply Forall_impl; [exact Hm|]. intros m H a r w e E. rewrite H in E. discriminate.
  - eapply Forall_impl; [exact Hf|]. intros m H a w e E. rewrite H in E. discriminate.
  - intros a r w e E. rewrite Hr in E. discriminate.
  - eapply Forall_impl; [exact He|]. intros rm Hrm.
    eapply Forall_impl; [exact Hrm|]. intros sm Hsm.
    eapply Forall_impl; [exact Hsm|]. intros m Hne Heq. contradiction.
Qed.
End Logging.

Lemma processTraces_silent_without_errors_witness :
  logged (snd (processTraces fixture3.normalizing tt fixture.td0 fixture.st0)) = [].
Proof.
  apply (processTraces_silent_without_errors fixture3.normalizing tt fixture.td0
           fixture.st0).
  repeat constructor.
Defined.

Lemma processMetrics_silent_without_errors_witness :
  logged (snd (processMetrics fixture3.normalizing tt fixture3.md1 fixture.st0)) = [].
Proof.
  apply (processMetrics_silent_without_errors fixture3.normalizing tt fixture3.md1
           fixture.st0).
  - repeat constructor.
  - repeat constructor.
  - intros a r b w. reflexivity.
  - repeat constructor; discriminate.
Defined.

Section LoopAlgebra.
Context {S : Type}.

Lemma forEach_app {A} (body : A -> M S A) (l1 l2 : list A) (s : S) :
  forEach (l1 ++ l2) body s
  = let (r1, s1) := forEach l1 body s in
    let (r2, s2) := forEach l2 body s1 in
    (r1 ++ r2, s2).
Proof.
  revert s. induction l1 as [|x l1 IH]; intros s.
  - cbn. now destruct (forEach l2 body s).
  - cbn [forEach app]. rewrite !bind_run, IH.
    destruct (forEach l1 body _) as [r1 s1]. unfold ret. cbn [fst snd].
    destruct (forEach l2 body s1) as [r2 s2]. reflexivity.
Qed.

Lemma forEach_id {A} (body : A -> M S A) (l : list A) (s : S) :
  (forall x s, body x s = (x, s)) -> forEach l body s = (l, s).
Proof.
  intros H. induction l as [|x l IH]; [reflexivity|].
  cbn [forEach]. run. rewrite H. cbn [fst snd]. now rewrite IH.
Qed.

Lemma forIndex_id {A X} (body : A -> X -> M S (A * X)) (l : list A) (acc : X) (s : S) :
  (forall x acc s, body x acc s = (x, acc, s)) -> forIndex l body acc s = (l, acc, s).
Proof.
  intros H. induction l as [|x l IH]; [reflexivity|].
  cbn [forIndex]. run. rewrite H. cbn [fst snd]. now rewrite IH.
Qed.

Lemma bind_ext {A B} (m1 m2 : M S A) (k1 k2 : A -> M S B) :
  (forall s, m1 s = m2 s) -> (forall a s, k1 a s = k2 a s) ->
  forall s, bind m1 k1 s = bind m2 k2 s.
Proof. intros Hm Hk s. rewrite !bind_run, Hm. apply Hk. Qed.

Lemma forEach_ext {A} (b1 b2 : A -> M S A) (l : list A) :
  (forall x s, b1 x s = b2 x s) -> forall s, forEach l b1 s = forEach l b2 s.
Proof.
  intros H. induction l as [|x l IH]; intros s; [reflexivity|].
  cbn [forEach]. apply bind_ext; [apply H|]. intros x' s'.
  apply bind_ext; [apply IH|]. reflexivity.
Qed.

Lemma forIndex_ext {A X} (b1 b2 : A -> X -> M S (A * X)) (l : list A) :
  (forall x acc s, b1 x acc s = b2 x acc s) ->
  forall acc s, forIndex l b1 acc s = forIndex l b2 acc s.
Proof.
  intros H. induction l as [|x l IH]; intros acc s; [reflexivity|].
  cbn [forIndex]. apply bind_ext; [apply H|]. intros [x' acc'] s'.
  apply bind_ext; [apply IH|]. reflexivity.
Qed.

Lemma RemoveIf_ext {A} (f1 f2 : A -> M S bool) (l : list A) :
  (forall x s, f1 x s = f2 x s) -> forall s, RemoveIf f1 l s = RemoveIf f2 l s.
Proof.
  intros H. induction l as [|x l IH]; intros s; [reflexivity|].
  cbn [RemoveIf]. apply bind_ext; [apply H|]. intros v s'.
  apply bind_ext; [apply IH|]. reflexivity.
Qed.

Lemma forRangeOn_Forall2 {A X} (R : A -> A -> Prop) (b1 b2 : A -> X -> M S X)
    (l l' : list A) :
  (forall x x' acc s, R x x' -> b1 x acc s = b2 x' acc s) ->
  Forall2 R l l' -> forall acc s, forRangeOn l b1 acc s = forRangeOn l' b2 acc s.
Proof.
  intros Hb H. induction H as [|x x' l l' Hx _ IH]; intros acc s; [reflexivity|].
  cbn [forRangeOn]. apply bind_ext; [intros s'; now apply Hb|]. intros acc' s'. apply IH.
Qed.
End LoopAlgebra.

Section Composition.
Context {W Ctx Resolver Rule : Type}.
Implicit Types (ap : @awsappsignalsprocessor W Ctx Resolver Rule) (st : State W).

(** X9. Processing a batch is processing its resources one after the other:
    a batch cut in two gives the first part processed, then the second part
    processed in the state the first left. *)
Theorem batches_compose ap (ctx : Ctx) (td1 td2 : Traces) (md1 md2 : Metrics) st :
  processTraces ap ctx (td1 ++ td2) st
  = (let '(r1, _, st1) := processTraces ap ctx td1 st in
     let '(r2, _, st2) := processTraces ap ctx td2 st1 in
     (r1 ++ r2, None, st2))
  /\ processMetrics ap ctx (md1 ++ md2) st
     = (let '(r1, _, st1) := processMetrics ap ctx md1 st in
        let '(r2, _, st2) := processMetrics ap ctx md2 st1 in
        (r1 ++ r2, None, st2)).
Proof.
  split.
  - unfold processTraces. rewrite !bind_run, forEach_app.
    destruct (forEach td1 _ st) as [r1 st1]. cbn [fst snd ret].
    rewrite !bind_run. destruct (forEach td2 _ st1) as [r2 st2]. reflexivity.
  - unfold processMetrics. rewrite !bind_run, forEach_app.
    destruct (forEach md1 _ st) as [r1 st1]. cbn [fst snd ret].
    rewrite !bind_run. destruct (forEach md2 _ st1) as [r2 st2]. reflexivity.
Qed.

(** X10. With an empty trace chain, as before [Start], spans pass through
    untouched: the batch and the state are returned as they came. *)
Theorem processTraces_without_mutators ap (ctx : Ctx) (td : Traces) st :
  traceMutators ap = [] ->
  processTraces ap ctx td st = (td, None, st).
Proof.
  intros H. unfold processTraces. rewrite bind_run, H, forEach_id; [reflexivity|].
  intros [res ilss] s. run. cbn [ResourceSpans_ScopeSpans ResourceSpans_Resource].
  rewrite forIndex_id; [reflexivity|].
  intros [scope spans] acc s'. run. cbn [ScopeSpans_Spans ScopeSpans_Scope].
  rewrite forIndex_id; [reflexivity|].
  intros [name attrs] acc' s''. reflexivity.
Qed.

Lemma step_agreeOn (lg lg' : Logger) (msg : string) (isTrace : bool)
    (m m' : @attributesMutator W) (maps : Map * Map) st :
  agreeOn isTrace m m' ->
  (let* (maps, err) := call (Process m (fst maps) (snd maps) isTrace) in
   match err with
   | Some err => Debug lg msg [zapError err]
   | None => ret tt
   end ;; ret maps) st
  = (let* (maps, err) := call (Process m' (fst maps) (snd maps) isTrace) in
     match err with
     | Some err => Debug lg' msg [zapError err]
     | None => ret tt
     end ;; ret maps) st.
Proof.
  intros H. run. rewrite (H (fst maps) (snd maps) (world st)).
  destruct (Process m' maps.1 maps.2 isTrace (world st)) as [[maps' [e|]] w'];
    reflexivity.
Qed.

(** X11. The trace chain is only ever called with [isTrace = true]: mutators
    that agree on such calls give the same traces, log and world. *)
Theorem processTraces_calls_with_isTrace_true
    (ap ap' : @awsappsignalsprocessor W Ctx Resolver Rule) (ctx : Ctx) (td : Traces) st :
  logger ap = logger ap' ->
  Forall2 (agreeOn true) (traceMutators ap) (traceMutators ap') ->
  processTraces ap ctx td st = processTraces ap' ctx td st.
Proof.
  intros _ H. revert st. unfold processTraces.
  apply bind_ext; [|reflexivity].
  apply forEach_ext. intros rs.
  apply bind_ext; [|reflexivity].
  apply forIndex_ext. intros ils acc.
  apply bind_ext; [|reflexivity].
  apply forIndex_ext. intros span acc'.
  apply bind_ext; [|reflexivity].
  apply (forRangeOn_Forall2 (agreeOn true)); [|exact H].
  intros m m' maps s Hm. now apply step_agreeOn.
Qed.

Lemma threePhases_agreeOn {D} (get : D -> Map) (set : D -> Map -> D)
    (ap ap' : @awsappsignalsprocessor W Ctx Resolver Rule) (dps : list D) (res : Map) :
  Forall2 (agreeOn false) (metricMutators ap) (metricMutators ap') ->
  agreeOn false (replaceActions ap) (replaceActions ap') ->
  allowlistMutators ap = allowlistMutators ap' ->
  forall st, threePhases get set ap dps res st = threePhases get set ap' dps res st.
Proof.
  intros Hm Hr Hf. unfold threePhases, mutatePhase, filterPhase, replacePhase.
  apply bind_ext.
  { apply forIndex_ext. intros d acc. apply bind_ext; [|reflexivity].
    unfold mutateDataPoint.
    apply (forRangeOn_Forall2 (agreeOn false)); [|exact Hm].
    intros m m' maps s H. now apply step_agreeOn. }
  intros [mutated res1]. apply bind_ext.
  { rewrite Hf. apply RemoveIf_ext. intros d s. induction (allowlistMutators ap') as [|f fs IH] in s |- *;
      [reflexivity|].
    cbn [shouldRemove]. apply bind_ext; [reflexivity|]. intros [v e] s'.
    apply bind_ext; [reflexivity|]. intros _ s''. destruct v; [reflexivity|apply IH]. }
  intros kept. apply forIndex_ext. intros d acc. apply bind_ext; [|reflexivity].
  intros s. unfold replaceDataPoint.
  now apply (step_agreeOn (logger ap) (logger ap') failedToProcessAttribute false
               (replaceActions ap) (replaceActions ap') (get d, acc)).
Qed.

(** X12. The metric chain and the replace actions are only ever called with
    [isTrace = false]: components that agree on such calls give the same
    metrics, log and world. *)
Theorem processMetrics_calls_with_isTrace_false
    (ap ap' : @awsappsignalsprocessor W Ctx Resolver Rule) (ctx : Ctx) (md : Metrics) st :
  logger ap = logger ap' ->
  Forall2 (agreeOn false) (metricMutators ap) (metricMutators ap') ->
  agreeOn false (replaceActions ap) (replaceActions ap') ->
  allowlistMutators ap = allowlistMutators ap' ->
  processMetrics ap ctx md st = processMetrics ap' ctx md st.
Proof.
  intros _ Hm Hr Hf. revert st. unfold processMetrics.
  apply bind_ext; [|reflexivity].
  apply forEach_ext. intros rs.
  apply bind_ext; [|reflexivity].
  apply forIndex_ext. intros ils acc.
  apply bind_ext; [|reflexivity].
  apply forIndex_ext. intros m acc' s.
  rewrite !processMetricAttributes_phases.
  destruct (Metric_Data m); [reflexivity|..];
    (apply bind_ext; [now apply threePhases_agreeOn|reflexivity]).
Qed.
End Composition.

Lemma processTraces_without_mutators_witness :
  processTraces fixture.created tt fixture.td0 fixture.st0
  = (fixture.td0, None, fixture.st0).
Proof.
  exact (processTraces_without_mutators fixture.created tt fixture.td0 fixture.st0
           eq_refl).
Defined.

Lemma processTraces_calls_with_isTrace_true_witness :
  processTraces fixture3.normalizing tt fixture.td0 fixture.st0
  = processTraces fixture3.flagged tt fixture.td0 fixture.st0.
Proof.
  apply (processTraces_calls_with_isTrace_true fixture3.normalizing fixture3.flagged
           tt fixture.td0 fixture.st0).
  - reflexivity.
  - repeat constructor.
Defined.

Lemma processMetrics_calls_with_isTrace_false_witness :
  processMetrics fixture3.normalizing tt fixture.md0 fixture.st0
  = processMetrics fixture3.flagged tt fixture.md0 fixture.st0.
Proof.
  apply (processMetrics_calls_with_isTrace_false fixture3.normalizing fixture3.flagged
           tt fixture.md0 fixture.st0).
  - reflexivity.
  - repeat constructor.
  - intros a r w. reflexivity.
  - reflexivity.
Defined.

Section Lifecycle.
Context {W Ctx Host Resolver Rule : Type}.
Variable NewAttributesResolver : list Resolver -> Logger -> M W (@attributesResolver W Ctx).
Variable NewAttributesNormalizer : Logger -> M W (@attributesNormalizer W).
Variable NewReplacer : list Rule -> M W (@ReplaceActions W).
Variable NewKeeper : list Rule -> M W (@KeepActions W).
Variable NewDropper : list Rule -> M W (@DropActions W).

Abbreviation Start'' :=
  (@Start W Ctx Host Resolver Rule NewAttributesResolver NewAttributesNormalizer
     NewReplacer NewKeeper NewDropper).

(** X13. [Start] keeps nothing of the chains, replace actions and stoppers the
    processor had: what it returns depends on the logger and the
    configuration only, so starting again rebuilds everything and forgets
    the stoppers registered before. *)
Theorem Start_overwrites (ap ap' : awsappsignalsprocessor) (ctx ctx' : Ctx)
    (host host' : Host) (st : State W) :
  logger ap = logger ap' -> config ap = config ap' ->
  Start'' ap ctx host st = Start'' ap' ctx' host' st.
Proof.
  intros Hl Hc. unfold Start.
  repeat (rewrite bind_run || rewrite call_run).
  unfold set_allowlistMutators, set_traceMutators, set_replaceActions,
    set_metricMutators, set_stoppers.
  cbn [fst snd world logged config logger replaceActions allowlistMutators
       metricMutators traceMutators stoppers].
  rewrite Hl, Hc. reflexivity.
Qed.

(** X14. [Shutdown] after [Start] stops the resolver [Start] has created,
    once, in the world [Start] left, and nothing else; it returns nil whether
    or not that [Stop] fails. *)
Theorem Shutdown_after_Start (ap : awsappsignalsprocessor) (ctx : Ctx) (host : Host)
    (st : State W) :
  let r := fst (NewAttributesResolver (Resolvers (config ap)) (logger ap) (world st)) in
  let '(ap', _, st1) := Start'' ap ctx host st in
  let '(err, st2) := Shutdown ap' ctx st1 in
  stoppers ap' = [resolverStopper r]
  /\ err = None
  /\ world st2 = snd (Stop r ctx (world st1)).
Proof.
  cbn zeta. unfold Start.
  repeat (rewrite bind_run || rewrite call_run).
  unfold set_allowlistMutators, set_traceMutators, set_replaceActions,
    set_metricMutators, set_stoppers.
  cbn [fst snd world logged config logger replaceActions allowlistMutators
       metricMutators traceMutators stoppers].
  unfold ret at 1. cbn [fst snd logged world].
  unfold Shutdown. cbn [stoppers forRange]. run.
  destruct (Stop _ ctx _) as [[e|] w']; run; repeat split.
Qed.
End Lifecycle.

Lemma Start_overwrites_witness :
  fixture.start fixture.started tt tt fixture.st0
  = fixture.start fixture.created tt tt fixture.st0.
Proof.
  exact (Start_overwrites _ _ _ _ _ fixture.started fixture.created tt tt tt tt
           fixture.st0 eq_refl eq_refl).
Defined.

Section TranslateMore.
Import ec2taggerprocessor.
Context {Conf : Type}.
Variable IsSet : Conf -> string -> bool.
Variable GetString : Conf -> string -> string * bool.
Variable ConfigKey : list string -> string.
Variables MetricsKey AppendDimensionsKey MetricsCollectedKey DiskKey : string.
Variables AttributeVolumeId ValueAppendDimensionVolumeId : string.
Variable unmarshalCredentials : Config -> Config * option error.
Variable StatusCodeID : component_ID.
Variable GetDefaultRetryNumber : Z.

Abbreviation TranslateWith table :=
  (Translate IsSet GetString ConfigKey MetricsKey AppendDimensionsKey
     MetricsCollectedKey DiskKey table AttributeVolumeId
     ValueAppendDimensionVolumeId unmarshalCredentials StatusCodeID
     GetDefaultRetryNumber).
Abbreviation appendWith table :=
  (appendDimensions GetString ConfigKey MetricsKey AppendDimensionsKey table).
Abbreviation key' := (Ec2taggerKey ConfigKey MetricsKey AppendDimensionsKey).
Abbreviation requested' := (requested GetString ConfigKey MetricsKey AppendDimensionsKey).
Abbreviation volumeId' :=
  (volumeIdConfigured GetString ConfigKey MetricsKey AppendDimensionsKey
     MetricsCollectedKey DiskKey AttributeVolumeId ValueAppendDimensionVolumeId).

Lemma appendDimensions_closed (table : list (string * string)) (conf : Conf)
    (cfg : Config) :
  appendWith table conf cfg
  = set_EC2MetadataTags
      (set_EC2InstanceTagKeys cfg
         (EC2InstanceTagKeys cfg
          ++ map fst (List.filter (fun kv => requested' conf kv
                                             && isAutoScalingGroupName kv) table)))
      (EC2MetadataTags cfg
       ++ map fst (List.filter (fun kv => requested' conf kv
                                          && negb (isAutoScalingGroupName kv)) table)).
Proof.
  unfold appendDimensions. revert cfg.
  induction table as [|[k v] table IH]; intros cfg.
  - cbn. rewrite !app_nil_r. now destruct cfg.
  - cbn [fold_left List.filter]. rewrite IH. clear IH.
    change (requested' conf (k, v))
      with (let (value, ok) := GetString conf (ConfigKey [key'; k]) in
            ok && String.eqb v value).
    change (isAutoScalingGroupName (k, v)) with (String.eqb k "AutoScalingGroupName").
    destruct (GetString conf (ConfigKey [key'; k])) as [value ok].
    unfold set_EC2MetadataTags, set_EC2InstanceTagKeys.
    destruct (ok && String.eqb v value); cbn [andb];
      [destruct (String.eqb k "AutoScalingGroupName")|]; cbn [andb negb map];
      destruct cfg; cbn; rewrite <- ?app_assoc; reflexivity.
Qed.

(** X15. A successful translation adds to the tags exactly the supported
    dimensions the configuration asks for, in the order of the table:
    [AutoScalingGroupName] to the instance tag keys, every other one to the
    metadata tags.  Keys that are not in the table, or that do not hold the
    placeholder of their dimension, add nothing. *)
Theorem Translate_tags (table : list (string * string)) (t : translator) (c : Conf) :
  IsSet c key' = true ->
  let base := fst (unmarshalCredentials (CreateDefaultConfig (factory t))) in
  exists cfg,
    TranslateWith table t (Some c) = (Some cfg, None)
    /\ EC2InstanceTagKeys cfg
       = EC2InstanceTagKeys base
         ++ map fst (List.filter (fun kv => requested' c kv
                                            && isAutoScalingGroupName kv) table)
    /\ EC2MetadataTags cfg
       = EC2MetadataTags base
         ++ map fst (List.filter (fun kv => requested' c kv
                                            && negb (isAutoScalingGroupName kv)) table).
Proof.
  intros Hset. cbn zeta. unfold Translate. rewrite Hset. cbn [negb].
  eexists. split; [reflexivity|]. rewrite appendDimensions_closed.
  destruct (GetString c _) as [value ok].
  destruct (ok && String.eqb value ValueAppendDimensionVolumeId); split; reflexivity.
Qed.

(** X16. The fields a successful translation sets besides intervals and tags: the
    middleware id and the retry number always; the device keys and the device
    tag key when the volume id is configured, and otherwise these two stay as
    the defaults and the credentials left them, as the credentials do. *)
Theorem Translate_other_fields (table : list (string * string)) (t : translator)
    (c : Conf) :
  IsSet c key' = true ->
  let base := fst (unmarshalCredentials (CreateDefaultConfig (factory t))) in
  exists cfg,
    TranslateWith table t (Some c) = (Some cfg, None)
    /\ MiddlewareID cfg = Some StatusCodeID
    /\ IMDSRetries cfg = GetDefaultRetryNumber
    /\ EBSDeviceKeys cfg = (if volumeId' c then ["*"] else EBSDeviceKeys base)
    /\ DiskDeviceTagKey cfg = (if volumeId' c then "device" else DiskDeviceTagKey base)
    /\ Credentials cfg = Credentials base.
Proof.
  intros Hset. cbn zeta. unfold Translate. rewrite Hset. cbn [negb].
  eexists. split; [reflexivity|]. rewrite appendDimensions_closed.
  unfold volumeIdConfigured.
  destruct (GetString c _) as [value ok].
  destruct (ok && String.eqb value ValueAppendDimensionVolumeId); repeat split.
Qed.

Lemma Permutation_filter_map (f : string * string -> bool) (l l' : list (string * string)) :
  Permutation l l' -> Permutation (map fst (List.filter f l)) (map fst (List.filter f l')).
Proof.
  induction 1 as [|x l l' _ IH|x y l|l l' l'' _ IH1 _ IH2].
  - constructor.
  - cbn. destruct (f x); cbn; [now constructor|exact IH].
  - cbn. destruct (f x), (f y); cbn; try reflexivity. apply perm_swap.
  - now transitivity (map fst (List.filter f l')).
Qed.

(** X17. The order in which the table of supported dimensions is enumerated (in
    Go the order of a map, which is not fixed) changes nothing but the order
    of the tags: the error is the same, and so is the config up to a
    permutation of each of its two lists of tags. *)
Theorem Translate_up_to_enumeration_order (table table' : list (string * string))
    (t : translator) (conf : option Conf) :
  Permutation table table' ->
  snd (TranslateWith table t conf) = snd (TranslateWith table' t conf)
  /\ match fst (TranslateWith table t conf), fst (TranslateWith table' t conf) with
     | Some cfg, Some cfg' =>
         Permutation (EC2InstanceTagKeys cfg) (EC2InstanceTagKeys cfg')
         /\ Permutation (EC2MetadataTags cfg) (EC2MetadataTags cfg')
         /\ withoutTags cfg = withoutTags cfg'
     | None, None => True
     | _, _ => False
     end.
Proof.
  intros Hperm. destruct conf as [c|]; [|split; constructor].
  unfold Translate. destruct (IsSet c key'); cbn [negb fst snd]; [|split; constructor].
  split; [reflexivity|]. rewrite !appendDimensions_closed.
  destruct (GetString c _) as [value ok].
  destruct (ok && String.eqb value ValueAppendDimensionVolumeId);
    cbn; (split; [|split; [|reflexivity]]);
    apply Permutation_app_head; now apply Permutation_filter_map.
Qed.
End TranslateMore.

Lemma Translate_tags_witness :
  exists cfg,
    ec2fixture.translate ec2fixture.t (Some ec2fixture2.allDimensions) = (Some cfg, None)
    /\ ec2taggerprocessor.EC2InstanceTagKeys cfg = ["AutoScalingGroupName"]
    /\ ec2taggerprocessor.EC2MetadataTags cfg = ["ImageId"; "InstanceId"; "InstanceType"].
Proof.
  exact (Translate_tags ec2fixture.IsSet ec2fixture.GetString ec2fixture.ConfigKey
           "metrics" "append_dimensions" "metrics_collected" "disk"
           "VolumeId" "${aws:VolumeId}" (fun cfg => (cfg, None))
           (ec2taggerprocessor.NewIDWithName "agenthealth" "statuscode") 1%Z
           ec2fixture.SupportedAppendDimensions ec2fixture.t
           ec2fixture2.allDimensions eq_refl).
Defined.

Lemma Translate_other_fields_witness :
  exists cfg,
    ec2fixture.translate ec2fixture.t (Some ec2fixture.withVolumes) = (Some cfg, None)
    /\ ec2taggerprocessor.MiddlewareID cfg
       = Some (ec2taggerprocessor.NewIDWithName "agenthealth" "statuscode")
    /\ ec2taggerprocessor.IMDSRetries cfg = 1%Z
    /\ ec2taggerprocessor.EBSDeviceKeys cfg = ["*"]
    /\ ec2taggerprocessor.DiskDeviceTagKey cfg = "device"
    /\ ec2taggerprocessor.Credentials cfg = ∅.
Proof.
  exact (Translate_other_fields ec2fixture.IsSet ec2fixture.GetString
           ec2fixture.ConfigKey
           "metrics" "append_dimensions" "metrics_collected" "disk"
           "VolumeId" "${aws:VolumeId}" (fun cfg => (cfg, None))
           (ec2taggerprocessor.NewIDWithName "agenthealth" "statuscode") 1%Z
           ec2fixture.SupportedAppendDimensions ec2fixture.t
           ec2fixture.withVolumes eq_refl).
Defined.

Lemma Translate_up_to_enumeration_order_witness :
  snd (ec2fixture.translate ec2fixture.t (Some ec2fixture2.allDimensions))
  = snd (ec2fixture2.translateBackwards ec2fixture.t (Some ec2fixture2.allDimensions))
  /\ match fst (ec2fixture.translate ec2fixture.t (Some ec2fixture2.allDimensions)),
           fst (ec2fixture2.translateBackwards ec2fixture.t
                  (Some ec2fixture2.allDimensions)) with
     | Some cfg, Some cfg' =>
         Permutation (ec2taggerprocessor.EC2InstanceTagKeys cfg)
           (ec2taggerprocessor.EC2InstanceTagKeys cfg')
         /\ Permutation (ec2taggerprocessor.EC2MetadataTags cfg)
              (ec2taggerprocessor.EC2MetadataTags cfg')
         /\ withoutTags cfg = withoutTags cfg'
     | None, None => True
     | _, _ => False
     end.
Proof.
  apply (Translate_up_to_enumeration_order ec2fixture.IsSet ec2fixture.GetString
           ec2fixture.ConfigKey
           "metrics" "append_dimensions" "metrics_collected" "disk"
           "VolumeId" "${aws:VolumeId}" (fun cfg => (cfg, None))
           (ec2taggerprocessor.NewIDWithName "agenthealth" "statuscode") 1%Z
           ec2fixture.SupportedAppendDimensions
           (rev ec2fixture.SupportedAppendDimensions) ec2fixture.t
           (Some ec2fixture2.allDimensions)).
  apply (bool_decide_unpack _). vm_compute. exact I.
Defined.

Example Translate_backwards_reverses_the_tags :
  option_map ec2taggerprocessor.EC2MetadataTags
    (fst (ec2fixture2.translateBackwards ec2fixture.t (Some ec2fixture2.allDimensions)))
  = Some ["InstanceType"; "InstanceId"; "ImageId"].
Proof. vm_compute. reflexivity. Qed.

Section ReadOnly.
Context {W Ctx Resolver Rule : Type}.
Implicit Types (ap : @awsappsignalsprocessor W Ctx Resolver Rule) (st : State W).

Lemma fold_effect_readOnly (isTrace : bool) (ms : list (@attributesMutator W))
    (a r : Map) (w : W) :
  Forall readOnly ms ->
  fold_left (effect isTrace) ms (a, r, w) = (chained isTrace ms w r a, r, w).
Proof.
  intros H. unfold chained. revert a. induction H as [|m ms Hm _ IH]; intros a;
    [reflexivity|].
  cbn [fold_left]. unfold effect at 2 4.
  destruct (Hm a r isTrace w) as [Hw Hr].
  destruct (Process m a r isTrace w) as [[[a' r'] e] w']. cbn [fst snd] in *.
  subst w' r'. apply IH.
Qed.

Lemma chain_readOnly (lg : Logger) (msg : string) (isTrace : bool)
    (ms : list (@attributesMutator W)) (a r : Map) st :
  Forall readOnly ms ->
  let c := forRangeOn ms (fun mutator maps =>
      let* (maps, err) := call (Process mutator (fst maps) (snd maps) isTrace) in
      match err with
      | Some err => Debug lg msg [zapError err]
      | None => ret tt
      end ;;
      ret maps) (a, r) st in
  fst c = (chained isTrace ms (world st) r a, r) /\ world (snd c) = world st.
Proof.
  intros H. cbn zeta.
  pose proof (chain_effect lg msg isTrace ms (a, r) st) as E. cbn zeta in E.
  rewrite fold_effect_readOnly in E by exact H. now injection E.
Qed.

Lemma forIndex_pure {A X} (f : A -> A) (w0 : W) (r0 : X)
    (body : A -> X -> M (State W) (A * X)) :
  (forall x s, world s = w0 ->
     fst (body x r0 s) = (f x, r0) /\ world (snd (body x r0 s)) = w0) ->
  forall l s, world s = w0 ->
    fst (forIndex l body r0 s) = (map f l, r0)
    /\ world (snd (forIndex l body r0 s)) = w0.
Proof.
  intros Hb l. induction l as [|x l IH]; intros s Hs; [now split|].
  cbn [forIndex map]. run. destruct (Hb x s Hs) as [E1 E2]. rewrite E1. cbn [fst snd].
  destruct (IH _ E2) as [E3 E4]. rewrite E3, E4. now split.
Qed.

Lemma forEach_pure {A} (f : A -> A) (w0 : W) (body : A -> M (State W) A) :
  (forall x s, world s = w0 -> fst (body x s) = f x /\ world (snd (body x s)) = w0) ->
  forall l s, world s = w0 ->
    fst (forEach l body s) = map f l /\ world (snd (forEach l body s)) = w0.
Proof.
  intros Hb l. induction l as [|x l IH]; intros s Hs; [now split|].
  cbn [forEach map]. run. destruct (Hb x s Hs) as [E1 E2]. rewrite E1.
  destruct (IH _ E2) as [E3 E4]. rewrite E3, E4. now split.
Qed.

(** X18. With trace mutators that leave the world and the resource attributes
    alone, every span is processed on its own: the batch returned is the
    batch given with the attribute set of each span replaced by what the
    chain makes of it, and the world is left as it was. *)
Theorem processTraces_span_by_span ap (ctx : Ctx) (td : Traces) st :
  Forall readOnly (traceMutators ap) ->
  fst (fst (processTraces ap ctx td st))
  = map (fun rs =>
      mkResourceSpans (ResourceSpans_Resource rs)
        (map (fun ils =>
           mkScopeSpans (ScopeSpans_Scope ils)
             (map (fun span =>
                mkSpan (Span_Name span)
                  (chained true (traceMutators ap) (world st)
                     (ResourceSpans_Resource rs) (Span_Attributes span)))
              (ScopeSpans_Spans ils)))
         (ResourceSpans_ScopeSpans rs))) td
  /\ world (snd (processTraces ap ctx td st)) = world st.
Proof.
  intros H. unfold processTraces. run.
  apply forEach_pure; [|reflexivity]. intros rs s Hs. run.
  match goal with |- context [forIndex ?l ?b ?r s] =>
    destruct (forIndex_pure (fun ils =>
           mkScopeSpans (ScopeSpans_Scope ils)
             (map (fun span =>
                mkSpan (Span_Name span)
                  (chained true (traceMutators ap) (world st)
                     (ResourceSpans_Resource rs) (Span_Attributes span)))
              (ScopeSpans_Spans ils))) (world st) r b) with l s as [E1 E2]
  end; [|exact Hs|].
  - intros ils s1 Hs1. run.
    match goal with |- context [forIndex ?l ?b ?r s1] =>
      destruct (forIndex_pure (fun span =>
                mkSpan (Span_Name span)
                  (chained true (traceMutators ap) (world st)
                     (ResourceSpans_Resource rs) (Span_Attributes span)))
                (world st) r b) with l s1 as [E1 E2]
    end; [|exact Hs1|].
    + intros span s2 Hs2. run.
      destruct (chain_readOnly (logger ap) "failed to Process span" true
                  (traceMutators ap) (Span_Attributes span)
                  (ResourceSpans_Resource rs) s2 H) as [E1 E2].
      rewrite E1, E2, Hs2. now split.
    + rewrite E1, E2. now split.
  - rewrite E1, E2. now split.
Qed.

Lemma mutateDataPoint_readOnly ap (a res : Map) st :
  Forall readOnly (metricMutators ap) ->
  fst (mutateDataPoint ap a res st)
  = (chained false (metricMutators ap) (world st) res a, res)
  /\ world (snd (mutateDataPoint ap a res st)) = world st.
Proof. intros H. unfold mutateDataPoint. now apply chain_readOnly. Qed.

Lemma replaceDataPoint_readOnly ap (a res : Map) st :
  readOnly (replaceActions ap) ->
  fst (replaceDataPoint ap a res st)
  = (chained false [replaceMutator (replaceActions ap)] (world st) res a, res)
  /\ world (snd (replaceDataPoint ap a res st)) = world st.
Proof.
  intros H. unfold replaceDataPoint, chained. run. cbn [fold_left effect].
  destruct (H a res false (world st)) as [Hw Hr].
  destruct (Process (replaceActions ap) a res false (world st)) as [[[a' r'] e] w'].
  cbn [fst snd] in *. subst. destruct e; run; now split.
Qed.

Lemma threePhases_readOnly {D} (get : D -> Map) (set : D -> Map -> D) ap
    (dps : list D) (res : Map) st :
  (forall d a, get (set d a) = a) ->
  Forall readOnly (metricMutators ap) ->
  Forall statelessFilter (allowlistMutators ap) ->
  readOnly (replaceActions ap) ->
  fst (threePhases get set ap dps res st)
  = (map (fun d => set d (chained false [replaceMutator (replaceActions ap)]
                            (world st) res (get d)))
       (List.filter (fun d => negb (dropVerdict (allowlistMutators ap) (world st) (get d)))
          (map (fun d => set d (chained false (metricMutators ap) (world st) res (get d)))
             dps)),
     res)
  /\ world (snd (threePhases get set ap dps res st)) = world st.
Proof.
  intros get_set Hm Hf Hr. unfold threePhases. run.
  destruct (forIndex_pure
    (fun d => set d (chained false (metricMutators ap) (world st) res (get d)))
    (world st) res
    (fun d res => let* (attributes, res) := mutateDataPoint ap (get d) res in
                  ret (set d attributes, res))) with dps st as [E1 E2];
    [|reflexivity|].
  { intros d s Hs. run.
    destruct (mutateDataPoint_readOnly ap (get d) res s Hm) as [E1 E2].
    rewrite E1, E2, Hs. now split. }
  fold (mutatePhase get set ap dps res st) in E1, E2.
  rewrite E1. cbn [fst snd].
  destruct (filterPhase_stateless get ap
    (map (fun d => set d (chained false (metricMutators ap) (world st) res (get d))) dps)
    (world st) (snd (mutatePhase get set ap dps res st)) Hf E2) as [E3 E4].
  rewrite E3.
  destruct (forIndex_pure
    (fun d => set d (chained false [replaceMutator (replaceActions ap)]
                       (world st) res (get d)))
    (world st) res
    (fun d res => let* (attributes, res) := replaceDataPoint ap (get d) res in
                  ret (set d attributes, res))) with
    (List.filter (fun d => negb (dropVerdict (allowlistMutators ap) (world st) (get d)))
       (map (fun d => set d (chained false (metricMutators ap) (world st) res (get d)))
          dps))
    (snd (filterPhase get ap
            (map (fun d => set d (chained false (metricMutators ap) (world st) res (get d)))
               dps)
            (snd (mutatePhase get set ap dps res st)))) as [E5 E6];
    [|exact E4|].
  { intros d s Hs. run.
    destruct (replaceDataPoint_readOnly ap (get d) res s Hr) as [E5 E6].
    rewrite E5, E6, Hs. now split. }
  fold (replacePhase get set ap
    (List.filter (fun d => negb (dropVerdict (allowlistMutators ap) (world st) (get d)))
       (map (fun d => set d (chained false (metricMutators ap) (world st) res (get d)))
          dps)) res) in E5, E6.
  rewrite E5, E6. now split.
Qed.

Lemma view_map_filter_map {D P} (get : D -> Map) (set : D -> Map -> D) (pay : D -> P)
    (Mf Rf : Map -> Map) (keep : Map -> bool) (dps : list D) :
  (forall d a, get (set d a) = a) ->
  (forall d a, pay (set d a) = pay d) ->
  map (fun d => (get d, pay d))
    (map (fun d => set d (Rf (get d)))
       (List.filter (fun d => keep (get d)) (map (fun d => set d (Mf (get d))) dps)))
  = map (fun p : Map * P => (Rf (fst p), snd p))
      (List.filter (fun p : Map * P => keep (fst p))
         (map (fun p : Map * P => (Mf (fst p), snd p))
            (map (fun d => (get d, pay d)) dps))).
Proof.
  intros get_set pay_set. induction dps as [|d dps IH]; [reflexivity|].
  cbn [map List.filter fst snd]. rewrite get_set.
  destruct (keep (Mf (get d))); cbn [map fst snd]; rewrite ?get_set, ?pay_set, IH;
    reflexivity.
Qed.

(** X19. With components that keep no state and leave the resource attributes
    alone, a metric of any kind is processed point by point: each data point
    gets the attribute set the metric chain makes of its own, is dropped when
    some filter asks so for that set, and otherwise gets what the replace
    actions make of it; timestamps and values stay.  The resource attributes
    and the world are left as they were. *)
Theorem processMetricAttributes_point_by_point ap (ctx : Ctx) (m : Metric) (res : Map) st :
  Forall readOnly (metricMutators ap) ->
  Forall statelessFilter (allowlistMutators ap) ->
  readOnly (replaceActions ap) ->
  let r := processMetricAttributes ap ctx m res st in
  points (Metric_Data (fst (fst r)))
  = map (fun p => (chained false [replaceMutator (replaceActions ap)] (world st) res
                     (fst p), snd p))
      (List.filter (fun p => negb (dropVerdict (allowlistMutators ap) (world st) (fst p)))
         (map (fun p => (chained false (metricMutators ap) (world st) res (fst p), snd p))
            (points (Metric_Data m))))
  /\ snd (fst r) = res
  /\ world (snd r) = world st.
Proof.
  intros Hm Hf Hr. cbn zeta. rewrite processMetricAttributes_phases.
  destruct m as [name [|dps|dps|dps|dps|dps]]; cbn [Metric_Data Metric_Name]; run;
    cbn [Metric_Data points map List.filter]; [now repeat split|..];
    match goal with |- context [threePhases ?get ?set ap dps res st] =>
      destruct (threePhases_readOnly get set ap dps res st
                  ltac:(reflexivity) Hm Hf Hr) as [E1 E2]
    end; rewrite E1, E2; cbn [fst snd]; (split; [|now split]);
    apply (view_map_filter_map _ _ _
             (chained false (metricMutators ap) (world st) res)
             (chained false [replaceMutator (replaceActions ap)] (world st) res)
             (fun a => negb (dropVerdict (allowlistMutators ap) (world st) a)));
    reflexivity.
Qed.
End ReadOnly.

Lemma processTraces_span_by_span_witness :
  fst (fst (processTraces fixture3.pure tt fixture.td0 fixture.st0))
  = [mkResourceSpans fixture.host
       [mkScopeSpans "http"
          [mkSpan "GET /" fixture.checkoutUnresolved;
           mkSpan "POST /cart"
             {[ "service" := ValueStr "cart"; "ip" := ValueStr "unresolved" ]}]]].
Proof.
  apply (processTraces_span_by_span fixture3.pure tt fixture.td0 fixture.st0).
  repeat constructor.
Defined.

Lemma processMetricAttributes_point_by_point_witness :
  points (Metric_Data (fst (fst (processMetricAttributes fixture3.pure tt
                                   fixture3.requests fixture.host fixture.st0))))
  = [({[ "service" := ValueStr "checkout-service" ]}, (100%Z, [7%Z]))].
Proof.
  apply (processMetricAttributes_point_by_point fixture3.pure tt fixture3.requests
           fixture.host fixture.st0).
  - repeat constructor.
  - repeat constructor.
  - intros a r b w. split; reflexivity.
Defined.
